(** * Verification of the resume generator (generate_resume.py)

    Shallow embedding of the markup builder and of the archive splicer,
    followed by the properties of the specification that concern them. *)

From Stdlib Require Import ZArith Lia Ascii.
From stdpp Require Import base option list strings gmap pretty.

Local Open Scope Z_scope.
Local Open Scope string_scope.
Local Open Scope list_scope.

(** ** Exceptions and results *)

Inductive exn : Type :=
  | KeyError (key : string)
  | TypeError
  | AttributeError
  | FileNotFoundError (path : string)
  | PermissionError (path : string)
  | IsADirectoryError (path : string)
  | NotADirectoryError
  | FileExistsError
  | OSError (errno : Z)
  | SameFileError (path : string)
  | ShutilError (path : string)
  | JSONDecodeError
  | BadZipFile.

Inductive result (A : Type) : Type :=
  | Ok (a : A)
  | Raise (e : exn).
Arguments Ok {A} a.
Arguments Raise {A} e.

#[global] Instance result_ret : MRet result := fun _ a => Ok a.
#[global] Instance result_bind : MBind result := fun _ _ k r =>
  match r with
  | Ok a => k a
  | Raise e => Raise e
  end.

(** [d[key]] on a dict: a missing key raises [KeyError]. *)
Definition getitem {A} (key : string) (field : option A) : result A :=
  match field with
  | Some a => Ok a
  | None => Raise (KeyError key)
  end.

(** ** Input data, as loaded from JSON *)

Module Input.
Record Education := mkEducation {
  degree : option string;
  university : option string }.

Record JobEntry := mkJob {
  title : option string;
  dates : option string;
  company : option string;
  bullets : option (list string) }.

Record ResumeInput := mkInput {
  name : option string;
  phone : option string;
  email : option string;
  summary : option string;
  education : option Education;
  badges : option (list string);
  jobs : option (list JobEntry) }.
End Input.
Import Input.

(** ** XML elements (xml.etree.ElementTree.Element) *)

#[local] Set Warnings "-register-all".

Inductive Element : Type :=
  El (tag : string) (attrib : list (string * string))
     (text : option string) (children : list Element).

Definition el_tag (e : Element) : string := let 'El t _ _ _ := e in t.
Definition el_attrib (e : Element) := let 'El _ a _ _ := e in a.
Definition el_text (e : Element) := let 'El _ _ x _ := e in x.
Definition el_children (e : Element) := let 'El _ _ _ c := e in c.


(** [Element(tag, attrib)] with children appended by [SubElement], and the
    same with [.text] assigned. *)
Definition E (tag : string) (attrib : list (string * string))
    (children : list Element) : Element := El tag attrib None children.
Definition T (tag : string) (attrib : list (string * string))
    (text : string) : Element := El tag attrib (Some text) [].

(** A serialised markup part: the XML declaration followed by
    [tostring(root, encoding="unicode")]. *)
Record XmlDoc := mkXmlDoc { xml_decl : string; xml_root : Element }.

(** ** Constants *)

Definition NS : list (string * string) := [
  ("w", "http://schemas.openxmlformats.org/wordprocessingml/2006/main");
  ("w14", "http://schemas.microsoft.com/office/word/2010/wordml");
  ("r", "http://schemas.openxmlformats.org/officeDocument/2006/relationships");
  ("wp", "http://schemas.openxmlformats.org/drawingml/2006/wordprocessingDrawing");
  ("wp14", "http://schemas.microsoft.com/office/word/2010/wordprocessingDrawing");
  ("a", "http://schemas.openxmlformats.org/drawingml/2006/main");
  ("a14", "http://schemas.microsoft.com/office/drawing/2010/main");
  ("pic", "http://schemas.openxmlformats.org/drawingml/2006/picture");
  ("mc", "http://schemas.openxmlformats.org/markup-compatibility/2006");
  ("wpc", "http://schemas.microsoft.com/office/word/2010/wordprocessingCanvas");
  ("o", "urn:schemas-microsoft-com:office:office");
  ("v", "urn:schemas-microsoft-com:vml");
  ("m", "http://schemas.openxmlformats.org/officeDocument/2006/math");
  ("wps", "http://schemas.microsoft.com/office/word/2010/wordprocessingShape");
  ("wne", "http://schemas.microsoft.com/office/word/2006/wordml");
  ("w10", "urn:schemas-microsoft-com:office:word");
  ("w15", "http://schemas.microsoft.com/office/word/2012/wordml");
  ("w16se", "http://schemas.microsoft.com/office/word/2015/wordml/symex");
  ("w16cid", "http://schemas.microsoft.com/office/word/2016/wordml/cid");
  ("w16", "http://schemas.microsoft.com/office/word/2018/wordml");
  ("w16cex", "http://schemas.microsoft.com/office/word/2018/wordml/cex");
  ("w16sdtdh", "http://schemas.microsoft.com/office/word/2020/wordml/sdtdatahash");
  ("wpg", "http://schemas.microsoft.com/office/word/2010/wordprocessingGroup");
  ("wpi", "http://schemas.microsoft.com/office/word/2010/wordprocessingInk");
  ("cx", "http://schemas.microsoft.com/office/drawing/2014/chartex");
  ("cx1", "http://schemas.microsoft.com/office/drawing/2015/9/8/chartex");
  ("cx2", "http://schemas.microsoft.com/office/drawing/2015/10/21/chartex");
  ("cx3", "http://schemas.microsoft.com/office/drawing/2016/5/9/chartex");
  ("cx4", "http://schemas.microsoft.com/office/drawing/2016/5/10/chartex");
  ("cx5", "http://schemas.microsoft.com/office/drawing/2016/5/11/chartex");
  ("cx6", "http://schemas.microsoft.com/office/drawing/2016/5/12/chartex");
  ("cx7", "http://schemas.microsoft.com/office/drawing/2016/5/13/chartex");
  ("cx8", "http://schemas.microsoft.com/office/drawing/2016/5/14/chartex");
  ("aink", "http://schemas.microsoft.com/office/drawing/2016/ink");
  ("am3d", "http://schemas.microsoft.com/office/drawing/2017/model3d");
  ("oel", "http://schemas.microsoft.com/office/2019/extlst");
  ("w16du", "http://schemas.microsoft.com/office/word/2023/wordml/word16du");
  ("w16sdtfl", "http://schemas.microsoft.com/office/word/2024/wordml/sdtformatlock")
].

(** [NS[prefix]] for the prefixes the builders use (all are in the table). *)
Fixpoint assoc {V} (k : string) (l : list (string * V)) : option V :=
  match l with
  | [] => None
  | (k', v) :: l' => if String.eqb k k' then Some v else assoc k l'
  end.

Definition NS_get (prefix : string) : string := default EmptyString (assoc prefix NS).

(** Badge registry: key -> (filename, cx_emu, cy_emu, description). *)
Definition BadgeCfg : Type := string * Z * Z * string.
Definition cfg_filename (c : BadgeCfg) : string := c.1.1.1.
Definition cfg_cx (c : BadgeCfg) : Z := c.1.1.2.
Definition cfg_cy (c : BadgeCfg) : Z := c.1.2.
Definition cfg_descr (c : BadgeCfg) : string := c.2.

Definition BADGE_REGISTRY : gmap string BadgeCfg :=
  <["csm" := ("csm.png", 962025, 838200, "Scrum Alliance CSM Certified")]>
  (<["ts_sci" := ("ts_sci.png", 723900, 781050, "TS/SCI Clearance")]>
  (<["aws_cloud_practitioner" :=
       ("aws_cloud_practitioner.png", 795478, 795478, "AWS Cloud Practitioner")]>
  (<["security_plus" :=
       ("security_plus.png", 822960, 822960, "CompTIA Security+ Certified")]> ∅))).

(** Badge positions for 4 badges (from the template, in EMU). *)
Definition BADGE_POSITIONS_4 : gmap string (Z * Z) :=
  <["aws_cloud_practitioner" := (3219450, 76200)]>
  (<["security_plus" := (4076700, 57150)]>
  (<["csm" := (4905375, 57150)]>
  (<["ts_sci" := (5848350, 95250)]> ∅))).

Definition BADGE_AREA_LEFT : Z := 3219450.
Definition BADGE_AREA_RIGHT : Z := 6572250.
Definition BADGE_AREA_CENTER : Z := (BADGE_AREA_LEFT + BADGE_AREA_RIGHT) `div` 2.
Definition BADGE_VERTICAL_DEFAULT : Z := 57150.

(** Relationship IDs: badges start at rId11 in the template. *)
Definition BADGE_RID_START : Z := 11.

(** Header/footer relationship IDs (fixed from template), in dict order. *)
Definition HEADER_FOOTER_RELS : list (string * (string * string)) := [
  ("rId15", ("header", "header1.xml"));
  ("rId16", ("header", "header2.xml"));
  ("rId17", ("footer", "footer1.xml"));
  ("rId18", ("footer", "footer2.xml"));
  ("rId19", ("header", "header3.xml"));
  ("rId20", ("footer", "footer3.xml"))
].

(** ** Helpers: qualified names [{uri}tag] *)

Definition qn (prefix tag : string) : string :=
  "{" +:+ NS_get prefix +:+ "}" +:+ tag.

Definition w (tag : string) : string := qn "w" tag.
Definition w14 (tag : string) : string := qn "w14" tag.
Definition r_ns (tag : string) : string := qn "r" tag.
Definition wp (tag : string) : string := qn "wp" tag.
Definition wp14 (tag : string) : string := qn "wp14" tag.
Definition a (tag : string) : string := qn "a" tag.
Definition a14 (tag : string) : string := qn "a14" tag.
Definition pic (tag : string) : string := qn "pic" tag.
Definition mc (tag : string) : string := qn "mc" tag.

(** [str(n)] and the f-string [rId{n}]. *)
Definition str (n : Z) : string := pretty n.
Definition rId (n : Z) : string := "rId" +:+ str n.

(** ** Files and archives *)

Record ZipInfo := mkZipInfo {
  filename : string;
  date_time : Z;
  compress_type : Z;
  external_attr : Z }.

(** The bytes of a file or of an archive member, described by what they
    hold: raw data, a markup part encoded as UTF-8
    ([doc_xml.encode("utf-8")]), a JSON text, or a ZIP archive with its
    members in central-directory order.  A member is its [ZipInfo] with the
    data stored for it; [None] is data that cannot be read back (bad CRC or
    broken compressed stream). *)
Inductive Content : Type :=
  | Data (bytes : list Byte.byte)
  | Markup (doc : XmlDoc)
  | Json (data : ResumeInput)
  | Archive (members : list (ZipInfo * option Content)).

Definition Member : Type := ZipInfo * option Content.
Definition mkMember (i : ZipInfo) (c : option Content) : Member := (i, c).
Definition info (m : Member) : ZipInfo := m.1.
Definition stored (m : Member) : option Content := m.2.

Record File := mkFile {
  st_mtime : Z;
  st_mode : Z;
  body : Content }.

(** The interpreter process and the machine it runs on.  The built-in
    [hash] on [str] is keyed by a secret drawn when the interpreter starts
    (PYTHONHASHSEED), the project root is where the script is installed,
    [mkstemp_name] is the unused name [tempfile.mkstemp] comes up with and
    [now] stamps the files written; [str_repr] is [repr] on a [str] (quotes
    and escapes).  The machine may refuse a system call: [mkdir_fault] is
    the [OSError] of [os.mkdir] on a path (a parent that cannot be written),
    [rename_fault src dst] that of [os.rename] (another file system, a
    directory that cannot be written), [copy_fault src dst] the error that
    interrupts the writing of [dst] together with what is left there
    ([None]: [dst] was not touched), [unlink_fault] the error of
    [os.unlink]; [dir_stat] gives the time stamp and mode of a directory. *)
Record Process := mkProcess {
  str_hash : string -> Z;
  PROJECT_ROOT : string;
  mkstemp_name : string;
  now : Z;
  str_repr : string -> string;
  mkdir_fault : string -> option exn;
  rename_fault : string -> string -> option exn;
  copy_fault : string -> string -> option (exn * option File);
  unlink_fault : string -> option exn;
  dir_stat : string -> Z * Z }.

(** A process on a machine that refuses nothing. *)
Definition quiet_process (h : string -> Z) (root tmp : string) (t : Z) : Process :=
  mkProcess h root tmp t
    (fun s => String (Ascii.ascii_of_nat 39) s +:+ String (Ascii.ascii_of_nat 39) EmptyString)
    (fun _ => None) (fun _ _ => None) (fun _ _ => None) (fun _ => None)
    (fun _ => (t, 16877)).


(** ** XML builder functions *)

Definition val (v : string) : list (string * string) := [(w "val", v)].

(** The five [w:val="nil"] border sides under a [w:pBdr]. *)
Definition nil_borders : Element :=
  E (w "pBdr") []
    (map (fun side => E (w side) (val "nil") [])
         ["top"; "left"; "bottom"; "right"; "between"]).

Definition black_text1 : list (string * string) :=
  [(w "val", "000000"); (w "themeColor", "text1")].

Definition build_contact_paragraph (name phone email : string) : Element :=
  E (w "p") [] [
    E (w "pPr") [] [
      E (w "jc") (val "center") [];
      E (w "rPr") [] [E (w "b") [] []; E (w "bCs") [] []]];
    E (w "r") [] [
      E (w "rPr") [] [E (w "b") [] []; E (w "bCs") [] []];
      T (w "t") [] (name +:+ " | " +:+ phone +:+ " | " +:+ email)]].

Definition build_section_heading (title : string) : Element :=
  E (w "p") [] [
    E (w "pPr") [] [
      E (w "keepNext") [] [];
      E (w "keepLines") [] [];
      nil_borders;
      E (w "shd") [(w "val", "clear"); (w "color", "auto"); (w "fill", "D3E2F1")] [];
      E (w "spacing") [(w "before", "120"); (w "after", "120")] [];
      E (w "ind") [(w "left", "-720"); (w "right", "-720"); (w "firstLine", "864")] [];
      E (w "jc") (val "center") [];
      E (w "rPr") [] [E (w "b") [] []; E (w "color") (val "000000") []]];
    E (w "r") [] [
      E (w "rPr") [] [E (w "b") [] []; E (w "bCs") [] []; E (w "color") black_text1 []];
      T (w "t") [] title]].

Definition build_summary_paragraph (text : string) : Element :=
  E (w "p") [] [
    E (w "pPr") [] [
      E (w "pStyle") (val "NoSpacing") [];
      E (w "jc") (val "center") []];
    E (w "r") [] [
      E (w "rPr") [] [
        E (w "rFonts") [(w "ascii", "Times New Roman"); (w "eastAsia", "Times New Roman");
                        (w "hAnsi", "Times New Roman"); (w "cs", "Times New Roman")] [];
        E (w "sz") (val "22") []];
      T (w "t") [] text]].

(** [hash(badge_key) % 2000000000], as a decimal string. *)
Definition drawing_id (P : Process) (badge_key : string) : string :=
  str (str_hash P badge_key `mod` 2000000000).

Definition build_badge_anchor (P : Process) (rid badge_key : string) (pos_h pos_v : Z)
    : result Element :=
  cfg ← getitem badge_key (BADGE_REGISTRY !! badge_key);
  let cx := cfg_cx cfg in
  let cy := cfg_cy cfg in
  let descr := cfg_descr cfg in
  mret (E (w "drawing") [] [
    E (wp "anchor") [("distT", "0"); ("distB", "0"); ("distL", "114300");
                     ("distR", "114300"); ("simplePos", "0");
                     ("relativeHeight", "251659264"); ("behindDoc", "0");
                     ("locked", "0"); ("layoutInCell", "1"); ("allowOverlap", "1")] [
      E (wp "simplePos") [("x", "0"); ("y", "0")] [];
      E (wp "positionH") [("relativeFrom", "column")] [T (wp "posOffset") [] (str pos_h)];
      E (wp "positionV") [("relativeFrom", "paragraph")] [T (wp "posOffset") [] (str pos_v)];
      E (wp "extent") [("cx", str cx); ("cy", str cy)] [];
      E (wp "effectExtent") [("l", "0"); ("t", "0"); ("r", "0"); ("b", "0")] [];
      E (wp "wrapNone") [] [];
      E (wp "docPr") [("id", drawing_id P badge_key); ("name", "drawing");
                      ("descr", descr)] [];
      E (wp "cNvGraphicFramePr") [] [
        E (a "graphicFrameLocks") [("noChangeAspect", "1")] []];
      E (a "graphic") [] [
        E (a "graphicData")
          [("uri", "http://schemas.openxmlformats.org/drawingml/2006/picture")] [
          E (pic "pic") [] [
            E (pic "nvPicPr") [] [
              E (pic "cNvPr") [("id", drawing_id P badge_key); ("name", EmptyString)] [];
              E (pic "cNvPicPr") [] []];
            E (pic "blipFill") [] [
              E (a "blip") [(r_ns "embed", rid)] [
                E (a "extLst") [] [
                  E (a "ext") [("uri", "{28A0092B-C50C-407E-A947-70E740481C1C}")] [
                    E (a14 "useLocalDpi") [("val", "0")] []]]];
              E (a "stretch") [] [E (a "fillRect") [] []]];
            E (pic "spPr") [] [
              E (a "xfrm") [] [
                E (a "off") [("x", "0"); ("y", "0")] [];
                E (a "ext") [("cx", str cx); ("cy", str cy)] []];
              E (a "prstGeom") [("prst", "rect")] [E (a "avLst") [] []]]]]];
      E (wp14 "sizeRelH") [("relativeFrom", "page")] [T (wp14 "pctWidth") [] "0"];
      E (wp14 "sizeRelV") [("relativeFrom", "page")] [T (wp14 "pctHeight") [] "0"]]]).

(** The 4-badge branch of [compute_badge_positions]: one dict store per key. *)
Definition place_template (positions : gmap string (Z * Z)) (key : string)
    : gmap string (Z * Z) :=
  match BADGE_POSITIONS_4 !! key with
  | Some pos => <[key := pos]> positions
  | None => <[key := (BADGE_AREA_CENTER, BADGE_VERTICAL_DEFAULT)]> positions
  end.

(** The other branch: the loop state is [(positions, current_x)]. *)
Definition place_spread (gap : Z) (st : gmap string (Z * Z) * Z) (key : string)
    : gmap string (Z * Z) * Z :=
  let '(positions, current_x) := st in
  match BADGE_REGISTRY !! key with
  | Some cfg => (<[key := (current_x, BADGE_VERTICAL_DEFAULT)]> positions,
                 current_x + cfg_cx cfg + gap)
  | None => (positions, current_x)
  end.

(** [sum(BADGE_REGISTRY[k][1] for k in badge_keys if k in BADGE_REGISTRY)] *)
Fixpoint registry_width (badge_keys : list string) : Z :=
  match badge_keys with
  | [] => 0
  | k :: ks =>
      match BADGE_REGISTRY !! k with
      | Some cfg => cfg_cx cfg + registry_width ks
      | None => registry_width ks
      end
  end.

Definition compute_badge_positions (badge_keys : list string) : gmap string (Z * Z) :=
  if decide (length badge_keys = 4%nat) then
    foldl place_template ∅ badge_keys
  else
    let total_width := registry_width badge_keys in
    let gap := 100000 in
    let total_span :=
      if decide (1 < length badge_keys)%nat
      then total_width + gap * (Z.of_nat (length badge_keys) - 1)
      else total_width in
    let start_x := BADGE_AREA_CENTER - total_span `div` 2 in
    (foldl (place_spread gap) (∅, start_x) badge_keys).1.

(** A [for] loop whose body may raise: the state is threaded through. *)
Fixpoint for_each {A S} (body : S -> A -> result S) (l : list A) (s : S) : result S :=
  match l with
  | [] => mret s
  | x :: l' => s' ← body s x; for_each body l' s'
  end.

(** Body of the badge loop of [build_education_paragraph]; [runs] are the
    children appended to the paragraph so far. *)
Definition badge_run (P : Process) (positions : gmap string (Z * Z))
    (badge_rids : gmap string string) (runs : list Element) (key : string)
    : result (list Element) :=
  match BADGE_REGISTRY !! key, badge_rids !! key with
  | Some _, Some rid =>
      let '(pos_h, pos_v) :=
        default (BADGE_AREA_CENTER, BADGE_VERTICAL_DEFAULT) (positions !! key) in
      drawing ← build_badge_anchor P rid key pos_h pos_v;
      mret (runs ++ [E (w "r") [] [
        E (w "rPr") [] [E (w "noProof") [] []; E (w "sz") (val "22") []];
        drawing]])
  | _, _ => mret runs
  end.

Definition build_education_paragraph (P : Process) (degree university : string)
    (badge_keys : list string) (badge_rids : gmap string string) : result Element :=
  let pPr := E (w "pPr") [] [E (w "rPr") [] [E (w "sz") (val "22") []]] in
  let positions := compute_badge_positions badge_keys in
  kids ← for_each (badge_run P positions badge_rids) badge_keys [pPr];
  mret (E (w "p") [] (kids ++ [
    E (w "r") [] [
      E (w "rPr") [] [E (w "sz") (val "22") []; E (w "szCs") (val "22") []];
      T (w "t") [] degree];
    E (w "r") [] [
      E (w "rPr") [] [E (w "sz") (val "22") []];
      E (w "br") [] []];
    E (w "r") [] [
      E (w "rPr") [] [E (w "b") [] []; E (w "bCs") [] [];
                      E (w "sz") (val "22") []; E (w "szCs") (val "22") []];
      T (w "t") [] university]])).

(** Truth value of a Python [str]. *)
Definition truthy (s : string) : bool :=
  match s with
  | EmptyString => false
  | _ => true
  end.

Definition build_empty_paragraph (sz : string) (bold : bool) : Element :=
  E (w "p") []
    (if truthy sz || bold then
       [E (w "pPr") [] [
          E (w "rPr") []
            ((if bold then [E (w "b") [] []; E (w "bCs") [] []] else []) ++
             (if truthy sz then [E (w "sz") (val sz) []] else []))]]
     else []).

Definition build_job_title_paragraph (title dates : string) (has_company : bool)
    : Element :=
  E (w "p") [] [
    E (w "pPr") []
      ((if negb has_company then [nil_borders] else []) ++
       [E (w "rPr") [] [E (w "b") [] []; E (w "bCs") [] [];
                        E (w "color") black_text1 []; E (w "sz") (val "22") []]]);
    E (w "r") [] [
      E (w "rPr") [] [E (w "b") [] []; E (w "bCs") [] []; E (w "color") black_text1 [];
                      E (w "sz") (val "22") []; E (w "szCs") (val "22") []];
      T (w "t") [("{http://www.w3.org/XML/1998/namespace}space", "preserve")]
        (title +:+ " - ")];
    E (w "r") [] [
      E (w "rPr") [] [E (w "color") black_text1 [];
                      E (w "sz") (val "22") []; E (w "szCs") (val "22") []];
      T (w "t") [] dates]].

Definition build_company_paragraph (company : string) : Element :=
  E (w "p") [] [
    E (w "pPr") [] [
      nil_borders;
      E (w "rPr") [] [E (w "color") black_text1 []; E (w "sz") (val "22") []]];
    E (w "r") [] [
      E (w "rPr") [] [E (w "color") black_text1 [];
                      E (w "sz") (val "22") []; E (w "szCs") (val "22") []];
      T (w "t") [] company]].

Definition build_bullet_paragraph (text : string) : Element :=
  E (w "p") [] [
    E (w "pPr") [] [
      E (w "pStyle") (val "ListParagraph") [];
      E (w "numPr") [] [E (w "ilvl") (val "0") []; E (w "numId") (val "62") []];
      E (w "spacing") [(w "before", "240"); (w "after", "240");
                       (w "line", "300"); (w "lineRule", "auto")] [];
      E (w "rPr") [] [E (w "sz") (val "20") []; E (w "szCs") (val "20") []]];
    E (w "r") [] [
      E (w "rPr") [] [E (w "sz") (val "20") []; E (w "szCs") (val "20") []];
      T (w "t") [] text]].

Definition build_sect_pr : Element :=
  E (w "sectPr") [] [
    E (w "headerReference") [(w "type", "even"); (r_ns "id", "rId15")] [];
    E (w "headerReference") [(w "type", "default"); (r_ns "id", "rId16")] [];
    E (w "footerReference") [(w "type", "even"); (r_ns "id", "rId17")] [];
    E (w "footerReference") [(w "type", "default"); (r_ns "id", "rId18")] [];
    E (w "headerReference") [(w "type", "first"); (r_ns "id", "rId19")] [];
    E (w "footerReference") [(w "type", "first"); (r_ns "id", "rId20")] [];
    E (w "pgSz") [(w "w", "12240"); (w "h", "15840")] [];
    E (w "pgMar") [(w "top", "720"); (w "right", "720"); (w "bottom", "720");
                   (w "left", "720"); (w "header", "0"); (w "footer", "0");
                   (w "gutter", "0")] [];
    E (w "pgNumType") [(w "start", "1")] [];
    E (w "cols") [(w "space", "720")] [];
    E (w "docGrid") [(w "linePitch", "272")] []].

(** ** Document assembly *)

Definition dquote : string := String (Ascii.ascii_of_nat 34) EmptyString.

(** [<?xml version="1.0" encoding="..."?>] *)
Definition xml_declaration (encoding : string) : string :=
  "<?xml version=" +:+ dquote +:+ "1.0" +:+ dquote +:+
  " encoding=" +:+ dquote +:+ encoding +:+ dquote +:+ "?>".

(** Body of the loop that fills [badge_rids]; the state is
    [(badge_rids, rid_num)]. *)
Definition allocate_rid (st : gmap string string * Z) (key : string)
    : gmap string string * Z :=
  let '(badge_rids, rid_num) := st in
  match BADGE_REGISTRY !! key with
  | Some _ => (<[key := rId rid_num]> badge_rids, rid_num + 1)
  | None => st
  end.

(** [bool(job.get("company"))] *)
Definition has_company (job : JobEntry) : bool :=
  match company job with
  | Some c => truthy c
  | None => false
  end.

(** Body of the loop over [data["jobs"]]; [body] holds the children appended
    to [w:body] so far. *)
Definition append_job (body : list Element) (job : JobEntry) : result (list Element) :=
  let has_company := has_company job in
  title ← getitem "title" (title job);
  dates ← getitem "dates" (dates job);
  let body := body ++ [build_job_title_paragraph title dates has_company] in
  body ← (if has_company
          then company ← getitem "company" (company job);
               mret (body ++ [build_company_paragraph company])
          else mret body);
  bullets ← getitem "bullets" (bullets job);
  mret (foldl (fun body bullet => body ++ [build_bullet_paragraph bullet]) body bullets).

Definition build_document_xml (P : Process) (data : ResumeInput) : result XmlDoc :=
  let body := [] in
  (* -- Contact -- *)
  name ← getitem "name" (name data);
  phone ← getitem "phone" (phone data);
  email ← getitem "email" (email data);
  let body := body ++ [build_contact_paragraph name phone email] in
  let body := body ++ [build_section_heading "Professional Experience Summary"] in
  (* -- Summary text -- *)
  summary ← getitem "summary" (summary data);
  let body := body ++ [build_summary_paragraph summary] in
  let body := body ++ [build_section_heading "Education & Certifications"] in
  (* -- Education + badges -- *)
  let badge_keys := default [] (badges data) in
  let badge_rids := (foldl allocate_rid (∅, BADGE_RID_START) badge_keys).1 in
  education ← getitem "education" (education data);
  degree ← getitem "degree" (degree education);
  university ← getitem "university" (university education);
  edu ← build_education_paragraph P degree university badge_keys badge_rids;
  let body := body ++ [edu] in
  (* Spacer paragraphs after education (to give room for badge images) *)
  let body := body ++ [build_empty_paragraph "22" true] in
  let body := body ++ [build_empty_paragraph "22" false] in
  let body := body ++ [build_empty_paragraph "22" true] in
  let body := body ++ [build_empty_paragraph "22" true] in
  let body := body ++ [build_section_heading "Professional Experience"] in
  (* -- Jobs -- *)
  jobs ← getitem "jobs" (jobs data);
  body ← for_each append_job jobs body;
  (* Trailing spacer *)
  let body := body ++ [build_empty_paragraph "22" false] in
  let body := body ++ [build_empty_paragraph "22" false] in
  (* -- Section properties -- *)
  let body := body ++ [build_sect_pr] in
  let doc :=
    E (w "document")
      [(mc "Ignorable", "w14 w15 w16se w16cid w16 w16cex w16sdtdh w16sdtfl w16du wp14")]
      [E (w "body") [] body] in
  mret (mkXmlDoc (xml_declaration "UTF-8") doc).

Definition rel_ns : string :=
  "http://schemas.openxmlformats.org/package/2006/relationships".
Definition rel_tag (tag : string) : string := "{" +:+ rel_ns +:+ "}" +:+ tag.
Definition rel_type (kind : string) : string :=
  "http://schemas.openxmlformats.org/officeDocument/2006/relationships/" +:+ kind.
Definition image_type : string := rel_type "image".

Definition Relationship (rid rtype target : string) : Element :=
  E (rel_tag "Relationship") [("Id", rid); ("Type", rtype); ("Target", target)] [].

Definition fixed_rels : list (string * string * string) := [
  ("rId1", rel_type "customXml", "../customXml/item1.xml");
  ("rId2", rel_type "customXml", "../customXml/item2.xml");
  ("rId3", rel_type "customXml", "../customXml/item3.xml");
  ("rId4", rel_type "customXml", "../customXml/item4.xml");
  ("rId5", rel_type "numbering", "numbering.xml");
  ("rId6", rel_type "styles", "styles.xml");
  ("rId7", rel_type "settings", "settings.xml");
  ("rId8", rel_type "webSettings", "webSettings.xml");
  ("rId9", rel_type "footnotes", "footnotes.xml");
  ("rId10", rel_type "endnotes", "endnotes.xml")
].

(** Body of the badge loop of [build_document_rels]; the state is the
    children of the root so far and [rid_num]. *)
Definition declare_badge (st : list Element * Z) (key : string) : list Element * Z :=
  let '(root, rid_num) := st in
  match BADGE_REGISTRY !! key with
  | Some cfg =>
      (root ++ [Relationship (rId rid_num) image_type ("media/" +:+ cfg_filename cfg)],
       rid_num + 1)
  | None => st
  end.

Definition hf_type_map (hf_type : string) : string :=
  if String.eqb hf_type "header" then rel_type "header" else rel_type "footer".

Definition build_document_rels (badge_keys : list string) : XmlDoc :=
  (* Fixed relationships (non-badge) *)
  let root := map (fun '(rid, rtype, target) => Relationship rid rtype target) fixed_rels in
  (* Badge image relationships (rId11+) *)
  let root := (foldl declare_badge (root, BADGE_RID_START) badge_keys).1 in
  (* Header/footer relationships (rId15-rId20) *)
  let root := root ++
    map (fun '(rid, (hf_type, target)) => Relationship rid (hf_type_map hf_type) target)
        HEADER_FOOTER_RELS in
  (* Font table and theme *)
  let root := root ++ [Relationship "rId21" (rel_type "fontTable") "fontTable.xml"] in
  let root := root ++ [Relationship "rId22" (rel_type "theme") "theme/theme1.xml"] in
  mkXmlDoc (xml_declaration "utf-8") (E (rel_tag "Relationships") [] root).

(** ** The builder on whatever [json.load] delivers *)

(** A [float]: what the program can observe of it is whether it is zero
    and how [str] prints it. *)
Record Float := mkFloat { float_is_zero : bool; float_str : string }.

(** The values [json.load] builds; a [dict] keeps its items in insertion
    order, each key once. *)
Inductive Value : Type :=
  | VNone
  | VBool (b : bool)
  | VInt (n : Z)
  | VFloat (x : Float)
  | VStr (s : string)
  | VList (items : list Value)
  | VDict (items : list (string * Value)).

(** [bool(v)] *)
Definition bool_of (v : Value) : bool :=
  match v with
  | VNone => false
  | VBool b => b
  | VInt n => negb (Z.eqb n 0)
  | VFloat x => negb (float_is_zero x)
  | VStr s => truthy s
  | VList items => match items with [] => false | _ => true end
  | VDict items => match items with [] => false | _ => true end
  end.

(** [repr(v)] and [str(v)], which is what an f-string puts in. *)
Fixpoint py_repr (P : Process) (v : Value) : string :=
  match v with
  | VNone => "None"
  | VBool b => if b then "True" else "False"
  | VInt n => str n
  | VFloat x => float_str x
  | VStr s => str_repr P s
  | VList items => "[" +:+ String.concat ", " (map (py_repr P) items) +:+ "]"
  | VDict items =>
      "{" +:+ String.concat ", "
                (map (fun '(k, x) => str_repr P k +:+ ": " +:+ py_repr P x) items)
          +:+ "}"
  end.

Definition py_str (P : Process) (v : Value) : string :=
  match v with
  | VStr s => s
  | _ => py_repr P v
  end.

(** [v[key]] for a [str] key. *)
Definition subscript (v : Value) (key : string) : result Value :=
  match v with
  | VDict items =>
      match assoc key items with
      | Some x => Ok x
      | None => Raise (KeyError key)
      end
  | _ => Raise TypeError
  end.

(** [v.get(key, default)]: only a [dict] has the method. *)
Definition get (v : Value) (key : string) (default : Value) : result Value :=
  match v with
  | VDict items => Ok (from_option id default (assoc key items))
  | _ => Raise AttributeError
  end.

(** [for x in v]: the items of a list, the characters of a [str], the keys
    of a [dict]. *)
Definition iterate (v : Value) : result (list Value) :=
  match v with
  | VList items => Ok items
  | VStr s => Ok (map (fun c => VStr (String c EmptyString)) (String.list_ascii_of_string s))
  | VDict items => Ok (map (fun kv => VStr kv.1) items)
  | _ => Raise TypeError
  end.

(** [key in BADGE_REGISTRY]: the key is hashed first, which a list or a
    [dict] refuses; a key that is not a [str] equals none of the registry. *)
Definition registry_has (key : Value) : result bool :=
  match key with
  | VList _ | VDict _ => Raise TypeError
  | VStr s => Ok (bool_decide (is_Some (BADGE_REGISTRY !! s)))
  | _ => Ok false
  end.

(** A badge key as the lookups in the registry, the position table and
    [badge_rids] see it: a [str] by its characters, any other hashable value
    like a [str] that is in none of them. *)
Definition key_name (key : Value) : string :=
  match key with
  | VStr s => s
  | _ => EmptyString
  end.

(** [tostring] writes the text of an element when it is true, and then it
    has to be a [str]; an element whose text is false is written as one
    without text, like the empty string. *)
Definition serialisable (text : Value) : bool :=
  match text with
  | VStr _ => true
  | _ => negb (bool_of text)
  end.
Definition text_of (text : Value) : string :=
  match text with
  | VStr s => s
  | _ => EmptyString
  end.

(** The content tree under construction: the children of [w:body] and the
    values assigned to [.text] so far, which [tostring] will meet in this
    order. *)
Definition Tree : Type := list Element * list Value.

Module Untyped.

(** Body of the loop over [data["jobs"]]. *)
Definition append_job (P : Process) (tree : Tree) (job : Value) : result Tree :=
  let '(body, texts) := tree in
  company ← get job "company" VNone;
  let has_company := bool_of company in
  title ← subscript job "title";
  dates ← subscript job "dates";
  let body := body ++ [build_job_title_paragraph (py_str P title) (text_of dates)
                         has_company] in
  let texts := texts ++ [dates] in
  tree ← (if has_company
          then company ← subscript job "company";
               mret (body ++ [build_company_paragraph (text_of company)],
                     texts ++ [company])
          else mret (body, texts));
  bullets ← subscript job "bullets";
  bullets ← iterate bullets;
  mret (foldl (fun '(body, texts) bullet =>
                 (body ++ [build_bullet_paragraph (text_of bullet)], texts ++ [bullet]))
              tree bullets).

Definition build_document_xml (P : Process) (data : Value) : result XmlDoc :=
  let body := [] in
  (* -- Contact -- *)
  name ← subscript data "name";
  phone ← subscript data "phone";
  email ← subscript data "email";
  let body := body ++ [build_contact_paragraph (py_str P name) (py_str P phone)
                         (py_str P email)] in
  let body := body ++ [build_section_heading "Professional Experience Summary"] in
  (* -- Summary text -- *)
  summary ← subscript data "summary";
  let body := body ++ [build_summary_paragraph (text_of summary)] in
  let texts := [summary] in
  let body := body ++ [build_section_heading "Education & Certifications"] in
  (* -- Education + badges -- *)
  badge_keys ← get data "badges" (VList []);
  badge_keys ← iterate badge_keys;
  _ ← for_each (fun (_ : unit) key => _ ← registry_has key; mret tt) badge_keys tt;
  let badge_keys := map key_name badge_keys in
  let badge_rids := (foldl allocate_rid (∅, BADGE_RID_START) badge_keys).1 in
  education ← subscript data "education";
  degree ← subscript education "degree";
  university ← subscript education "university";
  edu ← build_education_paragraph P (text_of degree) (text_of university)
          badge_keys badge_rids;
  let body := body ++ [edu] in
  let texts := texts ++ [degree; university] in
  (* Spacer paragraphs after education (to give room for badge images) *)
  let body := body ++ [build_empty_paragraph "22" true] in
  let body := body ++ [build_empty_paragraph "22" false] in
  let body := body ++ [build_empty_paragraph "22" true] in
  let body := body ++ [build_empty_paragraph "22" true] in
  let body := body ++ [build_section_heading "Professional Experience"] in
  (* -- Jobs -- *)
  jobs ← subscript data "jobs";
  jobs ← iterate jobs;
  '(body, texts) ← for_each (append_job P) jobs (body, texts);
  (* Trailing spacer *)
  let body := body ++ [build_empty_paragraph "22" false] in
  let body := body ++ [build_empty_paragraph "22" false] in
  (* -- Section properties -- *)
  let body := body ++ [build_sect_pr] in
  let doc :=
    E (w "document")
      [(mc "Ignorable", "w14 w15 w16se w16cid w16 w16cex w16sdtdh w16sdtfl w16du wp14")]
      [E (w "body") [] body] in
  (* Serialize *)
  if forallb serialisable texts
  then mret (mkXmlDoc (xml_declaration "UTF-8") doc)
  else Raise TypeError.

End Untyped.

(** The value [json.load] delivers for an input that follows the schema:
    a field that is absent has no item. *)
Definition item {A} (key : string) (f : A -> Value) (field : option A)
    : list (string * Value) :=
  match field with
  | Some x => [(key, f x)]
  | None => []
  end.
Definition strings (l : list string) : Value := VList (map VStr l).
Definition education_to_json (e : Education) : Value :=
  VDict (item "degree" VStr (degree e) ++ item "university" VStr (university e)).
Definition job_to_json (j : JobEntry) : Value :=
  VDict (item "title" VStr (title j) ++ item "dates" VStr (dates j) ++
         item "company" VStr (company j) ++ item "bullets" strings (bullets j)).
Definition to_json (d : ResumeInput) : Value :=
  VDict (item "name" VStr (name d) ++ item "phone" VStr (phone d) ++
         item "email" VStr (email d) ++ item "summary" VStr (summary d) ++
         item "education" education_to_json (education d) ++
         item "badges" strings (badges d) ++
         item "jobs" (fun js => VList (map job_to_json js)) (jobs d)).


(** ** The outside world *)

(** Owner read and write permission (0o400, 0o200). *)
Definition readable (f : File) : bool := Z.testbit (st_mode f) 8.
Definition writable (f : File) : bool := Z.testbit (st_mode f) 7.

(** The regular files by path, the directories that are recorded, and what
    was printed.  Paths are absolute and normalised.  A path that holds a
    file is a file; a directory need not be recorded when something below
    it is. *)
Record World := mkWorld {
  fs : gmap string File;
  dirs : gset string;
  stdout : list string }.

Definition IO (A : Type) : Type := World -> result A * World.

#[global] Instance IO_ret : MRet IO := fun _ a W => (Ok a, W).
#[global] Instance IO_bind : MBind IO := fun _ _ k c W =>
  match c W with
  | (Ok a, W') => k a W'
  | (Raise e, W') => (Raise e, W')
  end.

Definition raise {A} (e : exn) : IO A := fun W => (Raise e, W).
Definition lift {A} (r : result A) : IO A := fun W => (r, W).

(** [try: c  except Exception: handler; raise] *)
Definition try_except {A} (c : IO A) (handler : IO unit) : IO A := fun W =>
  match c W with
  | (Ok a, W') => (Ok a, W')
  | (Raise e, W') =>
      match handler W' with
      | (Ok _, W'') => (Raise e, W'')
      | (Raise e', W'') => (Raise e', W'')
      end
  end.

(** [try: c  except OSError: handler] *)
Definition try_else {A} (c handler : IO A) : IO A := fun W =>
  match c W with
  | (Ok a, W') => (Ok a, W')
  | (Raise _, W') => handler W'
  end.

Fixpoint for_each_io {A S} (body : S -> A -> IO S) (l : list A) (s : S) : IO S :=
  match l with
  | [] => mret s
  | x :: l' => s' ← body s x; for_each_io body l' s'
  end.

Definition print (line : string) : IO unit := fun W =>
  (Ok tt, mkWorld (fs W) (dirs W) (stdout W ++ [line])).

(** *** Paths *)

Definition is_sep (c : ascii) : bool := Ascii.eqb c "/"%char.

Fixpoint drop_while {A} (f : A -> bool) (l : list A) : list A :=
  match l with
  | [] => []
  | x :: l' => if f x then drop_while f l' else l
  end.
Fixpoint take_while {A} (f : A -> bool) (l : list A) : list A :=
  match l with
  | [] => []
  | x :: l' => if f x then x :: take_while f l' else []
  end.

(** [p.rstrip("/")] *)
Definition rstrip_sep (p : string) : string :=
  String.string_of_list_ascii
    (rev (drop_while is_sep (rev (String.list_ascii_of_string p)))).

(** [os.path.basename] and [os.path.dirname]: what follows the last slash,
    and what comes before it, without the slashes it ends with unless it
    is made of slashes. *)
Definition basename (p : string) : string :=
  String.string_of_list_ascii
    (rev (take_while (fun c => negb (is_sep c)) (rev (String.list_ascii_of_string p)))).
Definition dirname (p : string) : string :=
  let head := rev (drop_while (fun c => negb (is_sep c))
                     (rev (String.list_ascii_of_string p))) in
  if forallb is_sep head then String.string_of_list_ascii head
  else rstrip_sep (String.string_of_list_ascii head).

(** [os.path.abspath]: nothing to do on an absolute, normalised path. *)
Definition abspath (p : string) : string := p.

Definition starts_with_slash (s : string) : bool :=
  match s with
  | String c _ => Ascii.eqb c "/"%char
  | EmptyString => false
  end.

Fixpoint ends_with_slash (s : string) : bool :=
  match s with
  | EmptyString => false
  | String c EmptyString => Ascii.eqb c "/"%char
  | String _ s' => ends_with_slash s'
  end.

(** [os.path.join] of two components. *)
Definition path_join (p q : string) : string :=
  if starts_with_slash q then q
  else if negb (truthy p) || ends_with_slash p then p +:+ q
  else p +:+ "/" +:+ q.

(** The directories above a path, nearest first. *)
Fixpoint ancestors_from (n : nat) (p : string) : list string :=
  match n with
  | O => []
  | S n' =>
      let d := dirname p in
      if String.eqb d p then [] else d :: ancestors_from n' d
  end.
Definition ancestors (p : string) : list string := ancestors_from (String.length p) p.

(** *** Files and directories *)

(** Every path that is recorded, and whether one of them lies below [d]. *)
Definition recorded (W : World) : list string :=
  (map_to_list (fs W)).*1 ++ elements (dirs W).
Definition holds_below (W : World) (d : string) : bool :=
  existsb (fun p => bool_decide (d ∈ ancestors p)) (recorded W).

(** A directory that is there: recorded, or above something recorded, or
    its own parent (the root; the empty name stands for the working
    directory). *)
Definition known_dir (W : World) (p : string) : bool :=
  String.eqb (dirname p) p || bool_decide (p ∈ dirs W) || holds_below W p.

(** [os.path.isdir] *)
Definition is_dir (W : World) (p : string) : bool :=
  bool_decide (fs W !! p = None) && truthy p && known_dir W p.

(** [os.path.exists] *)
Definition path_exists (path : string) : IO bool := fun W =>
  (Ok (bool_decide (is_Some (fs W !! path)) || is_dir W path), W).

(** [os.mkdir] under a directory that is there. *)
Definition mkdir (P : Process) (path : string) : IO unit := fun W =>
  match mkdir_fault P path with
  | Some e => (Raise e, W)
  | None => (Ok tt, mkWorld (fs W) ({[ path ]} ∪ dirs W) (stdout W))
  end.

(** [os.makedirs(name, exist_ok=True)]: nothing to do for a directory that
    is there; a file in the way, at [name] or above it, is an error;
    otherwise the directories that are not there are made, from the top
    down to [name]. *)
Definition makedirs (P : Process) (name : string) : IO unit := fun W =>
  if known_dir W name then (Ok tt, W)
  else if bool_decide (is_Some (fs W !! name)) then (Raise FileExistsError, W)
  else if existsb (fun d => bool_decide (is_Some (fs W !! d))) (ancestors name)
  then (Raise NotADirectoryError, W)
  else for_each_io (fun _ d => mkdir P d)
         (List.filter (fun d => negb (known_dir W d)) (rev (ancestors name)) ++ [name])
         tt W.

(** Open a file for reading. *)
Definition open_read (path : string) : IO File := fun W =>
  match fs W !! path with
  | None =>
      if is_dir W path then (Raise (IsADirectoryError path), W)
      else (Raise (FileNotFoundError path), W)
  | Some f => if readable f then (Ok f, W) else (Raise (PermissionError path), W)
  end.

(** A file written and closed. *)
Definition store (path : string) (f : File) : IO unit := fun W =>
  (Ok tt, mkWorld (<[path := f]> (fs W)) (dirs W) (stdout W)).

(** [os.unlink] *)
Definition unlink (P : Process) (path : string) : IO unit := fun W =>
  match unlink_fault P path with
  | Some e => (Raise e, W)
  | None =>
      match fs W !! path with
      | None =>
          if is_dir W path then (Raise (IsADirectoryError path), W)
          else (Raise (FileNotFoundError path), W)
      | Some _ => (Ok tt, mkWorld (delete path (fs W)) (dirs W) (stdout W))
      end
  end.

(** [json.load] of an opened file. *)
Definition load_json (path : string) : IO ResumeInput :=
  f ← open_read path;
  match body f with
  | Json data => mret data
  | _ => raise JSONDecodeError
  end.

(** What [open(dst, "wb")] raises, if anything: a file that is there has
    to be writable; a directory or an empty name cannot be opened; a new
    file needs the directory above it, and no file in the way. *)
Definition open_write_error (W : World) (dst : string) : option exn :=
  match fs W !! dst with
  | Some g => if writable g then None else Some (PermissionError dst)
  | None =>
      if is_dir W dst then Some (IsADirectoryError dst)
      else if negb (truthy dst) then Some (FileNotFoundError dst)
      else if existsb (fun d => bool_decide (is_Some (fs W !! d))) (ancestors dst)
      then Some NotADirectoryError
      else if negb (known_dir W (dirname dst)) then Some (FileNotFoundError dst)
      else None
  end.

(** [open(dst, "wb")] and the writing of the contents of [f], with its
    metadata; the machine may interrupt the writing. *)
Definition write_copy (P : Process) (src dst : string) (f : File) : IO unit := fun W =>
  match open_write_error W dst with
  | Some e => (Raise e, W)
  | None =>
      match copy_fault P src dst with
      | Some (e, remains) =>
          (Raise e,
           match remains with
           | Some g => mkWorld (<[dst := g]> (fs W)) (dirs W) (stdout W)
           | None => W
           end)
      | None => store dst f W
      end
  end.

(** [shutil.copyfile] followed by [copystat]: a file is not copied onto
    itself. *)
Definition copyfile (P : Process) (src dst : string) : IO unit :=
  same ← (if decide (src = dst) then path_exists src else mret false);
  if (same : bool) then raise (SameFileError src)
  else f ← open_read src; write_copy P src dst f.

(** [shutil.copy2]: contents and metadata; into [dst] when it is a
    directory. *)
Definition copy2 (P : Process) (src dst : string) : IO unit := fun W =>
  let dst := if is_dir W dst then path_join dst (basename src) else dst in
  copyfile P src dst W.

(** [os.rename] of a file. *)
Definition rename (P : Process) (src dst : string) : IO unit := fun W =>
  match rename_fault P src dst with
  | Some e => (Raise e, W)
  | None =>
      match fs W !! src with
      | None => (Raise (FileNotFoundError src), W)
      | Some f =>
          if is_dir W dst then (Raise (IsADirectoryError dst), W)
          else (Ok tt, mkWorld (<[dst := f]> (delete src (fs W))) (dirs W) (stdout W))
      end
  end.

(** [shutil.move] of a file: into [dst] when it is a directory, unless
    something of that name is there; a rename, and when the rename fails a
    copy followed by the removal of the source. *)
Definition move (P : Process) (src dst : string) : IO unit := fun W =>
  let into := is_dir W dst in
  let real_dst := if into then path_join dst (basename (rstrip_sep src)) else dst in
  match (if into then path_exists real_dst W else (Ok false, W)) with
  | (Ok true, _) => (Raise (ShutilError real_dst), W)
  | _ =>
      try_else (rename P src real_dst)
               (_ ← copy2 P src real_dst; unlink P src) W
  end.

(** [tempfile.mkstemp] followed by [os.close]: an empty file, mode 0o600. *)
Definition mkstemp (P : Process) : IO string := fun W =>
  if bool_decide (is_Some (fs W !! mkstemp_name P)) || is_dir W (mkstemp_name P)
  then (Raise FileExistsError, W)
  else (Ok (mkstemp_name P),
        mkWorld (<[mkstemp_name P := mkFile (now P) 384 (Data [])]> (fs W))
          (dirs W) (stdout W)).

(** [zipfile.ZipFile(path, "r")] and its [infolist()]. *)
Definition open_zip (path : string) : IO (list Member) :=
  f ← open_read path;
  match body f with
  | Archive members => mret members
  | _ => raise BadZipFile
  end.

(** [zin.read(name)]: the name is looked up in [NameToInfo], which keeps the
    last member recorded under each name. *)
Definition zip_read (zin : list Member) (name : string) : result Content :=
  match last (filter (fun m => filename (info m) = name) zin) with
  | None => Raise (KeyError name)
  | Some m =>
      match stored m with
      | Some data => Ok data
      | None => Raise BadZipFile
      end
  end.

Definition ZIP_STORED : Z := 0.
Definition ZIP_DEFLATED : Z := 8.

(** [ZipInfo.from_file(src, arcname)] with the compression of the archive
    being written, and the same for a directory: the name ends with a
    slash, and the MS-DOS directory flag is set. *)
Definition ZipInfo_from_file (f : File) (arcname : string) : ZipInfo :=
  mkZipInfo arcname (st_mtime f) ZIP_DEFLATED (Z.shiftl (Z.land (st_mode f) 65535) 16).
Definition ZipInfo_from_dir (stat : Z * Z) (arcname : string) : ZipInfo :=
  mkZipInfo (arcname +:+ "/") stat.1 ZIP_STORED
    (Z.lor (Z.shiftl (Z.land stat.2 65535) 16) 16).

(** What [zout.write(src_path, archive_path)] appends: the file with its
    bytes, or an entry for the directory. *)
Definition zip_write (P : Process) (src_path archive_path : string) : IO Member := fun W =>
  if is_dir W src_path
  then (Ok (mkMember (ZipInfo_from_dir (dir_stat P src_path) archive_path)
              (Some (Data []))), W)
  else (f ← open_read src_path;
        mret (mkMember (ZipInfo_from_file f archive_path) (Some (body f)))) W.

(** ** DOCX assembly *)

Definition TEMPLATE_PATH (P : Process) : string :=
  path_join (path_join (PROJECT_ROOT P) "templates") "vertekal_template.docx".
Definition BADGES_DIR (P : Process) : string :=
  path_join (path_join (PROJECT_ROOT P) "assets") "badges".

(** Template badge filenames (image1-4.png) that may need to be removed. *)
Definition template_badge_files : gset string :=
  {[ "word/media/image1.png"; "word/media/image2.png";
     "word/media/image3.png"; "word/media/image4.png" ]}.

(** Badge files we need (the set is built by the source and not consulted
    afterwards). *)
Definition needed_badge_files (badge_keys : list string) : gset string :=
  foldl (fun needed key =>
           match BADGE_REGISTRY !! key with
           | Some cfg => needed ∪ {[ "word/media/" +:+ cfg_filename cfg ]}
           | None => needed
           end) ∅ badge_keys.

(** The [ZipInfo] under which [zout.writestr(zinfo, data)] records a member:
    name, time stamp and compression are those given, and an [external_attr]
    of 0 (as in archives written by Word) becomes 0o600 << 16. *)
Definition written_info (zinfo : ZipInfo) : ZipInfo :=
  mkZipInfo (filename zinfo) (date_time zinfo) (compress_type zinfo)
    (if Z.eqb (external_attr zinfo) 0 then Z.shiftl 384 16 else external_attr zinfo).

(** What [zout.writestr(zinfo, data)] appends. *)
Definition writestr (zinfo : ZipInfo) (data : Content) : Member :=
  mkMember (written_info zinfo) (Some data).

(** Body of the loop over [zin.infolist()]; [zout] holds the members written
    so far. *)
Definition copy_member (zin : list Member) (replacements : gmap string Content)
    (zout : list Member) (item : Member) : result (list Member) :=
  match replacements !! filename (info item) with
  | Some data =>
      (* Write our replacement content *)
      mret (zout ++ [writestr (info item) data])
  | None =>
      if decide (filename (info item) ∈ template_badge_files) then
        (* Skip old template badge images *)
        mret zout
      else
        (* Copy everything else as-is *)
        data ← zip_read zin (filename (info item));
        mret (zout ++ [writestr (info item) data])
  end.

(** Body of the loop that adds the badge images from the assets. *)
Definition add_badge (P : Process) (zout : list Member) (key : string)
    : IO (list Member) :=
  match BADGE_REGISTRY !! key with
  | Some cfg =>
      let filename := cfg_filename cfg in
      let src_path := path_join (BADGES_DIR P) filename in
      let archive_path := "word/media/" +:+ filename in
      found ← path_exists src_path;
      if (found : bool) then
        m ← zip_write P src_path archive_path;
        mret (zout ++ [m])
      else
        _ ← print ("Warning: Badge image not found: " +:+ src_path);
        mret zout
  | None => mret zout
  end.

(** The members written to the temporary archive are gathered and stored
    when the [with] blocks end; when the blocks raise, the handler unlinks
    whatever the temporary file holds. *)
Definition _replace_in_zip (P : Process) (zip_path : string)
    (replacements : gmap string Content) (badge_keys : list string) : IO unit :=
  tmp_path ← mkstemp P;
  try_except
    (zin ← open_zip zip_path;
     zout ← lift (for_each (copy_member zin replacements) zin []);
     zout ← for_each_io (add_badge P) badge_keys zout;
     _ ← store tmp_path (mkFile (now P) 384 (Archive zout));
     (* Replace original with modified *)
     move P tmp_path zip_path)
    (found ← path_exists tmp_path;
     if (found : bool) then unlink P tmp_path else mret tt).

Definition generate_resume (P : Process) (input_path output_path : string)
    (template_path : option string) : IO unit :=
  let template_path := default (TEMPLATE_PATH P) template_path in
  (* Load input JSON *)
  data ← load_json input_path;
  (* Copy template to output *)
  _ ← makedirs P (dirname (abspath output_path));
  _ ← copy2 P template_path output_path;
  let badge_keys :=
    filter (fun k => is_Some (BADGE_REGISTRY !! k)) (default [] (badges data)) in
  (* Build new XML content *)
  doc_xml ← lift (build_document_xml P data);
  let rels_xml := build_document_rels badge_keys in
  (* Replace files inside the ZIP *)
  _ ← _replace_in_zip P output_path
        (<["word/document.xml" := Markup doc_xml]>
         (<["word/_rels/document.xml.rels" := Markup rels_xml]> ∅))
        badge_keys;
  print ("Generated: " +:+ output_path).

(** * Notions used by the properties *)

(** ** Badge placement *)

Definition KNOWN_KEYS : list string :=
  ["csm"; "ts_sci"; "aws_cloud_practitioner"; "security_plus"].

(** [key in BADGE_REGISTRY] *)
Definition known (key : string) : Prop := is_Some (BADGE_REGISTRY !! key).

(** The position the 4-badge branch stores for a key. *)
Definition template_pos (key : string) : Z * Z :=
  default (BADGE_AREA_CENTER, BADGE_VERTICAL_DEFAULT) (BADGE_POSITIONS_4 !! key).

Definition gap : Z := 100000.

(** Registry width of a badge (0 for a key outside the registry). *)
Definition width (key : string) : Z := default 0 (cfg_cx <$> BADGE_REGISTRY !! key).

(** Horizontal offset computed for [key] when the badge list is [l]. *)
Definition pos_h (l : list string) (key : string) : Z :=
  (compute_badge_positions l !!! key).1.

(** Every requested badge gets a position, at the default vertical offset. *)
Definition placed (l : list string) : Prop :=
  forall k, k ∈ l ->
    exists x, compute_badge_positions l !! k = Some (x, BADGE_VERTICAL_DEFAULT).

(** Offsets strictly increase along the input order. *)
Definition increasing (l : list string) : Prop :=
  forall i j ki kj, (i < j)%nat -> l !! i = Some ki -> l !! j = Some kj ->
    pos_h l ki < pos_h l kj.

(** Consecutive badges are at least a width plus the gap apart. *)
Definition no_overlap (l : list string) : Prop :=
  forall i ki kj, l !! i = Some ki -> l !! S i = Some kj ->
    pos_h l ki + width ki + gap <= pos_h l kj.

(** How much further the right edge of the last badge is from the band
    centre than the left edge of the first one; 0 means exactly centred. *)
Definition span_skew (l : list string) : Z :=
  match head l, last l with
  | Some kf, Some kl =>
      (pos_h l kl + width kl - BADGE_AREA_CENTER) - (BADGE_AREA_CENTER - pos_h l kf)
  | _, _ => 0
  end.

(** The property of badge lists of 1 to 3 known keys, as the specification
    words it. *)
Definition spread_centred (l : list string) : Prop :=
  increasing l /\ span_skew l = 0 /\ no_overlap l.

(** Distance covered by the loop of the spreading branch over [l]. *)
Fixpoint advance (l : list string) : Z :=
  match l with
  | [] => 0
  | k :: l' => width k + gap + advance l'
  end.

Definition total_span (l : list string) : Z :=
  registry_width l + gap * (Z.of_nat (length l) - 1).
Definition start_x (l : list string) : Z := BADGE_AREA_CENTER - total_span l `div` 2.

(** ** Queries on element trees *)

Fixpoint descendants (e : Element) : list Element :=
  match e with
  | El _ _ _ children => e :: concat (map descendants children)
  end.

Definition has_tag (tag : string) (e : Element) : bool := String.eqb (el_tag e) tag.

(** Descendants (or self) with the given tag. *)
Definition find_all (tag : string) (e : Element) : list Element :=
  List.filter (has_tag tag) (descendants e).

(** Values of attribute [name] over the whole tree, in document order. *)
Definition attr_values (name : string) (e : Element) : list string :=
  omap (fun d => assoc name (el_attrib d)) (descendants e).

(** Texts of the elements with the given tag, in document order. *)
Definition texts_of (tag : string) (e : Element) : list string :=
  omap el_text (find_all tag e).

Definition count_string (x : string) (l : list string) : nat :=
  length (List.filter (String.eqb x) l).

(** Children of [w:body]. *)
Definition body_of (doc : XmlDoc) : list Element :=
  match el_children (xml_root doc) with
  | b :: _ => el_children b
  | [] => []
  end.

(** ** Relationship identifiers *)

(** Identifiers the content tree refers to: image embeds and header/footer
    references. *)
Definition embed_ids (doc : XmlDoc) : list string :=
  attr_values (r_ns "embed") (xml_root doc).
Definition reference_ids (doc : XmlDoc) : list string :=
  attr_values (r_ns "id") (xml_root doc).

(** Identifiers the manifest declares, and those of its image entries. *)
Definition declared_ids (rels : XmlDoc) : list string :=
  omap (fun rel => assoc "Id" (el_attrib rel)) (el_children (xml_root rels)).
Definition is_image_rel (rel : Element) : bool :=
  match assoc "Type" (el_attrib rel) with
  | Some t => String.eqb t image_type
  | None => false
  end.
Definition image_rels (rels : XmlDoc) : list Element :=
  List.filter is_image_rel (el_children (xml_root rels)).
Definition image_ids (rels : XmlDoc) : list string :=
  omap (fun rel => assoc "Id" (el_attrib rel)) (image_rels rels).

(** No orphaned identifier in either direction. *)
Definition rels_consistent (doc rels : XmlDoc) : bool :=
  forallb (fun id => Nat.eqb (count_string id (declared_ids rels)) 1)
          (embed_ids doc ++ reference_ids doc)
  && forallb (fun id => Nat.eqb (count_string id (embed_ids doc)) 1) (image_ids rels).

(** The badge keys [generate_resume] hands to [build_document_rels]. *)
Definition registry_badges (data : ResumeInput) : list string :=
  filter (fun k => is_Some (BADGE_REGISTRY !! k)) (default [] (badges data)).

(** ** Layout of the body *)

(** All required fields are there. *)
Definition valid_job (j : JobEntry) : Prop :=
  is_Some (title j) /\ is_Some (dates j) /\ is_Some (bullets j).
Definition valid_education (e : Education) : Prop :=
  is_Some (degree e) /\ is_Some (university e).
Definition valid (d : ResumeInput) : Prop :=
  is_Some (name d) /\ is_Some (phone d) /\ is_Some (email d) /\
  is_Some (summary d) /\
  (exists e, education d = Some e /\ valid_education e) /\
  (exists js, jobs d = Some js /\ Forall valid_job js).

Definition req (field : option string) : string := default EmptyString field.

(** A company that is present and not empty. *)
Definition shown_company (j : JobEntry) : option string :=
  match company j with
  | Some c => if truthy c then Some c else None
  | None => None
  end.

(** The paragraphs of one job: title, company line if [shown] gives one,
    bullets in order. *)
Definition job_paragraphs (shown : JobEntry -> option string) (j : JobEntry)
    : list Element :=
  build_job_title_paragraph (req (title j)) (req (dates j)) (has_company j)
  :: from_option (fun c => [build_company_paragraph c]) [] (shown j)
  ++ map build_bullet_paragraph (default [] (bullets j)).

(** The body in the order the specification gives, around a given education
    paragraph. *)
Definition body_layout (shown : JobEntry -> option string) (edu : Element)
    (d : ResumeInput) : list Element :=
  [ build_contact_paragraph (req (name d)) (req (phone d)) (req (email d));
    build_section_heading "Professional Experience Summary";
    build_summary_paragraph (req (summary d));
    build_section_heading "Education & Certifications";
    edu;
    build_empty_paragraph "22" true;
    build_empty_paragraph "22" false;
    build_empty_paragraph "22" true;
    build_empty_paragraph "22" true;
    build_section_heading "Professional Experience" ]
  ++ concat (map (job_paragraphs shown) (default [] (jobs d)))
  ++ [ build_empty_paragraph "22" false;
       build_empty_paragraph "22" false;
       build_sect_pr ].

(** The education paragraph of an input. *)
Definition education_of (P : Process) (d : ResumeInput) : result Element :=
  let badge_keys := default [] (badges d) in
  e ← getitem "education" (education d);
  degree ← getitem "degree" (degree e);
  university ← getitem "university" (university e);
  build_education_paragraph P degree university badge_keys
    (foldl allocate_rid (∅, BADGE_RID_START) badge_keys).1.





Definition with_company (j : JobEntry) (c : option string) : JobEntry :=
  mkJob (title j) (dates j) c (bullets j).
Definition with_badges (d : ResumeInput) (b : option (list string)) : ResumeInput :=
  mkInput (name d) (phone d) (email d) (summary d) (education d) b (jobs d).

(** ** Archives *)

Definition member_names (ms : list Member) : list string :=
  map (fun m => filename (info m)) ms.

(** The two parts [generate_resume] replaces. *)
Definition replaced_parts (doc_xml rels_xml : XmlDoc) : gmap string Content :=
  <["word/document.xml" := Markup doc_xml]>
  (<["word/_rels/document.xml.rels" := Markup rels_xml]> ∅).

(** Archive names of the badge entries that get appended in the world [W]:
    one per requested registry key whose asset is there, the name of the
    image for an asset file, the same followed by a slash when the asset
    path is a directory. *)
Definition appended_names (P : Process) (W : World)
    (badge_keys : list string) : list string :=
  omap (fun key =>
          match BADGE_REGISTRY !! key with
          | Some cfg =>
              let src_path := path_join (BADGES_DIR P) (cfg_filename cfg) in
              if is_dir W src_path
              then Some (("word/media/" +:+ cfg_filename cfg) +:+ "/")
              else if bool_decide (is_Some (fs W !! src_path))
              then Some ("word/media/" +:+ cfg_filename cfg)
              else None
          | None => None
          end) badge_keys.

(** Whether the copy loop writes out a template member of that name. *)
Definition kept (replacements : gmap string Content) (name : string) : bool :=
  bool_decide (is_Some (replacements !! name) \/ name ∉ template_badge_files).

(** The files once [mkstemp] has made its empty file. *)
Definition with_tmp (P : Process) (files : gmap string File) : gmap string File :=
  <[mkstemp_name P := mkFile (now P) 384 (Data [])]> files.

(** The world once the directory above the output path is there, and where
    [copy2] then writes: the destination, or the name of the source inside
    it when it is a directory. *)
Definition parent_made (P : Process) (W : World) (output_path : string) : World :=
  (makedirs P (dirname (abspath output_path)) W).2.
Definition copy_target (W : World) (src dst : string) : string :=
  if is_dir W dst then path_join dst (basename src) else dst.

(** The world in which [_replace_in_zip] runs its loops for
    [generate_resume]: the directory above the output path made, the
    template copied onto the output path, the temporary file created. *)
Definition splice_world (P : Process) (W : World) (output_path : string)
    (tpl : File) : World :=
  mkWorld (with_tmp P (<[output_path := tpl]> (fs W)))
    (dirs (parent_made P W output_path)) (stdout W).

(** Members of the archive stored at [path], if it is one. *)
Definition members_at (W : World) (path : string) : option (list Member) :=
  match fs W !! path with
  | Some f => match body f with Archive ms => Some ms | _ => None end
  | None => None
  end.

(** The content tree around a given body. *)
Definition document_of (body : list Element) : XmlDoc :=
  mkXmlDoc (xml_declaration "UTF-8")
    (E (w "document")
       [(mc "Ignorable", "w14 w15 w16se w16cid w16 w16cex w16sdtdh w16sdtfl w16du wp14")]
       [E (w "body") [] body]).

(** [build_document_xml] succeeds and the body is laid out in the fixed
    order, with a company line for the jobs [shown] gives one for. *)
Definition laid_out (shown : JobEntry -> option string) (P : Process)
    (d : ResumeInput) : Prop :=
  exists doc edu, build_document_xml P d = Ok doc /\ education_of P d = Ok edu /\
    body_of doc = body_layout shown edu d.

(** Identifiers the drawing anchors of a content tree carry. *)
Definition drawing_ids (doc : XmlDoc) : list string :=
  omap (fun e => assoc "id" (el_attrib e)) (find_all (wp "docPr") (xml_root doc)).

Definition markup_of (m : Member) : option XmlDoc :=
  match stored m with
  | Some (Markup doc) => Some doc
  | _ => None
  end.

Definition drawing_ids_at (W : World) (path : string) : list string :=
  concat (map drawing_ids (omap markup_of (default [] (members_at W path)))).

(** ** Actions on the outside world *)

(** An action that leaves the files and the directories as they are,
    whatever it returns. *)
Definition fs_stable {A} (c : IO A) : Prop :=
  forall W r W', c W = (r, W') -> fs W' = fs W /\ dirs W' = dirs W.




(** ** Identifier bookkeeping *)

(** [key in BADGE_REGISTRY], as a decidable filter. *)
Abbreviation in_registry := (fun k : string => is_Some (BADGE_REGISTRY !! k)).

(** Identifiers [rIdn], [rIdn+1], ... for [count] badges. *)
Definition rid_range (n : Z) (count : nat) : list string :=
  map (fun i => rId (n + Z.of_nat i)) (seq 0 count).

(** Values of an attribute over a list of sibling elements. *)
Definition child_values (name : string) (kids : list Element) : list string :=
  concat (map (attr_values name) kids).

(** An element that refers to no relationship. *)
Definition no_ids (e : Element) : Prop :=
  attr_values (r_ns "embed") e = [] /\ attr_values (r_ns "id") e = [].

Ltac no_ids_by_computation := split; vm_compute; reflexivity.

(** The image relationships declared for a list of keys, from [rIdn] on. *)
Fixpoint badge_rels (n : Z) (l : list string) : list Element :=
  match l with
  | [] => []
  | k :: l' =>
      match BADGE_REGISTRY !! k with
      | Some cfg =>
          Relationship (rId n) image_type ("media/" +:+ cfg_filename cfg)
          :: badge_rels (n + 1) l'
      | None => badge_rels n l'
      end
  end.

Definition rel_id (rel : Element) : option string := assoc "Id" (el_attrib rel).


(** ** Sample inputs *)

Definition sample_process : Process :=
  quiet_process (fun _ => 5537386292930818957) "/opt/resume_builder"
    "/tmp/tmpk3v9x2.docx" 1700000000.

Definition sample_job (c : option string) : JobEntry :=
  mkJob (Some "Engineer") (Some "2020 - 2024") c
    (Some ["Built things"; "Fixed things"]).

Definition sample_input (b : option (list string)) (c : option string) : ResumeInput :=
  mkInput (Some "Ada Smith") (Some "555-0100") (Some "ada@example.com")
    (Some "Engineer with ten years of practice.")
    (Some (mkEducation (Some "BS Computer Science") (Some "State University")))
    b (Some [sample_job c]).

(** The same process started with another hash secret. *)
Definition other_seed : Process :=
  quiet_process (fun _ => -3842021803045761297) "/opt/resume_builder"
    "/tmp/tmpk3v9x2.docx" 1700000000.

(** The same process on a machine whose temporary directory is on another
    file system, so that [os.rename] is refused (EXDEV), and on one whose
    disk is full as well: the copy of the archive stops (ENOSPC) and
    leaves an empty file. *)
Definition other_device : Process :=
  mkProcess (str_hash sample_process) (PROJECT_ROOT sample_process)
    (mkstemp_name sample_process) (now sample_process) (str_repr sample_process)
    (fun _ => None)
    (fun src _ =>
       if String.eqb src (mkstemp_name sample_process) then Some (OSError 18) else None)
    (fun _ _ => None) (fun _ => None) (dir_stat sample_process).

(** A member as [zipfile] writes it, with fixed metadata, and one as Word
    writes it: no Unix attributes. *)
Definition member (name : string) (data : list Byte.byte) : Member :=
  mkMember (mkZipInfo name 1600000000 8 25165824) (Some (Data data)).
Definition word_member (name : string) (data : list Byte.byte) : Member :=
  mkMember (mkZipInfo name 1600000000 8 0) (Some (Data data)).

Definition asset_csm : File :=
  mkFile 1650000000 420 (Data [Byte.x89; Byte.x50; Byte.x4e; Byte.x47]).

Definition sample_template : File :=
  mkFile 1680000000 420
    (Archive [word_member "[Content_Types].xml" [Byte.x3c];
              word_member "word/document.xml" [Byte.x3c; Byte.x77];
              word_member "word/_rels/document.xml.rels" [Byte.x3c; Byte.x52];
              word_member "word/media/image1.png" [Byte.x89];
              word_member "word/styles.xml" [Byte.x3c; Byte.x73]]).

(** A resume generated earlier, when the CSM badge image was another file. *)
Definition earlier_resume : File :=
  mkFile 1680000000 420
    (Archive [member "word/document.xml" [Byte.x3c; Byte.x77];
              member "word/_rels/document.xml.rels" [Byte.x3c; Byte.x52];
              member "word/media/csm.png" [Byte.x41];
              member "word/styles.xml" [Byte.x3c; Byte.x73]]).

Definition sample_world (d : ResumeInput) (tpl : File) : World :=
  mkWorld
    (<["/work/in.json" := mkFile 1700000000 420 (Json d)]>
     (<["/work/tpl.docx" := tpl]>
      (<["/opt/resume_builder/assets/badges/csm.png" := asset_csm]> ∅)))
    ∅ [].

Definition sample_run (P : Process) (d : ResumeInput) (tpl : File) : result unit * World :=
  generate_resume P "/work/in.json" "/work/out.docx" (Some "/work/tpl.docx")
    (sample_world d tpl).






(** ** Required fields *)

(** The keys [build_document_xml] subscripts without a default. *)
Definition REQUIRED_KEYS : list string :=
  ["name"; "phone"; "email"; "summary"; "education"; "degree"; "university";
   "jobs"; "title"; "dates"; "bullets"].

(** A KeyError on one of these keys. *)
Definition is_key_error (e : exn) : Prop :=
  exists k, e = KeyError k /\ k ∈ REQUIRED_KEYS.

(** What the builder raises on values of the wrong type. *)
Definition typed_error (e : exn) : Prop :=
  is_key_error e \/ e = TypeError \/ e = AttributeError.

(** An input without a phone number. *)
Definition without_phone : ResumeInput :=
  mkInput (Some "Ada Smith") None (Some "ada@example.com") None None None None.

(** Every required field is there, and the summary is a number. *)
Definition numeric_summary : Value :=
  VDict [("name", VStr "Ada Smith"); ("phone", VStr "555-0100");
         ("email", VStr "ada@example.com"); ("summary", VInt 12);
         ("education", VDict [("degree", VStr "BS"); ("university", VStr "State")]);
         ("jobs", VList [])].

(** ** Placement with unrecognised keys *)

(** [span_skew] over the recognised keys of a list: how much further the
    right edge of the last recognised badge is from the band centre than the
    left edge of the first one. *)
Definition skew_of (l : list string) : Z :=
  match head (filter in_registry l), last (filter in_registry l) with
  | Some kf, Some kl =>
      (pos_h l kl + width kl - BADGE_AREA_CENTER) - (BADGE_AREA_CENTER - pos_h l kf)
  | _, _ => 0
  end.

(** ** Archive entries and messages *)

(** Archive names of the four registry images. *)
Definition BADGE_ARCHIVE_NAMES : list string :=
  ["word/media/csm.png"; "word/media/ts_sci.png";
   "word/media/aws_cloud_practitioner.png"; "word/media/security_plus.png"].

(** Warnings printed for the registry keys whose asset path holds neither
    a file nor a directory in the world [W], in the order of the keys. *)
Definition missing_warnings (P : Process) (W : World)
    (badge_keys : list string) : list string :=
  omap (fun key =>
          match BADGE_REGISTRY !! key with
          | Some cfg =>
              let src_path := path_join (BADGES_DIR P) (cfg_filename cfg) in
              if bool_decide (is_Some (fs W !! src_path)) || is_dir W src_path then None
              else Some ("Warning: Badge image not found: " +:+ src_path)
          | None => None
          end) badge_keys.

(** ** Texts and drawings *)

(** What [g] yields over an element and its descendants, in document order. *)
Definition collect {X} (g : Element -> list X) (e : Element) : list X :=
  concat (map g (descendants e)).

(** The same over a list of siblings. *)
Definition collect_all {X} (g : Element -> list X) (es : list Element) : list X :=
  concat (map (collect g) es).

(** The text of an element with the given tag. *)
Definition text_if (tag : string) (e : Element) : list string :=
  if has_tag tag e then option_list (el_text e) else [].

(** An element with the given tag. *)
Definition self_if (tag : string) (e : Element) : list Element :=
  if has_tag tag e then [e] else [].

(** Keys that get a drawing run: in the registry and given an identifier. *)
Definition drawn (rids : gmap string string) (key : string) : Prop :=
  is_Some (BADGE_REGISTRY !! key) /\ is_Some (rids !! key).

(** Texts of one job, in document order. *)
Definition job_texts (j : JobEntry) : list string :=
  [req (title j) +:+ " - "; req (dates j)]
  ++ from_option (fun c => [c]) [] (shown_company j)
  ++ default [] (bullets j).

(** Texts of the whole document, in document order. *)
Definition document_texts (d : ResumeInput) : list string :=
  [req (name d) +:+ " | " +:+ req (phone d) +:+ " | " +:+ req (email d);
   "Professional Experience Summary";
   req (summary d);
   "Education & Certifications";
   req (education d ≫= degree);
   req (education d ≫= university);
   "Professional Experience"]
  ++ concat (map job_texts (default [] (jobs d))).

(** ** More sample inputs *)

(** A process installed elsewhere whose hash agrees with [sample_process] on
    the key csm only. *)
Definition relocated_process : Process :=
  quiet_process (fun k => if String.eqb k "csm" then 5537386292930818957 else 0)
    "/srv/tools" "/tmp/tmpq8w1.docx" 1800000000.

(** A run with one badge whose asset is there and one whose asset is not. *)
Definition sample_success : result unit * World :=
  sample_run sample_process (sample_input (Some ["csm"; "ts_sci"]) (Some "US Army"))
    sample_template.

(** The members of the archive this run leaves, and those of its template. *)
Definition sample_output : list Member :=
  default [] (members_at sample_success.2 "/work/out.docx").


(** * Properties *)

(** ** The badge registry *)

Lemma known_lookup k : known k -> exists cfg, BADGE_REGISTRY !! k = Some cfg /\ width k = cfg_cx cfg.
Proof. intros [cfg H]. exists cfg. unfold width. by rewrite H. Qed.

Lemma known_cases k : known k <-> k ∈ KNOWN_KEYS.
Proof.
  unfold known, KNOWN_KEYS. rewrite !elem_of_cons. split.
  - intros [cfg H]. unfold BADGE_REGISTRY in H.
    destruct (decide (k = "csm")); [tauto|].
    destruct (decide (k = "ts_sci")); [tauto|].
    destruct (decide (k = "aws_cloud_practitioner")); [tauto|].
    destruct (decide (k = "security_plus")); [tauto|].
    rewrite !lookup_insert_ne in H by done. by rewrite lookup_empty in H.
  - intros [->|[->|[->|[->|H]]]]; [by eexists..|by apply not_elem_of_nil in H].
Qed.

Lemma width_pos k : known k -> 0 < width k.
Proof.
  rewrite known_cases. unfold KNOWN_KEYS. rewrite !elem_of_cons.
  intros [->|[->|[->|[->|H]]]]; [by vm_compute..|by apply not_elem_of_nil in H].
Qed.

Lemma width_nonneg k : 0 <= width k.
Proof.
  destruct (decide (known k)) as [H|H]; [apply width_pos in H; lia|].
  unfold width. unfold known in H. destruct (BADGE_REGISTRY !! k); [|done].
  exfalso; apply H; eauto.
Qed.

(** ** Four badges: the template positions *)

Lemma place_template_eq m k : place_template m k = <[k := template_pos k]> m.
Proof. unfold place_template, template_pos. by destruct (BADGE_POSITIONS_4 !! k). Qed.

Lemma foldl_place_template_lookup l : forall m k,
  foldl place_template m l !! k =
  if decide (k ∈ l) then Some (template_pos k) else m !! k.
Proof.
  induction l as [|x l IH]; intros m k; cbn [foldl].
  - destruct (decide (k ∈ [])) as [H|H]; [by apply not_elem_of_nil in H|done].
  - rewrite IH, place_template_eq.
    destruct (decide (k ∈ l)) as [Hl|Hl].
    + rewrite decide_True by (by right). done.
    + destruct (decide (k = x)) as [->|Hne].
      * rewrite decide_True by (by left). by rewrite lookup_insert_eq.
      * rewrite decide_False by (rewrite elem_of_cons; tauto).
        by rewrite lookup_insert_ne.
Qed.

Lemma BADGE_POSITIONS_4_lookup k :
  BADGE_POSITIONS_4 !! k =
  if decide (k ∈ KNOWN_KEYS) then Some (template_pos k) else None.
Proof.
  unfold template_pos.
  destruct (decide (k ∈ KNOWN_KEYS)) as [H|H].
  - unfold KNOWN_KEYS in H. rewrite !elem_of_cons in H.
    destruct H as [->|[->|[->|[->|H]]]]; [reflexivity..|by apply not_elem_of_nil in H].
  - unfold KNOWN_KEYS in H. rewrite !elem_of_cons in H.
    unfold BADGE_POSITIONS_4.
    rewrite !lookup_insert_ne by (intros ?; subst; tauto). done.
Qed.

Lemma four_known_positions (l : list string) :
  l ≡ₚ KNOWN_KEYS -> compute_badge_positions l = BADGE_POSITIONS_4.
Proof.
  intros Hp. unfold compute_badge_positions.
  rewrite decide_True by (by rewrite Hp).
  apply map_eq; intros k.
  rewrite foldl_place_template_lookup, BADGE_POSITIONS_4_lookup.
  destruct (decide (k ∈ l)) as [H|H], (decide (k ∈ KNOWN_KEYS)) as [H'|H']; try done.
  - rewrite Hp in H. done.
  - rewrite <- Hp in H'. done.
Qed.

(** C5: when the badge list is the four known keys in any order,
    [compute_badge_positions] returns the template table: each key gets its
    hand-tuned (horizontal, vertical) position, and every ordering of the
    keys gives the same mapping. *)
Theorem four_badges_golden (l : list string) :
  l ≡ₚ KNOWN_KEYS ->
  compute_badge_positions l = BADGE_POSITIONS_4 /\
  compute_badge_positions l !! "aws_cloud_practitioner" = Some (3219450, 76200) /\
  compute_badge_positions l !! "security_plus" = Some (4076700, 57150) /\
  compute_badge_positions l !! "csm" = Some (4905375, 57150) /\
  compute_badge_positions l !! "ts_sci" = Some (5848350, 95250) /\
  (forall l', l' ≡ₚ l -> compute_badge_positions l' = compute_badge_positions l).
Proof.
  intros Hp. rewrite (four_known_positions l Hp).
  repeat split; try reflexivity.
  intros l' Hp'. apply four_known_positions. by rewrite Hp'.
Qed.

(** ** One to three badges: spreading around the band centre *)

Lemma place_spread_known m x k :
  known k -> place_spread gap (m, x) k = (<[k := (x, BADGE_VERTICAL_DEFAULT)]> m, x + width k + gap).
Proof.
  intros Hk. destruct (known_lookup k Hk) as (cfg & H & Hw).
  unfold place_spread. by rewrite H, Hw.
Qed.

Lemma foldl_place_spread_other l : forall m x k,
  k ∉ l -> (foldl (place_spread gap) (m, x) l).1 !! k = m !! k.
Proof.
  induction l as [|k0 l IH]; intros m x k Hk; [done|].
  cbn [foldl]. rewrite not_elem_of_cons in Hk. destruct Hk as [Hne Hk].
  unfold place_spread at 2. destruct (BADGE_REGISTRY !! k0).
  - rewrite IH by done. by rewrite lookup_insert_ne.
  - by rewrite IH.
Qed.

Lemma foldl_place_spread_lookup l : forall m x i k,
  Forall known l -> NoDup l -> l !! i = Some k ->
  (foldl (place_spread gap) (m, x) l).1 !! k =
  Some (x + advance (take i l), BADGE_VERTICAL_DEFAULT).
Proof.
  induction l as [|k0 l IH]; intros m x i k Hall Hnd Hi; [done|].
  apply Forall_cons in Hall as [Hk0 Hall]. apply NoDup_cons in Hnd as [Hnin Hnd].
  cbn [foldl]. rewrite place_spread_known by done.
  destruct i as [|i]; simpl in Hi.
  - injection Hi as ->. rewrite foldl_place_spread_other by done.
    rewrite lookup_insert_eq. simpl. f_equal. f_equal. lia.
  - rewrite (IH _ _ i k) by done. simpl. f_equal. f_equal. lia.
Qed.

Lemma advance_width l : Forall known l ->
  advance l = registry_width l + gap * Z.of_nat (length l).
Proof.
  induction 1 as [|k l Hk _ IH]; [done|].
  destruct (known_lookup k Hk) as (cfg & H & Hw).
  cbn [advance registry_width length]. rewrite H, Hw, IH. lia.
Qed.

Lemma advance_app l1 l2 : advance (l1 ++ l2) = advance l1 + advance l2.
Proof. induction l1 as [|k l1 IH]; simpl; lia. Qed.

Lemma advance_nonneg l : 0 <= advance l.
Proof. induction l as [|k l IH]; simpl; [lia|]. pose proof (width_nonneg k). unfold gap. lia. Qed.

Lemma advance_take_S l i k : l !! i = Some k ->
  advance (take (S i) l) = advance (take i l) + width k + gap.
Proof.
  intros H. rewrite (take_S_r _ _ _ H), advance_app. simpl. lia.
Qed.

Lemma advance_take_lt l : forall i j kj, (i < j)%nat -> l !! j = Some kj ->
  advance (take i l) < advance (take j l).
Proof.
  intros i j kj Hij Hj.
  assert (Hlen : (j < length l)%nat) by (by eapply lookup_lt_Some).
  rewrite <- (take_drop i (take j l)), advance_app, take_take.
  replace (i `min` j)%nat with i by lia.
  destruct (drop i (take j l)) as [|k d] eqn:Hd.
  { apply (f_equal length) in Hd. rewrite length_drop, length_take in Hd.
    simpl in Hd. lia. }
  simpl. pose proof (width_nonneg k). pose proof (advance_nonneg d). unfold gap. lia.
Qed.

Lemma compute_spread l : length l <> 4%nat -> (1 <= length l)%nat ->
  compute_badge_positions l = (foldl (place_spread gap) (∅, start_x l) l).1.
Proof.
  intros H4 H1. unfold compute_badge_positions, start_x, total_span.
  rewrite decide_False by done.
  destruct (decide (1 < length l)%nat) as [H|H]; [done|].
  replace (Z.of_nat (length l) - 1) with 0 by lia.
  by rewrite Z.mul_0_r, Z.add_0_r.
Qed.

Lemma spread_lookup l i k :
  Forall known l -> NoDup l -> length l <> 4%nat -> l !! i = Some k ->
  compute_badge_positions l !! k =
  Some (start_x l + advance (take i l), BADGE_VERTICAL_DEFAULT).
Proof.
  intros Hall Hnd H4 Hi.
  assert (1 <= length l)%nat by (apply lookup_lt_Some in Hi; lia).
  rewrite compute_spread by done. by apply foldl_place_spread_lookup.
Qed.

Lemma spread_pos_h l i k :
  Forall known l -> NoDup l -> length l <> 4%nat -> l !! i = Some k ->
  pos_h l k = start_x l + advance (take i l).
Proof.
  intros. unfold pos_h. rewrite lookup_total_alt.
  by erewrite spread_lookup.
Qed.

Lemma spread_skew (l : list string) :
  Forall known l -> NoDup l -> (1 <= length l <= 3)%nat ->
  span_skew l = total_span l `mod` 2.
Proof.
  intros Hall Hnd Hlen.
  assert (H4 : length l <> 4%nat) by lia.
  unfold span_skew. rewrite head_lookup, last_lookup.
  destruct (lookup_lt_is_Some_2 l 0%nat) as [kf Hf]; [lia|].
  destruct (lookup_lt_is_Some_2 l (pred (length l))) as [kl Hl]; [lia|].
  rewrite Hf, Hl.
  rewrite (spread_pos_h l 0 kf), (spread_pos_h l (pred (length l)) kl) by done.
  pose proof (advance_take_S l _ kl Hl) as HS.
  replace (S (pred (length l))) with (length l) in HS by lia.
  rewrite firstn_all, advance_width in HS by done.
  rewrite take_0. cbn [advance].
  pose proof (Z.div_mod (total_span l) 2 ltac:(lia)) as Hdm.
  unfold start_x. unfold total_span in *. lia.
Qed.

(** C6 (amended): for 1 to 3 distinct known badge keys every badge is
    placed, the horizontal offsets strictly increase in input order,
    consecutive offsets are at least the preceding width plus the gap apart,
    and the occupied span is centred on BADGE_AREA_CENTER up to the rounding
    of the integer halving: the right margin exceeds the left one by the
    parity of the span, 0 or 1 EMU. *)
Theorem spread_placement (l : list string) :
  Forall known l -> NoDup l -> (1 <= length l <= 3)%nat ->
  placed l /\ increasing l /\ no_overlap l /\
  span_skew l = total_span l `mod` 2 /\ 0 <= span_skew l <= 1.
Proof.
  intros Hall Hnd Hlen.
  assert (H4 : length l <> 4%nat) by lia.
  split; [|split; [|split; [|split]]].
  - intros k Hk. apply list_elem_of_lookup in Hk as [i Hi].
    eexists. by eapply spread_lookup.
  - intros i j ki kj Hij Hi Hj.
    rewrite (spread_pos_h l i ki), (spread_pos_h l j kj) by done.
    pose proof (advance_take_lt l i j kj Hij Hj). lia.
  - intros i ki kj Hi Hj.
    rewrite (spread_pos_h l i ki), (spread_pos_h l (S i) kj) by done.
    rewrite (advance_take_S l i ki) by done. lia.
  - by apply spread_skew.
  - rewrite spread_skew by done.
    pose proof (Z.mod_pos_bound (total_span l) 2 ltac:(lia)). lia.
Qed.

Lemma known_csm : known "csm".
Proof. by eexists. Qed.
Lemma known_ts_sci : known "ts_sci".
Proof. by eexists. Qed.

Lemma spread_placement_witness :
  (Forall known ["csm"; "ts_sci"] /\ NoDup ["csm"; "ts_sci"]) /\
  pos_h ["csm"; "ts_sci"] "csm" = 4002888 /\
  pos_h ["csm"; "ts_sci"] "ts_sci" = 5064913 /\
  placed ["csm"; "ts_sci"] /\ increasing ["csm"; "ts_sci"] /\
  no_overlap ["csm"; "ts_sci"] /\ span_skew ["csm"; "ts_sci"] = 1.
Proof.
  assert (Hk : Forall known ["csm"; "ts_sci"]).
  { repeat constructor; [apply known_csm | apply known_ts_sci]. }
  assert (Hn : NoDup ["csm"; "ts_sci"]).
  { apply (bool_decide_unpack _). vm_compute. exact I. }
  destruct (spread_placement ["csm"; "ts_sci"] Hk Hn) as (Hp & Hi & Ho & Hs & _).
  { simpl. lia. }
  repeat split; try assumption; try reflexivity.
Defined.

(** C6, as worded, fails: a lone CSM badge (odd width) sits half an EMU off
    the centre, and a repeated key is given a single offset. *)
Lemma spread_centred_fails :
  (Forall known ["csm"] /\ ~ spread_centred ["csm"]) /\
  (Forall known ["csm"; "csm"] /\ ~ spread_centred ["csm"; "csm"]).
Proof.
  split; split.
  - repeat constructor. apply known_csm.
  - intros (_ & Hs & _). vm_compute in Hs. discriminate Hs.
  - repeat constructor; apply known_csm.
  - intros (Hi & _).
    specialize (Hi 0%nat 1%nat "csm" "csm" ltac:(lia) eq_refl eq_refl). lia.
Qed.

Lemma four_badges_golden_witness :
  ["ts_sci"; "csm"; "security_plus"; "aws_cloud_practitioner"] ≡ₚ KNOWN_KEYS /\
  compute_badge_positions ["ts_sci"; "csm"; "security_plus"; "aws_cloud_practitioner"]
    = BADGE_POSITIONS_4.
Proof.
  assert (Hp : ["ts_sci"; "csm"; "security_plus"; "aws_cloud_practitioner"] ≡ₚ KNOWN_KEYS).
  { apply (bool_decide_unpack _). vm_compute. exact I. }
  split; [exact Hp|].
  exact (proj1 (four_badges_golden _ Hp)).
Defined.

(** ** Layout of the body *)

Lemma foldl_snoc_map {A B} (f : A -> B) (l : list A) : forall acc,
  foldl (fun acc x => acc ++ [f x]) acc l = acc ++ map f l.
Proof.
  induction l as [|x l IH]; intros acc; simpl.
  - by rewrite app_nil_r.
  - by rewrite IH, <- app_assoc.
Qed.

Lemma append_job_valid (body : list Element) (j : JobEntry) :
  valid_job j -> append_job body j = Ok (body ++ job_paragraphs shown_company j).
Proof.
  intros ([t Ht] & [d Hd] & [bs Hb]).
  unfold append_job, job_paragraphs, shown_company, has_company.
  rewrite Ht, Hd, Hb. simpl.
  destruct (company j) as [c|]; simpl.
  - destruct (truthy c); simpl; rewrite foldl_snoc_map, <- !app_assoc; done.
  - rewrite foldl_snoc_map, <- !app_assoc. done.
Qed.

Lemma for_each_append_job (js : list JobEntry) : forall body,
  Forall valid_job js ->
  for_each append_job js body =
  Ok (body ++ concat (map (job_paragraphs shown_company) js)).
Proof.
  induction js as [|j js IH]; intros body Hv; simpl.
  - by rewrite app_nil_r.
  - apply Forall_cons in Hv as [Hj Hv].
    rewrite append_job_valid by done. simpl.
    rewrite IH by done. by rewrite <- app_assoc.
Qed.

Lemma badge_run_ok P positions rids runs key :
  exists runs', badge_run P positions rids runs key = Ok runs'.
Proof.
  unfold badge_run.
  destruct (BADGE_REGISTRY !! key) as [cfg|] eqn:Hk; [|by eexists].
  destruct (rids !! key) as [rid|]; [|by eexists].
  destruct (default _ _) as [h v].
  unfold build_badge_anchor. rewrite Hk. simpl. by eexists.
Qed.

Lemma for_each_badge_run_ok P positions rids keys : forall runs,
  exists runs', for_each (badge_run P positions rids) keys runs = Ok runs'.
Proof.
  induction keys as [|k keys IH]; intros runs; simpl; [by eexists|].
  destruct (badge_run_ok P positions rids runs k) as [r1 ->]. simpl. apply IH.
Qed.

Lemma build_education_paragraph_ok P degree university keys rids :
  exists edu, build_education_paragraph P degree university keys rids = Ok edu.
Proof.
  unfold build_education_paragraph.
  destruct (for_each_badge_run_ok P (compute_badge_positions keys) rids keys
    [E (w "pPr") [] [E (w "rPr") [] [E (w "sz") (val "22") []]]]) as [runs ->].
  simpl. by eexists.
Qed.

Lemma build_document_xml_layout P d :
  valid d ->
  exists edu, education_of P d = Ok edu /\
    build_document_xml P d = Ok (document_of (body_layout shown_company edu d)).
Proof.
  intros ([n Hn] & [ph Hph] & [em Hem] & [su Hsu] & (e & He & [dg Hdg] & [un Hun]) &
          (js & Hjs & Hv)).
  destruct (build_education_paragraph_ok P dg un (default [] (badges d))
    (foldl allocate_rid (∅, BADGE_RID_START) (default [] (badges d))).1) as [edu Hedu].
  exists edu. split.
  - unfold education_of. rewrite He. simpl. rewrite Hdg, Hun. simpl. exact Hedu.
  - unfold build_document_xml. rewrite Hn, Hph, Hem, Hsu, He, Hjs. simpl.
    rewrite Hdg, Hun. simpl. rewrite Hedu. simpl.
    rewrite for_each_append_job by done. simpl.
    unfold document_of, body_layout. rewrite Hn, Hph, Hem, Hsu, Hjs. simpl.
    rewrite <- !app_assoc. reflexivity.
Qed.

Lemma sample_valid b c : valid (sample_input b c).
Proof.
  refine (conj _ (conj _ (conj _ (conj _ (conj _ _))))); try (by eexists).
  eexists; split; [reflexivity|].
  repeat constructor; by eexists.
Qed.

(** C8 (amended): for every input with its required fields, the body of
    the content tree is, in this order: contact paragraph, "Professional
    Experience Summary" heading, summary, "Education & Certifications"
    heading, education paragraph, four spacers, "Professional Experience"
    heading, then per job in input order the title paragraph, a company
    paragraph exactly when company is present and not empty, and one bullet
    paragraph per bullet; then two spacers and the section setup block. *)
Theorem body_order (P : Process) (d : ResumeInput) :
  valid d -> laid_out shown_company P d.
Proof.
  intros Hv. destruct (build_document_xml_layout P d Hv) as (edu & He & Hd).
  exists (document_of (body_layout shown_company edu d)), edu. done.
Qed.

Lemma body_order_witness :
  valid (sample_input (Some []) (Some "US Army")) /\
  laid_out shown_company sample_process (sample_input (Some []) (Some "US Army")).
Proof.
  split; [apply sample_valid|]. apply body_order. apply sample_valid.
Defined.

(** C8, as worded, fails for a job whose company is present but empty: no
    company paragraph is emitted for it. *)
Lemma body_order_as_worded_fails :
  valid (sample_input (Some []) (Some EmptyString)) /\
  ~ laid_out company sample_process (sample_input (Some []) (Some EmptyString)).
Proof.
  split; [apply sample_valid|].
  intros (doc & edu & Hd & He & Hb).
  destruct (build_document_xml_layout sample_process _ (sample_valid (Some []) (Some EmptyString)))
    as (edu' & He' & Hd').
  rewrite Hd' in Hd. injection Hd as <-.
  apply (f_equal length) in Hb. vm_compute in Hb. discriminate Hb.
Qed.





(** C9: with no badges the relationship manifest has no image-type entry and
    the education paragraph, fifth in the body, holds no drawing element. *)
Theorem no_badges_no_images P d :
  valid d -> default [] (badges d) = [] ->
  image_rels (build_document_rels (registry_badges d)) = [] /\
  exists doc edu, build_document_xml P d = Ok doc /\
    education_of P d = Ok edu /\
    body_of doc !! 4%nat = Some edu /\
    find_all (w "drawing") edu = [].
Proof.
  intros Hv Hb. split.
  - unfold registry_badges. rewrite Hb. vm_compute. reflexivity.
  - destruct (build_document_xml_layout P d Hv) as (edu & He & Hd).
    exists (document_of (body_layout shown_company edu d)), edu.
    repeat split; try done.
    destruct Hv as (_ & _ & _ & _ & (e & Hed & [dg Hdg] & [un Hun]) & _).
    unfold education_of in He. rewrite Hed, Hb in He. simpl in He.
    rewrite Hdg, Hun in He. simpl in He. injection He as <-.
    vm_compute. reflexivity.
Qed.

Lemma no_badges_no_images_witness :
  valid (sample_input (Some []) None) /\
  image_rels (build_document_rels (registry_badges (sample_input (Some []) None))) = [].
Proof.
  split; [apply sample_valid|].
  exact (proj1 (no_badges_no_images sample_process (sample_input (Some []) None)
                  (sample_valid _ _) eq_refl)).
Defined.

(** ** Failures of the generation *)

Lemma bind_cases {A B} (c : IO A) (k : A -> IO B) W r W' :
  (x ← c; k x) W = (r, W') ->
  (exists e, c W = (Raise e, W') /\ r = Raise e) \/
  (exists a W1, c W = (Ok a, W1) /\ k a W1 = (r, W')).
Proof.
  unfold mbind, IO_bind. destruct (c W) as [[a|e] W1]; intros H.
  - right. eauto.
  - left. injection H as <- <-. eauto.
Qed.

Lemma bind_run {A B} (c : IO A) (k : A -> IO B) W a W1 :
  c W = (Ok a, W1) -> (x ← c; k x) W = k a W1.
Proof. intros H. unfold mbind, IO_bind. by rewrite H. Qed.

Lemma bind_stop {A B} (c : IO A) (k : A -> IO B) W e W1 :
  c W = (Raise e, W1) -> (x ← c; k x) W = (Raise e, W1).
Proof. intros H. unfold mbind, IO_bind. by rewrite H. Qed.

Lemma fs_stable_bind {A B} (c : IO A) (k : A -> IO B) :
  fs_stable c -> (forall a, fs_stable (k a)) -> fs_stable (x ← c; k x).
Proof.
  intros Hc Hk W r W' H.
  apply bind_cases in H as [(e & H & _)|(a & W1 & H1 & H2)].
  - eauto.
  - destruct (Hk a _ _ _ H2) as [-> ->]. eauto.
Qed.

Lemma fs_stable_ret {A} (a : A) : fs_stable (mret a : IO A).
Proof. intros W r W' H. by injection H as <- <-. Qed.
Lemma fs_stable_raise {A} e : fs_stable (raise e : IO A).
Proof. intros W r W' H. by injection H as <- <-. Qed.
Lemma fs_stable_lift {A} (x : result A) : fs_stable (lift x).
Proof. intros W r W' H. by injection H as <- <-. Qed.
Lemma fs_stable_print line : fs_stable (print line).
Proof. intros W r W' H. by injection H as <- <-. Qed.
Lemma fs_stable_path_exists path : fs_stable (path_exists path).
Proof. intros W r W' H. by injection H as <- <-. Qed.

(** Reading leaves the world as it is. *)
Lemma open_read_inv path W r W' :
  open_read path W = (r, W') ->
  W' = W /\ forall f, r = Ok f -> fs W !! path = Some f /\ readable f = true.
Proof.
  unfold open_read. intros H.
  destruct (fs W !! path) as [g|]; [destruct (readable g) eqn:Hg|destruct (is_dir W path)];
    injection H as <- <-; (split; [done|]); intros f Hf; try done.
  by injection Hf as <-.
Qed.

Lemma fs_stable_open_read path : fs_stable (open_read path).
Proof. intros W r W' H. by apply open_read_inv in H as [-> _]. Qed.

Lemma fs_stable_for_each_io {A S} (body : S -> A -> IO S) l :
  (forall s x, fs_stable (body s x)) -> forall s, fs_stable (for_each_io body l s).
Proof.
  intros Hb. induction l as [|x l IH]; intros s; simpl.
  - apply fs_stable_ret.
  - apply fs_stable_bind; auto.
Qed.

Lemma fs_stable_open_zip path : fs_stable (open_zip path).
Proof.
  apply fs_stable_bind; [apply fs_stable_open_read|].
  intros f. destruct (body f); (apply fs_stable_ret || apply fs_stable_raise).
Qed.

Lemma open_zip_ok path W zin W' :
  open_zip path W = (Ok zin, W') ->
  W' = W /\ members_at W path = Some zin /\ is_Some (fs W !! path).
Proof.
  intros H. apply bind_cases in H as [(e & _ & Habs)|(f & W1 & Hf & H)]; [done|].
  apply open_read_inv in Hf as [-> Hf]. destruct (Hf f eq_refl) as [Hp _].
  unfold members_at. rewrite Hp.
  destruct (body f); try discriminate H. injection H as <- <-. eauto.
Qed.

Lemma load_json_inv path W r W' : load_json path W = (r, W') -> W' = W.
Proof.
  intros H. apply bind_cases in H as [(e & H & _)|(f & W1 & Hf & H)].
  - by apply open_read_inv in H as [-> _].
  - apply open_read_inv in Hf as [-> _].
    destruct (body f); by injection H as _ <-.
Qed.

Lemma fs_stable_zip_write P src arc : fs_stable (zip_write P src arc).
Proof.
  intros W r W'. unfold zip_write. destruct (is_dir W src).
  - intros H. by injection H as <- <-.
  - revert W r W'. apply fs_stable_bind; [apply fs_stable_open_read|].
    intros f. apply fs_stable_ret.
Qed.

Lemma fs_stable_add_badge P zout key : fs_stable (add_badge P zout key).
Proof.
  unfold add_badge. destruct (BADGE_REGISTRY !! key) as [cfg|]; [|apply fs_stable_ret].
  apply fs_stable_bind; [apply fs_stable_path_exists|]. intros [].
  - apply fs_stable_bind; [apply fs_stable_zip_write|]. intros m. apply fs_stable_ret.
  - apply fs_stable_bind; [apply fs_stable_print|]. intros _. apply fs_stable_ret.
Qed.

(** Whether a path is a directory depends on the files and the recorded
    directories only, and a path that holds a file is not one. *)
Lemma known_dir_ext W1 W2 p :
  fs W1 = fs W2 -> dirs W1 = dirs W2 -> known_dir W1 p = known_dir W2 p.
Proof. intros Hf Hd. unfold known_dir, holds_below, recorded. by rewrite Hf, Hd. Qed.

Lemma is_dir_ext W1 W2 p :
  fs W1 = fs W2 -> dirs W1 = dirs W2 -> is_dir W1 p = is_dir W2 p.
Proof.
  intros Hf Hd. unfold is_dir. by rewrite Hf, (known_dir_ext W1 W2 p Hf Hd).
Qed.

Lemma is_dir_file W p f : fs W !! p = Some f -> is_dir W p = false.
Proof.
  intros H. unfold is_dir. rewrite bool_decide_false; [done|]. congruence.
Qed.

(** The directory above a file is there. *)
Lemma known_dir_parent W p f : fs W !! p = Some f -> known_dir W (dirname p) = true.
Proof.
  intros Hp. unfold known_dir.
  destruct (String.eqb (dirname (dirname p)) (dirname p)) eqn:Hroot; [done|].
  assert (Hanc : dirname p ∈ ancestors p).
  { unfold ancestors. destruct p as [|c p'].
    - vm_compute in Hroot. discriminate Hroot.
    - cbn [String.length ancestors_from].
      destruct (String.eqb (dirname (String c p')) (String c p')) eqn:Heq.
      + apply String.eqb_eq in Heq. rewrite !Heq in Hroot.
        by rewrite String.eqb_refl in Hroot.
      + apply list_elem_of_here. }
  assert (Hb : holds_below W (dirname p) = true).
  { unfold holds_below. apply existsb_exists. exists p. split.
    - apply list_elem_of_In. unfold recorded. apply elem_of_app. left.
      apply list_elem_of_fmap. exists (p, f). split; [done|].
      by apply elem_of_map_to_list.
    - by apply bool_decide_eq_true. }
  rewrite Hb. by rewrite orb_true_r.
Qed.

(** Making directories touches neither the files nor what was printed, and
    does nothing above a file that is there. *)
Lemma mkdirs_inv P l : forall W r W',
  for_each_io (fun _ d => mkdir P d) l tt W = (r, W') ->
  fs W' = fs W /\ stdout W' = stdout W.
Proof.
  induction l as [|d l IH]; intros W r W' H; simpl in H.
  - by injection H as _ <-.
  - apply bind_cases in H as [(e & H & _)|([] & W1 & H1 & H)].
    + unfold mkdir in H. destruct (mkdir_fault P d); by injection H as _ <-.
    + apply IH in H as [-> ->].
      unfold mkdir in H1. destruct (mkdir_fault P d); [done|]. by injection H1 as <-.
Qed.

Lemma makedirs_inv P name W r W' :
  makedirs P name W = (r, W') ->
  fs W' = fs W /\ stdout W' = stdout W /\ (forall e, r = Raise e -> fs W' = fs W).
Proof.
  unfold makedirs. intros H.
  destruct (known_dir W name); [by injection H as _ <-|].
  destruct (bool_decide _); [by injection H as _ <-|].
  destruct (existsb _ _); [by injection H as _ <-|].
  apply mkdirs_inv in H as [? ?]. done.
Qed.

Lemma makedirs_parent P W p f :
  fs W !! p = Some f -> makedirs P (dirname (abspath p)) W = (Ok tt, W).
Proof.
  intros Hp. unfold makedirs, abspath. by rewrite (known_dir_parent W p f Hp).
Qed.

(** What [copy2] does: it raises with nothing written, or the machine
    interrupts the writing of the target, or the target holds the source
    file. *)
Lemma copy2_cases P src dst W r W' :
  copy2 P src dst W = (r, W') ->
  (exists e, r = Raise e /\ W' = W) \/
  (exists e g, r = Raise e /\
     copy_fault P src (copy_target W src dst) = Some (e, Some g) /\
     W' = mkWorld (<[copy_target W src dst := g]> (fs W)) (dirs W) (stdout W)) \/
  (exists f, r = Ok tt /\ fs W !! src = Some f /\ readable f = true /\
     src <> copy_target W src dst /\
     is_dir W (copy_target W src dst) = false /\
     W' = mkWorld (<[copy_target W src dst := f]> (fs W)) (dirs W) (stdout W)).
Proof.
  unfold copy2. fold (copy_target W src dst). generalize (copy_target W src dst) as t.
  intros t H. unfold copyfile in H.
  apply bind_cases in H as [(e & H & _)|(same & W1 & Hsame & H)].
  { destruct (decide (src = t)); discriminate H. }
  assert (W1 = W) as ->.
  { destruct (decide (src = t)); by injection Hsame as _ <-. }
  destruct same.
  { injection H as <- <-. left. eauto. }
  apply bind_cases in H as [(e & H & ->)|(f & W1 & Hf & H)].
  { apply open_read_inv in H as [-> _]. left. eauto. }
  apply open_read_inv in Hf as [-> Hf]. destruct (Hf f eq_refl) as [Hsrc Hr].
  assert (Hne : src <> t).
  { intros Heq. rewrite decide_True in Hsame by done.
    unfold path_exists in Hsame. rewrite bool_decide_true in Hsame by eauto.
    discriminate Hsame. }
  unfold write_copy in H.
  destruct (open_write_error W t) as [e|] eqn:Hopen; [injection H as <- <-; left; eauto|].
  assert (Hdir : is_dir W t = false).
  { unfold open_write_error in Hopen. destruct (fs W !! t) as [g|] eqn:Ht.
    - by apply (is_dir_file W t g).
    - by destruct (is_dir W t). }
  destruct (copy_fault P src t) as [[e [g|]]|] eqn:Hfault.
  - injection H as <- <-. right. left. eauto.
  - injection H as <- <-. left. eauto.
  - injection H as <- <-. right. right. exists f. by split_and!.
Qed.

(** [shutil.move] of a readable file onto a path that holds a file. *)
Lemma move_file P src dst W f g :
  fs W !! src = Some f -> readable f = true -> fs W !! dst = Some g -> src <> dst ->
  move P src dst W =
  match rename_fault P src dst with
  | None => (Ok tt, mkWorld (<[dst := f]> (delete src (fs W))) (dirs W) (stdout W))
  | Some _ =>
      if negb (writable g) then (Raise (PermissionError dst), W)
      else match copy_fault P src dst with
           | Some (e, Some h) =>
               (Raise e, mkWorld (<[dst := h]> (fs W)) (dirs W) (stdout W))
           | Some (e, None) => (Raise e, W)
           | None =>
               match unlink_fault P src with
               | Some e => (Raise e, mkWorld (<[dst := f]> (fs W)) (dirs W) (stdout W))
               | None =>
                   (Ok tt, mkWorld (delete src (<[dst := f]> (fs W))) (dirs W) (stdout W))
               end
           end
  end.
Proof.
  intros Hsrc Hr Hdst Hne.
  unfold move. rewrite (is_dir_file W dst g Hdst).
  unfold try_else, rename. destruct (rename_fault P src dst) as [e0|].
  2:{ by rewrite Hsrc, (is_dir_file W dst g Hdst). }
  unfold mbind, IO_bind, copy2. rewrite (is_dir_file W dst g Hdst).
  unfold copyfile, mbind, IO_bind. rewrite decide_False by done.
  unfold mret, IO_ret, open_read. rewrite Hsrc, Hr.
  unfold write_copy, open_write_error. rewrite Hdst.
  destruct (writable g); [|done]. cbn [negb].
  destruct (copy_fault P src dst) as [[e [h|]]|]; try done.
  unfold store, unlink. destruct (unlink_fault P src); [done|].
  cbn [fs]. rewrite lookup_insert_ne by done. by rewrite Hsrc.
Qed.

(** The handler of [_replace_in_zip], run when the temporary file is there. *)
Lemma cleanup_run P W t :
  fs W !! mkstemp_name P = Some t ->
  (found ← path_exists (mkstemp_name P);
   if (found : bool) then unlink P (mkstemp_name P) else mret tt) W =
  match unlink_fault P (mkstemp_name P) with
  | Some e => (Raise e, W)
  | None => (Ok tt, mkWorld (delete (mkstemp_name P) (fs W)) (dirs W) (stdout W))
  end.
Proof.
  intros Ht. unfold mbind, IO_bind, path_exists.
  rewrite bool_decide_true by (rewrite Ht; eauto). cbn [orb].
  unfold unlink. by rewrite Ht.
Qed.

(** The loops of [_replace_in_zip] leave the files as they are. *)
Lemma fs_stable_loops P zip_path replacements badge_keys :
  fs_stable (zin ← open_zip zip_path;
             zout ← lift (for_each (copy_member zin replacements) zin []);
             for_each_io (add_badge P) badge_keys zout).
Proof.
  apply fs_stable_bind; [apply fs_stable_open_zip|]. intros zin.
  apply fs_stable_bind; [apply fs_stable_lift|]. intros zout.
  apply fs_stable_for_each_io. apply fs_stable_add_badge.
Qed.

(** A run of [_replace_in_zip], step by step: [mkstemp] refuses, or the
    loops run in the world with the temporary file; when they raise, the
    handler removes the temporary file unless the machine refuses; when
    they return, the archive [out] is moved onto [zip_path], by a rename
    or, when the machine refuses the rename, by a copy that may stop
    early. *)
Lemma replace_run P zip_path replacements badge_keys W r W' :
  _replace_in_zip P zip_path replacements badge_keys W = (r, W') ->
  (r = Raise FileExistsError /\ W' = W) \/
  (fs W !! mkstemp_name P = None /\ dirs W' = dirs W /\
   exists r1 W2,
     (zin ← open_zip zip_path;
      zout ← lift (for_each (copy_member zin replacements) zin []);
      for_each_io (add_badge P) badge_keys zout)
       (mkWorld (with_tmp P (fs W)) (dirs W) (stdout W)) = (r1, W2) /\
     stdout W' = stdout W2 /\
     match r1 with
     | Raise e0 =>
         (unlink_fault P (mkstemp_name P) = None /\ r = Raise e0 /\ fs W' = fs W) \/
         (exists e1, unlink_fault P (mkstemp_name P) = Some e1 /\ r = Raise e1 /\
            fs W' = with_tmp P (fs W))
     | Ok out =>
         let arch := mkFile (now P) 384 (Archive out) in
         exists g, fs W !! zip_path = Some g /\ zip_path <> mkstemp_name P /\
           ((r = Ok tt /\ fs W' = <[zip_path := arch]> (fs W) /\
             (rename_fault P (mkstemp_name P) zip_path = None \/
              unlink_fault P (mkstemp_name P) = None)) \/
            (is_Some (rename_fault P (mkstemp_name P) zip_path) /\
             exists files,
               (files = fs W \/
                (exists e h, copy_fault P (mkstemp_name P) zip_path = Some (e, Some h) /\
                   files = <[zip_path := h]> (fs W)) \/
                (is_Some (unlink_fault P (mkstemp_name P)) /\
                 files = <[zip_path := arch]> (fs W))) /\
               exists e, r = Raise e /\
                 ((unlink_fault P (mkstemp_name P) = None /\ fs W' = files) \/
                  (unlink_fault P (mkstemp_name P) = Some e /\
                   fs W' = <[mkstemp_name P := arch]> files))))
     end).
Proof.
  unfold _replace_in_zip. intros H.
  apply bind_cases in H as [(e' & H & ->)|(tmp & W1 & Hmk & H)].
  { unfold mkstemp in H. destruct (_ || _); [|discriminate H].
    injection H as <- <-. by left. }
  unfold mkstemp in Hmk.
  destruct (bool_decide (is_Some (fs W !! mkstemp_name P))) eqn:Hfree; [done|].
  cbn [orb] in Hmk. destruct (is_dir W (mkstemp_name P)); [done|].
  injection Hmk as <- <-.
  apply bool_decide_eq_false in Hfree.
  assert (Hnone : fs W !! mkstemp_name P = None) by (by apply eq_None_not_Some).
  right. split; [done|].
  fold (with_tmp P (fs W)) in H.
  set (W1 := mkWorld (with_tmp P (fs W)) (dirs W) (stdout W)) in *.
  match goal with |- context [?c W1 = _] => set (loops := c) end.
  destruct (loops W1) as [r1 W2] eqn:Hloops.
  destruct (fs_stable_loops P zip_path replacements badge_keys _ _ _ Hloops)
    as [Hfs2 Hdirs2].
  cbn [fs dirs W1] in Hfs2, Hdirs2.
  assert (Hzip : forall out, r1 = Ok out ->
            exists g, fs W !! zip_path = Some g /\ zip_path <> mkstemp_name P).
  { intros out ->. unfold loops in Hloops.
    apply bind_cases in Hloops as [(e & _ & Habs)|(zin & Wz & Hzin & _)]; [done|].
    apply open_zip_ok in Hzin as (_ & Hm & _). unfold members_at in Hm.
    cbn [fs W1] in Hm. unfold with_tmp in Hm.
    destruct (decide (zip_path = mkstemp_name P)) as [->|Hne].
    - by rewrite lookup_insert_eq in Hm.
    - rewrite lookup_insert_ne in Hm by done.
      destruct (fs W !! zip_path) as [g|]; [eauto|done]. }
  match type of H with try_except ?b ?h W1 = _ =>
    assert (Hbody : b W1 =
      match r1 with
      | Raise e => (Raise e, W2)
      | Ok out =>
          move P (mkstemp_name P) zip_path
            (mkWorld (<[mkstemp_name P := mkFile (now P) 384 (Archive out)]> (fs W2))
               (dirs W2) (stdout W2))
      end)
  end.
  { unfold loops in Hloops. unfold mbind, IO_bind in Hloops |- *.
    destruct (open_zip zip_path W1) as [[zin|] ?]; [|by injection Hloops as <- <-].
    unfold lift in *.
    destruct (for_each (copy_member zin replacements) zin []);
      [|by injection Hloops as <- <-].
    destruct (for_each_io _ _ _ _) as [[|] ?]; by injection Hloops as <- <-. }
  unfold try_except in H. rewrite Hbody in H. clear Hbody.
  match goal with |- _ /\ exists r1' W2', _ /\ _ /\ @?body r1' =>
    enough (Hgoal : dirs W' = dirs W2 /\ stdout W' = stdout W2 /\ body r1)
      by (destruct Hgoal as (? & ? & ?); split; [congruence|]; by exists r1, W2)
  end. cbv beta.
  assert (Hclean : forall e0 (Wx : World) t,
            fs Wx !! mkstemp_name P = Some t ->
            match (found ← path_exists (mkstemp_name P);
                   if (found : bool) then unlink P (mkstemp_name P) else mret tt) Wx with
            | (Ok _, W'') => (Raise e0, W'')
            | (Raise e', W'') => (Raise e', W'')
            end = (r, W') ->
            dirs W' = dirs Wx /\ stdout W' = stdout Wx /\
            ((unlink_fault P (mkstemp_name P) = None /\ r = Raise e0 /\
              fs W' = delete (mkstemp_name P) (fs Wx)) \/
             (exists e1, unlink_fault P (mkstemp_name P) = Some e1 /\ r = Raise e1 /\
                fs W' = fs Wx))).
  { intros e0 Wx t Ht Hc. rewrite (cleanup_run P Wx t Ht) in Hc.
    destruct (unlink_fault P (mkstemp_name P)) as [e1|]; injection Hc as <- <-.
    - split; [done|]. split; [done|]. right. eauto.
    - split; [done|]. split; [done|]. by left. }
  destruct r1 as [out|e0].
  2:{ apply (Hclean e0 W2 (mkFile (now P) 384 (Data []))) in H
        as (Hd & Hs & Hcases).
      2:{ rewrite Hfs2. apply lookup_insert_eq. }
      split; [done|]. split; [done|].
      destruct Hcases as [(Hu & -> & Hf)|(e1 & Hu & -> & Hf)]; [left|right].
      - split; [done|]. split; [done|]. rewrite Hf, Hfs2. unfold with_tmp.
        by rewrite delete_insert_eq, delete_id.
      - exists e1. by rewrite Hf, Hfs2. }
  destruct (Hzip out eq_refl) as (g & Hg & Hne). clear Hzip.
  set (arch := mkFile (now P) 384 (Archive out)) in *.
  set (W3 := mkWorld (<[mkstemp_name P := arch]> (fs W2)) (dirs W2) (stdout W2)) in *.
  assert (Hfs3 : fs W3 = <[mkstemp_name P := arch]> (fs W)).
  { cbn [fs W3]. rewrite Hfs2. unfold with_tmp. apply insert_insert_eq. }
  assert (Htmp3 : fs W3 !! mkstemp_name P = Some arch).
  { rewrite Hfs3. apply lookup_insert_eq. }
  assert (Hzip3 : fs W3 !! zip_path = Some g).
  { rewrite Hfs3. by rewrite lookup_insert_ne. }
  rewrite (move_file P _ _ W3 arch g Htmp3 eq_refl Hzip3) in H by done.
  assert (Hd3 : dirs W3 = dirs W2) by done.
  assert (Hs3 : stdout W3 = stdout W2) by done.
  clearbody W3.
  assert (Hdel : delete (mkstemp_name P) (fs W3) = fs W).
  { rewrite Hfs3, delete_insert_eq. by apply delete_id. }
  assert (Hraise : forall e0 (Wx : World) files,
            fs Wx = <[mkstemp_name P := arch]> files ->
            files !! mkstemp_name P = None ->
            dirs Wx = dirs W2 -> stdout Wx = stdout W2 ->
            match (found ← path_exists (mkstemp_name P);
                   if (found : bool) then unlink P (mkstemp_name P) else mret tt) Wx with
            | (Ok _, W'') => (Raise e0, W'')
            | (Raise e', W'') => (Raise e', W'')
            end = (r, W') ->
            dirs W' = dirs W2 /\ stdout W' = stdout W2 /\
            exists e, r = Raise e /\
              ((unlink_fault P (mkstemp_name P) = None /\ fs W' = files) \/
               (unlink_fault P (mkstemp_name P) = Some e /\
                fs W' = <[mkstemp_name P := arch]> files))).
  { intros e0 Wx files Hx Hfree' Hdx Hsx Hc.
    apply (Hclean e0 Wx arch) in Hc as (Hd & Hs & Hcases).
    2:{ rewrite Hx. apply lookup_insert_eq. }
    split; [congruence|]. split; [congruence|].
    destruct Hcases as [(Hu & -> & Hf)|(e1 & Hu & -> & Hf)].
    - exists e0. split; [done|]. left. split; [done|].
      rewrite Hf, Hx, delete_insert_eq. by apply delete_id.
    - exists e1. split; [done|]. right. split; [done|]. by rewrite Hf, Hx. }
  clear Hclean.
  enough (Hgoal : dirs W' = dirs W2 /\ stdout W' = stdout W2 /\
            ((r = Ok tt /\ fs W' = <[zip_path := arch]> (fs W) /\
              (rename_fault P (mkstemp_name P) zip_path = None \/
               unlink_fault P (mkstemp_name P) = None)) \/
             (is_Some (rename_fault P (mkstemp_name P) zip_path) /\
              exists files,
                (files = fs W \/
                 (exists e h, copy_fault P (mkstemp_name P) zip_path = Some (e, Some h) /\
                    files = <[zip_path := h]> (fs W)) \/
                 (is_Some (unlink_fault P (mkstemp_name P)) /\
                  files = <[zip_path := arch]> (fs W))) /\
                exists e, r = Raise e /\
                  ((unlink_fault P (mkstemp_name P) = None /\ fs W' = files) \/
                   (unlink_fault P (mkstemp_name P) = Some e /\
                    fs W' = <[mkstemp_name P := arch]> files))))).
  { destruct Hgoal as (? & ? & ?). split; [done|]. split; [done|]. exists g. eauto. }
  assert (Hplain : forall e0,
            (let (r0, W'') :=
               (found ← path_exists (mkstemp_name P);
                if (found : bool) then unlink P (mkstemp_name P) else mret tt) W3 in
             match r0 with
             | Ok _ => (Raise e0, W'')
             | Raise e' => (Raise e', W'')
             end) = (r, W') ->
            dirs W' = dirs W2 /\ stdout W' = stdout W2 /\
            exists e, r = Raise e /\
              ((unlink_fault P (mkstemp_name P) = None /\ fs W' = fs W) \/
               (unlink_fault P (mkstemp_name P) = Some e /\
                fs W' = <[mkstemp_name P := arch]> (fs W)))).
  { intros e0 Hc. by apply (Hraise e0 W3 (fs W)). }
  destruct (rename_fault P (mkstemp_name P) zip_path) as [er|] eqn:Hren.
  2:{ injection H as <- <-. split; [done|]. split; [done|]. left.
      split; [done|]. cbn [fs]. rewrite Hdel. eauto. }
  destruct (negb (writable g)).
  { cbv beta iota zeta in H. apply Hplain in H as (? & ? & ?).
    split; [done|]. split; [done|]. right. split; [eauto|]. exists (fs W). eauto. }
  destruct (copy_fault P (mkstemp_name P) zip_path) as [[ec [h|]]|] eqn:Hcopy.
  - cbv beta iota zeta in H.
    apply (Hraise ec _ (<[zip_path := h]> (fs W))) in H as (? & ? & ?); try done.
    + split; [done|]. split; [done|]. right. split; [eauto|].
      exists (<[zip_path := h]> (fs W)). split; [|done]. right. left. eauto.
    + cbn [fs]. rewrite Hfs3. by apply insert_insert_ne.
    + by rewrite lookup_insert_ne.
  - cbv beta iota zeta in H. apply Hplain in H as (? & ? & ?).
    split; [done|]. split; [done|]. right. split; [eauto|]. exists (fs W). eauto.
  - destruct (unlink_fault P (mkstemp_name P)) as [eu|] eqn:Hunl.
    + cbv beta iota zeta in H.
      apply (Hraise eu _ (<[zip_path := arch]> (fs W))) in H as (? & ? & ?); try done.
      * split; [done|]. split; [done|]. right. split; [eauto|].
        exists (<[zip_path := arch]> (fs W)). split; [|done]. right. right. eauto.
      * cbn [fs]. rewrite Hfs3. by apply insert_insert_ne.
      * by rewrite lookup_insert_ne.
    + injection H as <- <-. split; [done|]. split; [done|]. left.
      split; [done|]. cbn [fs]. rewrite delete_insert_ne by done. rewrite Hdel. eauto.
Qed.

Lemma copy_target_other W src dst :
  copy_target W src dst <> dst -> fs W !! dst = None.
Proof.
  unfold copy_target, is_dir. destruct (bool_decide (fs W !! dst = None)) eqn:Hd.
  - intros _. by apply bool_decide_eq_true in Hd.
  - done.
Qed.




(** ** Relationship identifiers *)

Lemma omap_concat {A B} (f : A -> option B) (ls : list (list A)) :
  omap f (concat ls) = concat (map (omap f) ls).
Proof.
  induction ls as [|l ls IH]; [done|]. simpl. by rewrite omap_app, IH.
Qed.

Lemma attr_values_El name tag attrib text children :
  attr_values name (El tag attrib text children) =
  option_list (assoc name attrib) ++ concat (map (attr_values name) children).
Proof.
  unfold attr_values. cbn [descendants omap list_omap el_attrib].
  rewrite omap_concat, map_map.
  destruct (assoc name attrib); reflexivity.
Qed.

Lemma build_badge_anchor_ids P rid key h v a :
  build_badge_anchor P rid key h v = Ok a ->
  attr_values (r_ns "embed") a = [rid] /\ attr_values (r_ns "id") a = [].
Proof.
  unfold build_badge_anchor. destruct (BADGE_REGISTRY !! key) as [cfg|]; [|done].
  cbn -[str drawing_id]. intros H. injection H as <-.
  generalize (str h) (str v) (str (cfg_cx cfg)) (str (cfg_cy cfg))
    (drawing_id P key) (cfg_descr cfg).
  intros s1 s2 s3 s4 s5 s6. split; vm_compute; reflexivity.
Qed.

Lemma rid_range_S n count : rid_range n (S count) = rId n :: rid_range (n + 1) count.
Proof.
  unfold rid_range. cbn [seq map]. rewrite Z.add_0_r. f_equal.
  rewrite <- seq_shift, map_map. apply map_ext. intros i. f_equal. lia.
Qed.

Lemma allocate_rid_other l : forall m n k,
  k ∉ filter in_registry l ->
  (foldl allocate_rid (m, n) l).1 !! k = m !! k.
Proof.
  induction l as [|x l IH]; intros m n k Hk; [done|].
  cbn [foldl]. unfold allocate_rid at 2.
  destruct (BADGE_REGISTRY !! x) as [cfg|] eqn:Hx.
  - rewrite filter_cons_True in Hk by (by rewrite Hx).
    apply not_elem_of_cons in Hk as [Hne Hk].
    rewrite IH by done. by rewrite lookup_insert_ne.
  - rewrite filter_cons_False in Hk by (rewrite Hx; by intros [? ?]).
    by apply IH.
Qed.

Lemma allocate_rid_lookup l : forall m n i k,
  NoDup (filter in_registry l) ->
  filter in_registry l !! i = Some k ->
  (foldl allocate_rid (m, n) l).1 !! k = Some (rId (n + Z.of_nat i)).
Proof.
  induction l as [|x l IH]; intros m n i k Hnd Hi; [done|].
  cbn [foldl]. unfold allocate_rid at 2.
  destruct (BADGE_REGISTRY !! x) as [cfg|] eqn:Hx.
  - rewrite filter_cons_True in Hnd, Hi by (by rewrite Hx).
    apply NoDup_cons in Hnd as [Hnin Hnd].
    destruct i as [|i]; simpl in Hi.
    + injection Hi as <-. rewrite allocate_rid_other by done.
      rewrite lookup_insert_eq. do 2 f_equal. lia.
    + rewrite (IH _ _ i k) by done. do 2 f_equal. lia.
  - rewrite filter_cons_False in Hnd, Hi by (rewrite Hx; by intros [? ?]).
    by apply IH.
Qed.

Lemma attr_values_E name tag attrib children :
  attr_values name (E tag attrib children) =
  option_list (assoc name attrib) ++ child_values name children.
Proof. apply attr_values_El. Qed.

Lemma child_values_singleton name e : child_values name [e] = attr_values name e.
Proof. unfold child_values. cbn [map concat]. apply app_nil_r. Qed.

Lemma child_values_app name k1 k2 :
  child_values name (k1 ++ k2) = child_values name k1 ++ child_values name k2.
Proof. unfold child_values. by rewrite map_app, concat_app. Qed.

Lemma drawing_run_values name a :
  name = r_ns "embed" \/ name = r_ns "id" ->
  child_values name
    [E (w "r") [] [E (w "rPr") [] [E (w "noProof") [] []; E (w "sz") (val "22") []]; a]]
  = attr_values name a.
Proof.
  intros Hn. unfold child_values, E. cbn [map concat].
  rewrite (attr_values_El _ (w "r")). cbn [map concat assoc option_list].
  rewrite !app_nil_r.
  replace (attr_values name (El (w "rPr") [] None
             [El (w "noProof") [] None []; El (w "sz") (val "22") None []]))
    with (@nil string); [done|].
  destruct Hn as [-> | ->]; vm_compute; reflexivity.
Qed.

Lemma badge_run_ids P positions rids runs key runs' :
  badge_run P positions rids runs key = Ok runs' ->
  child_values (r_ns "embed") runs' =
    child_values (r_ns "embed") runs ++
    option_list (if decide (in_registry key) then rids !! key else None) /\
  child_values (r_ns "id") runs' = child_values (r_ns "id") runs.
Proof.
  unfold badge_run.
  destruct (BADGE_REGISTRY !! key) as [cfg|] eqn:Hk.
  2:{ intros H. injection H as <-. rewrite decide_False by (by intros [? ?]).
      by rewrite app_nil_r. }
  rewrite decide_True by eauto.
  destruct (rids !! key) as [rid|].
  2:{ intros H. injection H as <-. by rewrite app_nil_r. }
  destruct (default _ _) as [h v].
  destruct (build_badge_anchor P rid key h v) as [a|] eqn:Ha; [|done].
  apply build_badge_anchor_ids in Ha as [He Hi].
  cbn [mbind result_bind mret result_ret]. intros H. injection H as <-.
  rewrite !child_values_app, !drawing_run_values by auto.
  rewrite He, Hi. by rewrite app_nil_r.
Qed.

Lemma for_each_badge_run_ids P positions rids l : forall runs runs',
  for_each (badge_run P positions rids) l runs = Ok runs' ->
  child_values (r_ns "embed") runs' =
    child_values (r_ns "embed") runs ++ omap (rids !!.) (filter in_registry l) /\
  child_values (r_ns "id") runs' = child_values (r_ns "id") runs.
Proof.
  induction l as [|key l IH]; intros runs runs' H; simpl in H.
  - injection H as <-. by rewrite app_nil_r.
  - destruct (badge_run P positions rids runs key) as [runs1|] eqn:H1; [|done].
    apply badge_run_ids in H1 as [He1 Hi1]. apply IH in H as [He Hi].
    rewrite He, Hi, He1, Hi1. split; [|done]. rewrite <- app_assoc. f_equal.
    case_decide as Hk.
    + rewrite filter_cons_True by done. cbn [omap list_omap]. cbv beta.
      by destruct (rids !! key).
    + rewrite filter_cons_False by done. done.
Qed.

Lemma no_ids_contact n p e : no_ids (build_contact_paragraph n p e).
Proof. no_ids_by_computation. Qed.
Lemma no_ids_heading t : no_ids (build_section_heading t).
Proof. no_ids_by_computation. Qed.
Lemma no_ids_summary t : no_ids (build_summary_paragraph t).
Proof. no_ids_by_computation. Qed.
Lemma no_ids_empty b : no_ids (build_empty_paragraph "22" b).
Proof. destruct b; no_ids_by_computation. Qed.
Lemma no_ids_title t d c : no_ids (build_job_title_paragraph t d c).
Proof. destruct c; no_ids_by_computation. Qed.
Lemma no_ids_company c : no_ids (build_company_paragraph c).
Proof. no_ids_by_computation. Qed.
Lemma no_ids_bullet t : no_ids (build_bullet_paragraph t).
Proof. no_ids_by_computation. Qed.

Lemma child_values_no_ids name l :
  name = r_ns "embed" \/ name = r_ns "id" ->
  Forall no_ids l -> child_values name l = [].
Proof.
  intros Hn. induction 1 as [|e l [He Hi] _ IH]; [done|].
  unfold child_values in *. cbn [map concat]. rewrite IH.
  destruct Hn as [-> | ->]; by rewrite ?He, ?Hi.
Qed.

Lemma no_ids_job shown j : Forall no_ids (job_paragraphs shown j).
Proof.
  unfold job_paragraphs. apply Forall_cons. split; [apply no_ids_title|].
  apply Forall_app. split.
  - destruct (shown j); simpl; [|done]. repeat constructor; apply no_ids_company.
  - apply Forall_fmap, Forall_forall. intros t _. apply no_ids_bullet.
Qed.

Lemma no_ids_jobs shown js : Forall no_ids (concat (map (job_paragraphs shown) js)).
Proof.
  induction js as [|j js IH]; [done|]. cbn [map concat].
  apply Forall_app. split; [apply no_ids_job|done].
Qed.

Lemma education_ids P dg un l rids edu :
  build_education_paragraph P dg un l rids = Ok edu ->
  attr_values (r_ns "embed") edu = omap (rids !!.) (filter in_registry l) /\
  attr_values (r_ns "id") edu = [].
Proof.
  unfold build_education_paragraph.
  destruct (for_each _ l _) as [kids|] eqn:Hk; [|done].
  apply for_each_badge_run_ids in Hk as [He Hi].
  cbn [mbind result_bind mret result_ret]. intros H. injection H as <-.
  rewrite !(attr_values_E _ (w "p")). cbn [assoc option_list app].
  rewrite !child_values_app, He, Hi.
  split.
  - rewrite (child_values_no_ids _ [_]), (child_values_no_ids _ [_; _; _]); auto.
    + by rewrite app_nil_r.
    + repeat constructor; vm_compute; reflexivity.
    + repeat constructor; vm_compute; reflexivity.
  - rewrite (child_values_no_ids _ [_]), (child_values_no_ids _ [_; _; _]); auto.
    + repeat constructor; vm_compute; reflexivity.
    + repeat constructor; vm_compute; reflexivity.
Qed.

Lemma omap_rid_range (g : string -> option string) fl : forall n,
  (forall i k, fl !! i = Some k -> g k = Some (rId (n + Z.of_nat i))) ->
  omap g fl = rid_range n (length fl).
Proof.
  induction fl as [|k fl IH]; intros n H; [done|].
  cbn [omap list_omap length]. rewrite rid_range_S.
  rewrite (H 0%nat k eq_refl), Z.add_0_r. f_equal.
  apply IH. intros i k' Hi. rewrite (H (S i) k' Hi). do 2 f_equal. lia.
Qed.

Lemma body_layout_ids shown edu d :
  child_values (r_ns "embed") (body_layout shown edu d) = attr_values (r_ns "embed") edu /\
  child_values (r_ns "id") (body_layout shown edu d) =
    attr_values (r_ns "id") edu ++ ["rId15"; "rId16"; "rId17"; "rId18"; "rId19"; "rId20"].
Proof.
  set (pre := [build_contact_paragraph (req (name d)) (req (phone d)) (req (email d));
               build_section_heading "Professional Experience Summary";
               build_summary_paragraph (req (summary d));
               build_section_heading "Education & Certifications"]).
  set (mid := [build_empty_paragraph "22" true; build_empty_paragraph "22" false;
               build_empty_paragraph "22" true; build_empty_paragraph "22" true;
               build_section_heading "Professional Experience"]).
  set (post := [build_empty_paragraph "22" false; build_empty_paragraph "22" false]).
  assert (Hshape : body_layout shown edu d =
    pre ++ [edu] ++ mid ++ concat (map (job_paragraphs shown) (default [] (jobs d)))
      ++ post ++ [build_sect_pr]) by reflexivity.
  rewrite Hshape. clear Hshape.
  assert (Hpre : Forall no_ids pre).
  { repeat constructor; auto using no_ids_contact, no_ids_heading, no_ids_summary. }
  assert (Hmid : Forall no_ids mid).
  { repeat constructor; auto using no_ids_empty, no_ids_heading. }
  assert (Hpost : Forall no_ids post).
  { repeat constructor; auto using no_ids_empty. }
  pose proof (no_ids_jobs shown (default [] (jobs d))) as Hjobs.
  rewrite !child_values_app.
  rewrite !(child_values_no_ids _ pre), !(child_values_no_ids _ mid),
    !(child_values_no_ids _ post), !(child_values_no_ids _ (concat _)) by auto.
  unfold child_values. cbn [map concat app]. rewrite !app_nil_r.
  split; [f_equal|f_equal]; vm_compute; reflexivity.
Qed.

Lemma document_ids shown edu d :
  embed_ids (document_of (body_layout shown edu d)) = attr_values (r_ns "embed") edu /\
  reference_ids (document_of (body_layout shown edu d)) =
    attr_values (r_ns "id") edu ++ ["rId15"; "rId16"; "rId17"; "rId18"; "rId19"; "rId20"].
Proof.
  destruct (body_layout_ids shown edu d) as [He Hi].
  unfold embed_ids, reference_ids, document_of. cbn [xml_root].
  rewrite !(attr_values_E _ (w "document")), !child_values_singleton.
  rewrite !(attr_values_E _ (w "body")), He, Hi.
  repeat match goal with
  | |- context [assoc ?n (cons ?kv nil)] =>
      replace (assoc n (cons kv nil)) with (@None string) by (vm_compute; reflexivity)
  | |- context [assoc ?n nil] => change (assoc n nil) with (@None string)
  end.
  done.
Qed.

Lemma foldl_declare_badge l : forall root n,
  (foldl declare_badge (root, n) l).1 = root ++ badge_rels n l.
Proof.
  induction l as [|k l IH]; intros root n; cbn [foldl badge_rels].
  - by rewrite app_nil_r.
  - unfold declare_badge at 2. destruct (BADGE_REGISTRY !! k).
    + by rewrite IH, <- app_assoc.
    + apply IH.
Qed.

Lemma badge_rels_ids l : forall n,
  omap rel_id (badge_rels n l) = rid_range n (length (filter in_registry l)) /\
  List.filter is_image_rel (badge_rels n l) = badge_rels n l.
Proof.
  induction l as [|k l IH]; intros n; cbn [badge_rels]; [done|].
  destruct (BADGE_REGISTRY !! k) as [cfg|] eqn:Hk.
  - rewrite filter_cons_True by (by rewrite Hk).
    cbn [length]. rewrite rid_range_S.
    destruct (IH (n + 1)) as [IH1 IH2].
    split.
    + cbn [omap list_omap]. by rewrite <- IH1.
    + cbn [List.filter].
      replace (is_image_rel _) with true by (vm_compute; reflexivity).
      by rewrite IH2.
  - rewrite filter_cons_False by (rewrite Hk; by intros [? ?]). apply IH.
Qed.

Lemma manifest_ids keys :
  let n := length (filter in_registry keys) in
  declared_ids (build_document_rels keys) =
    ["rId1"; "rId2"; "rId3"; "rId4"; "rId5"; "rId6"; "rId7"; "rId8"; "rId9"; "rId10"]
    ++ rid_range 11 n
    ++ ["rId15"; "rId16"; "rId17"; "rId18"; "rId19"; "rId20"; "rId21"; "rId22"] /\
  image_ids (build_document_rels keys) = rid_range 11 n.
Proof.
  intros n. destruct (badge_rels_ids keys 11) as [Hids Himg]. fold n in Hids.
  unfold image_ids, image_rels, declared_ids, build_document_rels.
  cbn [xml_root el_children E]. rewrite foldl_declare_badge.
  fold rel_id. rewrite !List.filter_app, !omap_app.
  change BADGE_RID_START with 11. rewrite Himg, Hids.
  repeat match goal with
  | |- context [omap rel_id (List.filter is_image_rel ?l)] =>
      lazymatch l with
      | badge_rels _ _ => fail
      | _ => replace (omap rel_id (List.filter is_image_rel l)) with (@nil string)
               by (vm_compute; reflexivity)
      end
  end.
  split.
  - rewrite <- !app_assoc.
    apply (f_equal2 app); [vm_compute; reflexivity|].
    apply (f_equal2 app); [reflexivity|vm_compute; reflexivity].
  - by rewrite !app_nil_r.
Qed.

Lemma registry_badges_known d : Forall known (registry_badges d).
Proof. apply Forall_forall. intros k Hk. by apply list_elem_of_filter in Hk as [Hk _]. Qed.

Lemma distinct_known_length l : NoDup l -> Forall known l -> (length l <= 4)%nat.
Proof.
  intros Hnd Hall. change 4%nat with (length KNOWN_KEYS).
  apply submseteq_length, NoDup_submseteq; [done|].
  intros k Hk. apply known_cases. by eapply Forall_forall in Hall.
Qed.

Lemma rels_consistent_range n :
  (n <= 4)%nat ->
  forallb (fun id => Nat.eqb (count_string id
      (["rId1"; "rId2"; "rId3"; "rId4"; "rId5"; "rId6"; "rId7"; "rId8"; "rId9"; "rId10"]
       ++ rid_range 11 n
       ++ ["rId15"; "rId16"; "rId17"; "rId18"; "rId19"; "rId20"; "rId21"; "rId22"])) 1)
    (rid_range 11 n ++ ["rId15"; "rId16"; "rId17"; "rId18"; "rId19"; "rId20"])
  && forallb (fun id => Nat.eqb (count_string id (rid_range 11 n)) 1) (rid_range 11 n)
  = true.
Proof.
  intros Hn.
  destruct n as [|[|[|[|[|n]]]]]; [vm_compute; reflexivity..|lia].
Qed.

(** Without a repeated registry key the identifiers match in both
    directions, unrecognised keys included. *)
Lemma distinct_badges_consistent P d :
  valid d -> NoDup (registry_badges d) ->
  exists doc, build_document_xml P d = Ok doc /\
    rels_consistent doc (build_document_rels (registry_badges d)) = true.
Proof.
  intros Hv Hnd.
  destruct (build_document_xml_layout P d Hv) as (edu & He & Hd).
  eexists. split; [exact Hd|].
  destruct (document_ids shown_company edu d) as [Hemb Href].
  destruct (manifest_ids (registry_badges d)) as [Hdecl Himg].
  assert (Hlen : length (filter in_registry (registry_badges d)) = length (registry_badges d)).
  { f_equal. unfold registry_badges. apply list_filter_filter_l. auto. }
  rewrite Hlen in Hdecl, Himg.
  unfold education_of in He.
  destruct (education d) as [e|]; [|done]. cbn in He.
  destruct (degree e) as [dg|]; [|done]. cbn in He.
  destruct (university e) as [un|]; [|done]. cbn in He.
  apply education_ids in He as [Hedu_e Hedu_i].
  rewrite (omap_rid_range _ _ BADGE_RID_START) in Hedu_e.
  2:{ intros i k Hi. by apply allocate_rid_lookup. }
  unfold rels_consistent. rewrite Hemb, Href, Hdecl, Himg, Hedu_e, Hedu_i.
  apply rels_consistent_range.
  apply distinct_known_length; [done|apply registry_badges_known].
Qed.

(** ** The archive a successful run leaves *)

Lemma bind_ok {A B} (c : IO A) (k : A -> IO B) W b W' :
  (x ← c; k x) W = (Ok b, W') ->
  exists a W1, c W = (Ok a, W1) /\ k a W1 = (Ok b, W').
Proof.
  intros H. apply bind_cases in H as [(e & _ & Habs)|H]; [done|exact H].
Qed.

Lemma member_names_app (l1 l2 : list Member) :
  member_names (l1 ++ l2) = member_names l1 ++ member_names l2.
Proof. apply map_app. Qed.

Lemma copy_member_names zin replacements zout item out :
  copy_member zin replacements zout item = Ok out ->
  member_names out =
  member_names zout ++ List.filter (kept replacements) [filename (info item)].
Proof.
  unfold copy_member, kept. intros H. cbn [List.filter].
  destruct (replacements !! filename (info item)) as [data|] eqn:Hr.
  - injection H as <-. rewrite bool_decide_true by eauto.
    by rewrite member_names_app.
  - destruct (decide (filename (info item) ∈ template_badge_files)) as [Hin|Hin].
    + injection H as <-. rewrite bool_decide_false, app_nil_r; [done|].
      intros [[? ?]|?]; done.
    + rewrite bool_decide_true by eauto.
      destruct (zip_read zin (filename (info item))) as [data|e]; [|done].
      injection H as <-. by rewrite member_names_app.
Qed.

Lemma copy_members_names zin replacements l : forall zout out,
  for_each (copy_member zin replacements) l zout = Ok out ->
  member_names out =
  member_names zout ++ List.filter (kept replacements) (member_names l).
Proof.
  induction l as [|item l IH]; intros zout out H; simpl in H.
  - injection H as <-. by rewrite app_nil_r.
  - destruct (copy_member zin replacements zout item) as [zout'|e] eqn:H1; [|done].
    simpl in H. apply IH in H. apply copy_member_names in H1.
    rewrite H, H1, <- app_assoc. f_equal.
    cbn [member_names map List.filter]. by destruct (kept replacements _).
Qed.

Lemma appended_names_ext P W1 W2 keys :
  fs W1 = fs W2 -> dirs W1 = dirs W2 ->
  appended_names P W1 keys = appended_names P W2 keys.
Proof.
  intros Hf Hd. unfold appended_names, omap.
  induction keys as [|key keys IH]; [done|]. cbn [list_omap]. rewrite IH.
  destruct (BADGE_REGISTRY !! key) as [cfg|]; [|done].
  by rewrite (is_dir_ext W1 W2 _ Hf Hd), Hf.
Qed.

Lemma add_badge_names P zout key W out W' :
  add_badge P zout key W = (Ok out, W') ->
  member_names out = member_names zout ++ appended_names P W [key].
Proof.
  unfold add_badge, appended_names. cbn [omap list_omap].
  destruct (BADGE_REGISTRY !! key) as [cfg|].
  2:{ intros H. injection H as <- _. by rewrite app_nil_r. }
  intros H. apply bind_ok in H as (found & W1 & Hex & H).
  injection Hex as <- <-.
  destruct (is_dir W _) eqn:Hdir.
  - rewrite orb_true_r in H.
    apply bind_ok in H as (m & W2 & Hw & H). injection H as <- _.
    unfold zip_write in Hw. rewrite Hdir in Hw.
    injection Hw as <- _. by rewrite member_names_app.
  - rewrite orb_false_r in H. destruct (bool_decide _).
    + apply bind_ok in H as (m & W2 & Hw & H). injection H as <- _.
      unfold zip_write in Hw. rewrite Hdir in Hw.
      apply bind_ok in Hw as (f & W3 & _ & Hw). injection Hw as <- _.
      by rewrite member_names_app.
    + apply bind_ok in H as (u & W2 & _ & H). injection H as <- _.
      by rewrite app_nil_r.
Qed.

Lemma appended_names_cons P W key keys :
  appended_names P W (key :: keys) =
  appended_names P W [key] ++ appended_names P W keys.
Proof.
  unfold appended_names. cbn [omap list_omap].
  by destruct (match BADGE_REGISTRY !! key with Some _ => _ | None => _ end).
Qed.

Lemma add_badges_names P keys : forall zout W out W',
  for_each_io (add_badge P) keys zout W = (Ok out, W') ->
  member_names out = member_names zout ++ appended_names P W keys.
Proof.
  induction keys as [|key keys IH]; intros zout W out W' H; simpl in H.
  - injection H as <- _. by rewrite app_nil_r.
  - apply bind_ok in H as (zout' & W1 & H1 & H).
    destruct (fs_stable_add_badge P zout key _ _ _ H1) as [Hfs Hdirs].
    apply add_badge_names in H1. apply IH in H.
    rewrite H, H1, (appended_names_ext P W1 W keys Hfs Hdirs), <- app_assoc.
    f_equal. symmetry. apply appended_names_cons.
Qed.

(** A run of [_replace_in_zip] that returns: what it read and what it stored. *)
Lemma replace_success P zip_path replacements badge_keys W W' :
  _replace_in_zip P zip_path replacements badge_keys W = (Ok tt, W') ->
  exists zin copied out W2,
    members_at W zip_path = Some zin /\
    for_each (copy_member zin replacements) zin [] = Ok copied /\
    for_each_io (add_badge P) badge_keys copied
      (mkWorld (with_tmp P (fs W)) (dirs W) (stdout W)) = (Ok out, W2) /\
    fs W' = <[zip_path := mkFile (now P) 384 (Archive out)]> (fs W) /\
    dirs W' = dirs W /\ stdout W' = stdout W2.
Proof.
  intros H.
  apply replace_run in H as [[Habs _]|(Hfree & Hdirs & r1 & W2 & Hloops & Hso & Hcase)];
    [done|].
  destruct r1 as [out|e0].
  2:{ destruct Hcase as [(_ & Habs & _)|(e1 & _ & Habs & _)]; done. }
  destruct Hcase as (g & Hg & Hne & [(_ & Hfs & _)|(_ & files & _ & e & Habs & _)]);
    [|done].
  apply bind_ok in Hloops as (zin & W3 & Hzin & Hloops).
  apply open_zip_ok in Hzin as (-> & Hm & _).
  apply bind_ok in Hloops as (copied & W4 & Hcopy & Hadd).
  injection Hcopy as Hcopy <-.
  exists zin, copied, out, W2. split_and!; try done.
  unfold members_at in Hm |- *. cbn [fs] in Hm. unfold with_tmp in Hm.
  by rewrite lookup_insert_ne in Hm.
Qed.

(** Names of the members of the archive a successful run leaves, in order:
    the template names the copy loop keeps, then the appended badge images. *)
Lemma replace_names P zip_path replacements badge_keys W W' :
  _replace_in_zip P zip_path replacements badge_keys W = (Ok tt, W') ->
  exists zin out,
    members_at W zip_path = Some zin /\ members_at W' zip_path = Some out /\
    member_names out =
      List.filter (kept replacements) (member_names zin) ++
      appended_names P (mkWorld (with_tmp P (fs W)) (dirs W) (stdout W)) badge_keys.
Proof.
  intros H. apply replace_success in H
    as (zin & copied & out & W2 & Hzin & Hcopy & Hadd & Hfs' & _).
  exists zin, out. split; [done|]. split.
  - unfold members_at. by rewrite Hfs', lookup_insert_eq.
  - apply copy_members_names in Hcopy. apply add_badges_names in Hadd.
    by rewrite Hadd, Hcopy.
Qed.

Lemma kept_replaced_parts doc_xml rels_xml name :
  kept (replaced_parts doc_xml rels_xml) name = bool_decide (name ∉ template_badge_files).
Proof.
  unfold kept. apply bool_decide_ext. split; [|by right].
  intros [[c Hc]|H]; [|done].
  unfold replaced_parts in Hc.
  apply lookup_insert_Some in Hc as [[<- _]|[_ Hc]]; [by vm_compute|].
  apply lookup_insert_Some in Hc as [[<- _]|[_ Hc]]; [by vm_compute|].
  by rewrite lookup_empty in Hc.
Qed.




Lemma copy_members_passthrough zin replacements l : forall zout out,
  for_each (copy_member zin replacements) l zout = Ok out ->
  (forall m, m ∈ zout -> m ∈ out) /\
  (forall m, m ∈ l ->
     replacements !! filename (info m) = None ->
     filename (info m) ∉ template_badge_files ->
     exists data, zip_read zin (filename (info m)) = Ok data /\
       writestr (info m) data ∈ out).
Proof.
  induction l as [|item l IH]; intros zout out H; simpl in H.
  - injection H as <-. split; [done|]. intros m Hm. by apply not_elem_of_nil in Hm.
  - destruct (copy_member zin replacements zout item) as [zout'|e] eqn:H1; [|done].
    simpl in H. apply IH in H as [Hkeep Hl].
    assert (Hgrow : forall m, m ∈ zout -> m ∈ zout').
    { intros m Hm. unfold copy_member in H1.
      destruct (replacements !! _);
        [injection H1 as <-; apply elem_of_app; by left|].
      destruct (decide _); [by injection H1 as <-|].
      destruct (zip_read _ _); [|done]. injection H1 as <-.
      apply elem_of_app; by left. }
    split; [auto|].
    intros m Hm Hr Hb. apply elem_of_cons in Hm as [->|Hm]; [|auto].
    unfold copy_member in H1. rewrite Hr in H1.
    rewrite decide_False in H1 by done.
    destruct (zip_read zin (filename (info item))) as [data|]; [|done].
    injection H1 as <-. exists data. split; [done|]. apply Hkeep.
    apply elem_of_app; right. apply list_elem_of_singleton. done.
Qed.

Lemma add_badges_passthrough P keys : forall zout W out W',
  for_each_io (add_badge P) keys zout W = (Ok out, W') ->
  forall m, m ∈ zout -> m ∈ out.
Proof.
  induction keys as [|key keys IH]; intros zout W out W' H m Hm; simpl in H.
  - by injection H as <- _.
  - apply bind_ok in H as (zout' & W1 & H1 & H).
    eapply IH; [exact H|].
    unfold add_badge in H1. destruct (BADGE_REGISTRY !! key); [|by injection H1 as <- _].
    apply bind_ok in H1 as (found & W2 & _ & H1). destruct found.
    + apply bind_ok in H1 as (m' & W3 & _ & H1). injection H1 as <- _.
      apply elem_of_app; by left.
    + apply bind_ok in H1 as (u & W3 & _ & H1). by injection H1 as <- _.
Qed.


(** ** Runs on sample inputs *)

(** C3 fails on the code: the docPr and cNvPr ids come from the built-in
    hash of the badge key, which depends on the secret of the process; two
    runs on the same input and template write different archives. *)
Theorem output_depends_on_hash_seed :
  let d := sample_input (Some ["csm"]) None in
  let run1 := sample_run sample_process d sample_template in
  let run2 := sample_run other_seed d sample_template in
  run1.1 = Ok tt /\ run2.1 = Ok tt /\
  drawing_ids_at run1.2 "/work/out.docx" = ["930818957"] /\
  drawing_ids_at run2.2 "/work/out.docx" = ["954238703"] /\
  fs run1.2 !! "/work/out.docx" <> fs run2.2 !! "/work/out.docx".
Proof.
  intros d run1 run2.
  assert (H1 : drawing_ids_at run1.2 "/work/out.docx" = ["930818957"]) by (vm_compute; reflexivity).
  assert (H2 : drawing_ids_at run2.2 "/work/out.docx" = ["954238703"]) by (vm_compute; reflexivity).
  repeat split; try (vm_compute; reflexivity); try assumption.
  intros H. unfold drawing_ids_at, members_at in H1, H2.
  rewrite H in H1. rewrite H1 in H2. discriminate H2.
Qed.

(** C4 fails on the code for a template in which a member name occurs
    twice.  The program writes such archives itself: run on the earlier
    resume it appends a second word/media/csm.png; run again on that output,
    it writes the first of the two with the bytes of the second. *)
Theorem duplicate_names_not_verbatim :
  let d := sample_input (Some ["csm"]) None in
  let run1 := sample_run sample_process d earlier_resume in
  let run2 := generate_resume sample_process "/work/in.json" "/work/next.docx"
                (Some "/work/out.docx") run1.2 in
  run1.1 = Ok tt /\ run2.1 = Ok tt /\
  member_names <$> members_at run1.2 "/work/out.docx" =
    Some ["word/document.xml"; "word/_rels/document.xml.rels"; "word/media/csm.png";
          "word/styles.xml"; "word/media/csm.png"] /\
  members_at run1.2 "/work/out.docx" ≫= (.!! 2%nat) =
    Some (member "word/media/csm.png" [Byte.x41]) /\
  members_at run2.2 "/work/next.docx" ≫= (.!! 2%nat) =
    Some (member "word/media/csm.png" [Byte.x89; Byte.x50; Byte.x4e; Byte.x47]).
Proof.
  repeat split; vm_compute; reflexivity.
Qed.

(** C2 fails on the code for a repeated badge key: both anchors embed
    rId12, while the manifest declares rId11 and rId12. *)
Theorem duplicate_badge_orphans_rid :
  let d := sample_input (Some ["csm"; "csm"]) None in
  let rels := build_document_rels (registry_badges d) in
  exists doc, build_document_xml sample_process d = Ok doc /\
    embed_ids doc = ["rId12"; "rId12"] /\
    image_ids rels = ["rId11"; "rId12"] /\
    rels_consistent doc rels = false.
Proof.
  intros d rels.
  destruct (build_document_xml sample_process d) as [doc|e] eqn:Hd;
    [|vm_compute in Hd; discriminate Hd].
  exists doc. split; [reflexivity|].
  assert (Hdoc : Ok doc = build_document_xml sample_process d) by done.
  clear Hd. vm_compute in Hdoc. injection Hdoc as ->.
  repeat split; vm_compute; reflexivity.
Qed.

(** C7 fails on the code: an unrecognised key is counted in the number of
    gaps, so the recognised badge is placed elsewhere than without it. *)
Theorem unknown_key_shifts_badge :
  let d := sample_input (Some ["csm"; "bogus"]) None in
  let d' := with_badges d (Some (registry_badges d)) in
  exists doc doc',
    build_document_xml sample_process d = Ok doc /\
    build_document_xml sample_process d' = Ok doc' /\
    badges d' = Some ["csm"] /\
    texts_of (wp "posOffset") (xml_root doc) = ["4364838"; "57150"] /\
    texts_of (wp "posOffset") (xml_root doc') = ["4414838"; "57150"] /\
    doc <> doc' /\
    build_document_rels (registry_badges d) = build_document_rels (registry_badges d').
Proof.
  intros d d'.
  destruct (build_document_xml sample_process d) as [doc|e] eqn:Hd;
    [|vm_compute in Hd; discriminate Hd].
  destruct (build_document_xml sample_process d') as [doc'|e] eqn:Hd';
    [|vm_compute in Hd'; discriminate Hd'].
  exists doc, doc'. split; [reflexivity|]. split; [reflexivity|].
  assert (Ha : texts_of (wp "posOffset") (xml_root doc) = ["4364838"; "57150"]).
  { assert (Hdoc : Ok doc = build_document_xml sample_process d) by done.
    clear Hd Hd'. vm_compute in Hdoc. injection Hdoc as ->. vm_compute. reflexivity. }
  assert (Hb : texts_of (wp "posOffset") (xml_root doc') = ["4414838"; "57150"]).
  { assert (Hdoc : Ok doc' = build_document_xml sample_process d') by done.
    clear Hd Hd' Ha. vm_compute in Hdoc. injection Hdoc as ->. vm_compute. reflexivity. }
  split; [vm_compute; reflexivity|].
  split; [exact Ha|]. split; [exact Hb|]. split.
  - intros Heq. rewrite Heq in Ha. rewrite Ha in Hb. discriminate Hb.
  - vm_compute. reflexivity.
Qed.

(** ** Required fields *)

Lemma getitem_inv {A} key (field : option A) (r : result A) :
  getitem key field = r ->
  (exists a, field = Some a /\ r = Ok a) \/ (field = None /\ r = Raise (KeyError key)).
Proof. destruct field; intros <-; eauto. Qed.

Lemma append_job_outcome body j :
  (valid_job j /\ exists out, append_job body j = Ok out) \/
  (~ valid_job j /\ exists e, append_job body j = Raise e /\ is_key_error e).
Proof.
  unfold append_job, valid_job, is_key_error, REQUIRED_KEYS.
  destruct (title j) as [t|]; cbn.
  2:{ right. split; [by intros ([? ?] & _)|]. eexists; split; [done|].
      eexists; split; [done|]. set_solver. }
  destruct (dates j) as [dt|]; cbn.
  2:{ right. split; [by intros (_ & [? ?] & _)|]. eexists; split; [done|].
      eexists; split; [done|]. set_solver. }
  assert (Hc : exists body', (if has_company j
             then company ← getitem "company" (company j);
                  mret ((body ++ [build_job_title_paragraph t dt (has_company j)]) ++
                        [build_company_paragraph company])
             else mret (body ++ [build_job_title_paragraph t dt (has_company j)]))
             = Ok body').
  { unfold has_company. destruct (company j) as [c|]; [|by eexists].
    destruct (truthy c); by eexists. }
  destruct Hc as [body' ->]. cbn.
  destruct (bullets j) as [bs|]; cbn.
  - left. split; [repeat split; by eexists|by eexists].
  - right. split; [by intros (_ & _ & [? ?])|]. eexists; split; [done|].
    eexists; split; [done|]. set_solver.
Qed.

Lemma for_each_append_job_outcome js : forall body,
  (Forall valid_job js /\ exists out, for_each append_job js body = Ok out) \/
  (~ Forall valid_job js /\
   exists e, for_each append_job js body = Raise e /\ is_key_error e).
Proof.
  induction js as [|j js IH]; intros body; cbn.
  - left. split; [constructor|by eexists].
  - destruct (append_job_outcome body j) as [[Hj [out ->]]|[Hj (e & -> & He)]]; cbn.
    + destruct (IH out) as [[Hjs Hout]|[Hjs Herr]].
      * left. split; [by constructor|done].
      * right. split; [|done]. intros H. apply Forall_cons in H as [_ H]. done.
    + right. split; [|eauto]. intros H. apply Forall_cons in H as [H _]. done.
Qed.

Lemma build_document_xml_outcome P d :
  (valid d /\ exists doc, build_document_xml P d = Ok doc) \/
  (~ valid d /\ exists e, build_document_xml P d = Raise e /\ is_key_error e).
Proof.
  assert (Hin : forall k, k ∈ REQUIRED_KEYS -> is_key_error (KeyError k)).
  { intros k Hk. by exists k. }
  unfold build_document_xml, valid.
  destruct (name d) as [n|]; cbn.
  2:{ right. split; [by intros ([? ?] & _)|]. eexists; split; [done|].
      apply Hin. unfold REQUIRED_KEYS. set_solver. }
  destruct (phone d) as [ph|]; cbn.
  2:{ right. split; [by intros (_ & [? ?] & _)|]. eexists; split; [done|].
      apply Hin. unfold REQUIRED_KEYS. set_solver. }
  destruct (email d) as [em|]; cbn.
  2:{ right. split; [by intros (_ & _ & [? ?] & _)|]. eexists; split; [done|].
      apply Hin. unfold REQUIRED_KEYS. set_solver. }
  destruct (summary d) as [su|]; cbn.
  2:{ right. split; [by intros (_ & _ & _ & [? ?] & _)|]. eexists; split; [done|].
      apply Hin. unfold REQUIRED_KEYS. set_solver. }
  destruct (education d) as [ed|]; cbn.
  2:{ right. split; [by intros (_ & _ & _ & _ & (? & ? & _) & _)|].
      eexists; split; [done|]. apply Hin. unfold REQUIRED_KEYS. set_solver. }
  destruct (degree ed) as [dg|] eqn:Hdg; cbn.
  2:{ right. split.
      { intros (_ & _ & _ & _ & (? & [= <-] & [? ?] & _) & _). congruence. }
      eexists; split; [done|]. apply Hin. unfold REQUIRED_KEYS. set_solver. }
  destruct (university ed) as [un|] eqn:Hun; cbn.
  2:{ right. split.
      { intros (_ & _ & _ & _ & (? & [= <-] & _ & [? ?]) & _). congruence. }
      eexists; split; [done|]. apply Hin. unfold REQUIRED_KEYS. set_solver. }
  destruct (build_education_paragraph_ok P dg un (default [] (badges d))
    (foldl allocate_rid (∅, BADGE_RID_START) (default [] (badges d))).1) as [edu ->].
  cbn.
  destruct (jobs d) as [js|]; cbn.
  2:{ right. split; [by intros (_ & _ & _ & _ & _ & (? & ? & _))|].
      eexists; split; [done|]. apply Hin. unfold REQUIRED_KEYS. set_solver. }
  match goal with |- context [for_each append_job js ?b] =>
    destruct (for_each_append_job_outcome js b) as [[Hjs [out ->]]|[Hjs (e & -> & He)]]
  end; cbn.
  - left. split; [|by eexists].
    refine (conj _ (conj _ (conj _ (conj _ (conj _ _))))); by eexists.
  - right. split; [|eauto].
    intros (_ & _ & _ & _ & _ & (? & [= <-] & ?)). done.
Qed.

Lemma foldl_bullets body texts (bs : list string) :
  foldl (fun '(body, texts) bullet =>
           (body ++ [build_bullet_paragraph (text_of bullet)], texts ++ [bullet]))
        (body, texts) (map VStr bs) =
  (foldl (fun body bullet => body ++ [build_bullet_paragraph bullet]) body bs,
   texts ++ map VStr bs).
Proof.
  revert body texts. induction bs as [|b bs IH]; intros body texts; cbn [map foldl].
  - by rewrite app_nil_r.
  - rewrite IH. cbn [text_of]. by rewrite <- app_assoc.
Qed.

Lemma forallb_serialisable_strs (l : list string) :
  forallb serialisable (map VStr l) = true.
Proof. induction l; [done|]. done. Qed.

(** On a job that follows the schema the loop body does what the typed one
    does, and every text it assigns is a [str]. *)
Lemma append_job_to_json P body texts (j : JobEntry) :
  forallb serialisable texts = true ->
  match append_job body j with
  | Ok body' =>
      exists texts', Untyped.append_job P (body, texts) (job_to_json j) = Ok (body', texts') /\
        forallb serialisable texts' = true
  | Raise e => Untyped.append_job P (body, texts) (job_to_json j) = Raise e
  end.
Proof.
  intros Ht. destruct j as [t dt c bs]. unfold append_job, has_company.
  cbn [title dates company bullets].
  destruct t as [t|]; [|destruct dt, c, bs; reflexivity].
  destruct dt as [dt|]; [|destruct c, bs; reflexivity].
  destruct c as [c|].
  - destruct c as [|a c]; (destruct bs as [bs|]; [|reflexivity]).
    + cbn. unfold strings. rewrite foldl_bullets. eexists. split; [reflexivity|].
      rewrite !forallb_app, Ht, forallb_serialisable_strs. done.
    + cbn. unfold strings. rewrite foldl_bullets. eexists. split; [reflexivity|].
      rewrite !forallb_app, Ht, forallb_serialisable_strs. done.
  - destruct bs as [bs|]; [|reflexivity].
    cbn. unfold strings. rewrite foldl_bullets. eexists. split; [reflexivity|].
    rewrite !forallb_app, Ht, forallb_serialisable_strs. done.
Qed.

Lemma for_each_append_job_to_json P (js : list JobEntry) : forall body texts,
  forallb serialisable texts = true ->
  match for_each append_job js body with
  | Ok body' =>
      exists texts', for_each (Untyped.append_job P) (map job_to_json js) (body, texts)
                     = Ok (body', texts') /\
        forallb serialisable texts' = true
  | Raise e => for_each (Untyped.append_job P) (map job_to_json js) (body, texts) = Raise e
  end.
Proof.
  induction js as [|j js IH]; intros body texts Ht; cbn [map for_each].
  - exists texts. done.
  - pose proof (append_job_to_json P body texts j Ht) as Hj.
    destruct (append_job body j) as [body1|e].
    + destruct Hj as (texts1 & -> & Ht1). cbn [mbind result_bind]. by apply IH.
    + rewrite Hj. done.
Qed.

Lemma for_each_registry_has_strs (l : list string) :
  for_each (fun (_ : unit) key => _ ← registry_has key; mret tt) (map VStr l) tt = Ok tt.
Proof. induction l as [|k l IH]; [done|]. cbn. exact IH. Qed.

Lemma map_key_name_strs (l : list string) : map key_name (map VStr l) = l.
Proof. induction l as [|k l IH]; [done|]. cbn. by rewrite IH. Qed.

Ltac by_fields d :=
  destruct d as [[?|] [?|] [?|] [?|] [?|] [?|] [?|]]; reflexivity.

Lemma subscript_to_json d :
  subscript (to_json d) "name" = getitem "name" (VStr <$> name d) /\
  subscript (to_json d) "phone" = getitem "phone" (VStr <$> phone d) /\
  subscript (to_json d) "email" = getitem "email" (VStr <$> email d) /\
  subscript (to_json d) "summary" = getitem "summary" (VStr <$> summary d) /\
  subscript (to_json d) "education" =
    getitem "education" (education_to_json <$> education d) /\
  subscript (to_json d) "jobs" =
    getitem "jobs" ((fun js => VList (map job_to_json js)) <$> jobs d) /\
  get (to_json d) "badges" (VList []) = Ok (strings (default [] (badges d))).
Proof. repeat split; by_fields d. Qed.

Lemma subscript_education_to_json e :
  subscript (education_to_json e) "degree" = getitem "degree" (VStr <$> degree e) /\
  subscript (education_to_json e) "university" =
    getitem "university" (VStr <$> university e).
Proof. split; destruct e as [[?|] [?|]]; reflexivity. Qed.

(** The untyped builder on an input that follows the schema is the typed
    one. *)
Lemma build_document_xml_to_json P (d : ResumeInput) :
  Untyped.build_document_xml P (to_json d) = build_document_xml P d.
Proof.
  destruct (subscript_to_json d) as (Hn & Hp & He & Hs & Hed & Hj & Hb).
  unfold Untyped.build_document_xml, build_document_xml.
  rewrite Hn, Hp, He, Hs, Hed, Hj, Hb. clear Hn Hp He Hs Hed Hj Hb.
  destruct (name d) as [n|]; [|done]. destruct (phone d) as [ph|]; [|done].
  destruct (email d) as [em|]; [|done]. destruct (summary d) as [su|]; [|done].
  cbn [fmap option_fmap option_map getitem mbind result_bind py_str text_of iterate strings].
  rewrite for_each_registry_has_strs, map_key_name_strs.
  cbn [mbind result_bind].
  destruct (education d) as [e|]; [|done].
  cbn [fmap option_fmap option_map getitem mbind result_bind].
  destruct (subscript_education_to_json e) as [-> ->].
  destruct (degree e) as [dg|]; [|done]. destruct (university e) as [un|]; [|done].
  cbn [fmap option_fmap option_map getitem mbind result_bind text_of].
  destruct (build_education_paragraph P dg un _ _) as [edu|]; [|done].
  cbn [mbind result_bind].
  destruct (jobs d) as [js|]; [|done].
  cbn [fmap option_fmap option_map getitem mbind result_bind iterate].
  match goal with
  | |- context [for_each (Untyped.append_job P) _ (?b, ?t)] =>
      pose proof (for_each_append_job_to_json P js b t eq_refl) as Hjs
  end.
  match type of Hjs with
  | match ?c with _ => _ end => destruct c as [body'|e']
  end.
  - destruct Hjs as (texts' & -> & Ht). cbn [mbind result_bind]. by rewrite Ht.
  - rewrite Hjs. done.
Qed.

Lemma key_error_required k : k ∈ REQUIRED_KEYS -> typed_error (KeyError k).
Proof. intros Hk. left. by exists k. Qed.

Lemma subscript_raise v k e :
  subscript v k = Raise e -> e = KeyError k \/ e = TypeError.
Proof.
  destruct v; cbn; try (intros [= <-]; by right).
  destruct (assoc k items); [done|]. intros [= <-]. by left.
Qed.

Lemma subscript_raise_required v k e :
  k ∈ REQUIRED_KEYS -> subscript v k = Raise e -> typed_error e.
Proof.
  intros Hk H. apply subscript_raise in H as [->| ->]; [by apply key_error_required|].
  right. by left.
Qed.

Lemma iterate_raise v e : iterate v = Raise e -> e = TypeError.
Proof. destruct v; cbn; congruence. Qed.

Lemma get_raise v k d e : get v k d = Raise e -> e = AttributeError.
Proof. destruct v; cbn; congruence. Qed.

Lemma for_each_registry_has_raise l e : forall u,
  for_each (fun (_ : unit) key => _ ← registry_has key; mret tt) l u = Raise e ->
  e = TypeError.
Proof.
  induction l as [|k l IH]; intros u H; [done|]. cbn [for_each] in H.
  destruct (registry_has k) as [b|e'] eqn:Hk.
  - cbn in H. by apply IH in H.
  - cbn in H. injection H as <-. destruct k; cbn in Hk; congruence.
Qed.

Ltac required := apply (bool_decide_unpack _); vm_compute; exact I.

Lemma append_job_raise P tree job e :
  Untyped.append_job P tree job = Raise e -> typed_error e.
Proof.
  destruct tree as [body texts]. unfold Untyped.append_job.
  destruct (get job "company" VNone) as [c|e'] eqn:Hc.
  2:{ cbn. intros [= <-]. apply get_raise in Hc as ->. right. by right. }
  cbn [mbind result_bind].
  destruct (subscript job "title") as [t|e'] eqn:Ht.
  2:{ cbn. intros [= <-]. eapply subscript_raise_required; [|exact Ht]. required. }
  cbn [mbind result_bind].
  destruct (subscript job "dates") as [dt|e'] eqn:Hd.
  2:{ cbn. intros [= <-]. eapply subscript_raise_required; [|exact Hd]. required. }
  cbn [mbind result_bind].
  assert (Hco : bool_of c = true -> subscript job "company" = Ok c).
  { intros Hb. destruct job; try discriminate Hc. cbn in Hc |- *.
    destruct (assoc "company" items) as [x|]; cbn in Hc; injection Hc as <-; [done|].
    discriminate Hb. }
  destruct (bool_of c).
  - rewrite Hco by done. cbn [mbind result_bind mret result_ret].
    destruct (subscript job "bullets") as [bs|e'] eqn:Hb.
    2:{ cbn. intros [= <-]. eapply subscript_raise_required; [|exact Hb]. required. }
    cbn [mbind result_bind].
    destruct (iterate bs) as [l|e'] eqn:Hi; [done|].
    cbn. intros [= <-]. apply iterate_raise in Hi as ->. right. by left.
  - cbn [mbind result_bind mret result_ret].
    destruct (subscript job "bullets") as [bs|e'] eqn:Hb.
    2:{ cbn. intros [= <-]. eapply subscript_raise_required; [|exact Hb]. required. }
    cbn [mbind result_bind].
    destruct (iterate bs) as [l|e'] eqn:Hi; [done|].
    cbn. intros [= <-]. apply iterate_raise in Hi as ->. right. by left.
Qed.

Lemma for_each_append_job_raise P jobs e : forall tree,
  for_each (Untyped.append_job P) jobs tree = Raise e -> typed_error e.
Proof.
  induction jobs as [|j jobs IH]; intros tree H; [done|]. cbn [for_each] in H.
  destruct (Untyped.append_job P tree j) as [tree'|e'] eqn:Hj.
  - cbn in H. by apply IH in H.
  - cbn in H. injection H as <-. by apply append_job_raise in Hj.
Qed.

Lemma untyped_build_raise P data e :
  Untyped.build_document_xml P data = Raise e -> typed_error e.
Proof.
  unfold Untyped.build_document_xml.
  destruct (subscript data "name") as [n|e'] eqn:Hn.
  2:{ cbn. intros [= <-]. eapply subscript_raise_required; [|exact Hn]. required. }
  cbn [mbind result_bind].
  destruct (subscript data "phone") as [ph|e'] eqn:Hp.
  2:{ cbn. intros [= <-]. eapply subscript_raise_required; [|exact Hp]. required. }
  cbn [mbind result_bind].
  destruct (subscript data "email") as [em|e'] eqn:Hem.
  2:{ cbn. intros [= <-]. eapply subscript_raise_required; [|exact Hem]. required. }
  cbn [mbind result_bind].
  destruct (subscript data "summary") as [su|e'] eqn:Hs.
  2:{ cbn. intros [= <-]. eapply subscript_raise_required; [|exact Hs]. required. }
  cbn [mbind result_bind].
  destruct (get data "badges" (VList [])) as [bg|e'] eqn:Hb.
  2:{ cbn. intros [= <-]. apply get_raise in Hb as ->. right. by right. }
  cbn [mbind result_bind].
  destruct (iterate bg) as [keys|e'] eqn:Hk.
  2:{ cbn. intros [= <-]. apply iterate_raise in Hk as ->. right. by left. }
  cbn [mbind result_bind].
  destruct (for_each _ keys tt) as [[]|e'] eqn:Hr.
  2:{ cbn. intros [= <-]. apply for_each_registry_has_raise in Hr as ->. right. by left. }
  cbn [mbind result_bind].
  destruct (subscript data "education") as [ed|e'] eqn:Hed.
  2:{ cbn. intros [= <-]. eapply subscript_raise_required; [|exact Hed]. required. }
  cbn [mbind result_bind].
  destruct (subscript ed "degree") as [dg|e'] eqn:Hdg.
  2:{ cbn. intros [= <-]. eapply subscript_raise_required; [|exact Hdg]. required. }
  cbn [mbind result_bind].
  destruct (subscript ed "university") as [un|e'] eqn:Hun.
  2:{ cbn. intros [= <-]. eapply subscript_raise_required; [|exact Hun]. required. }
  cbn [mbind result_bind].
  destruct (build_education_paragraph_ok P (text_of dg) (text_of un) (map key_name keys)
    (foldl allocate_rid (∅, BADGE_RID_START) (map key_name keys)).1) as [edu ->].
  cbn [mbind result_bind].
  destruct (subscript data "jobs") as [js|e'] eqn:Hjs.
  2:{ cbn. intros [= <-]. eapply subscript_raise_required; [|exact Hjs]. required. }
  cbn [mbind result_bind].
  destruct (iterate js) as [jobs|e'] eqn:Hji.
  2:{ cbn. intros [= <-]. apply iterate_raise in Hji as ->. right. by left. }
  cbn [mbind result_bind].
  destruct (for_each (Untyped.append_job P) jobs _) as [[body texts]|e'] eqn:Hfe.
  2:{ cbn. intros [= <-]. by apply for_each_append_job_raise in Hfe. }
  cbn [mbind result_bind].
  destruct (forallb serialisable texts); [done|].
  intros [= <-]. right. by left.
Qed.


(** X2: whatever value [json.load] delivers, when [build_document_xml]
    fails it raises KeyError on one of the eleven required keys, TypeError
    or AttributeError, and nothing else; on an input that follows the schema
    it is the KeyError, and a required field is missing. *)
Theorem build_document_xml_exceptions P data e :
  Untyped.build_document_xml P data = Raise e ->
  (is_key_error e \/ e = TypeError \/ e = AttributeError) /\
  (forall d, data = to_json d -> is_key_error e /\ ~ valid d).
Proof.
  intros H. split; [by apply untyped_build_raise in H|].
  intros d ->. rewrite build_document_xml_to_json in H.
  destruct (build_document_xml_outcome P d) as [[_ [doc Hd]]|[Hv (e' & He & Hk)]].
  - congruence.
  - split; [|done]. congruence.
Qed.

Lemma build_document_xml_exceptions_witness :
  Untyped.build_document_xml sample_process numeric_summary = Raise TypeError /\
  Untyped.build_document_xml sample_process (to_json without_phone) = Raise (KeyError "phone") /\
  ~ valid without_phone.
Proof.
  assert (H1 : Untyped.build_document_xml sample_process numeric_summary = Raise TypeError)
    by (vm_compute; reflexivity).
  assert (H2 : Untyped.build_document_xml sample_process (to_json without_phone)
               = Raise (KeyError "phone")) by (vm_compute; reflexivity).
  split; [exact H1|]. split; [exact H2|].
  exact (proj2 (proj2 (build_document_xml_exceptions _ _ _ H2) without_phone eq_refl)).
Defined.

(** ** Badge positions for any list of keys *)

Lemma foldl_place_spread_domain l : forall m x k,
  is_Some ((foldl (place_spread gap) (m, x) l).1 !! k) <->
  (k ∈ l /\ known k) \/ is_Some (m !! k).
Proof.
  induction l as [|k0 l IH]; intros m x k; cbn [foldl].
  - split; [by right|]. intros [[H _]|H]; [by apply not_elem_of_nil in H|done].
  - unfold place_spread at 2. destruct (BADGE_REGISTRY !! k0) as [cfg|] eqn:Hk0.
    + rewrite IH, elem_of_cons. destruct (decide (k = k0)) as [->|Hne].
      * rewrite lookup_insert_eq. split; [|by right; eexists].
        intros _. left. split; [by left|by exists cfg].
      * rewrite lookup_insert_ne by done. tauto.
    + rewrite IH, elem_of_cons. split; [tauto|].
      intros [[[->|H] Hk]|H]; [|tauto..].
      destruct Hk as [c Hc]. congruence.
Qed.

Lemma foldl_place_spread_vertical l : forall m x k p,
  (forall k' p', m !! k' = Some p' -> p'.2 = BADGE_VERTICAL_DEFAULT) ->
  (foldl (place_spread gap) (m, x) l).1 !! k = Some p -> p.2 = BADGE_VERTICAL_DEFAULT.
Proof.
  induction l as [|k0 l IH]; intros m x k p Hm; cbn [foldl]; [apply Hm|].
  unfold place_spread at 2. destruct (BADGE_REGISTRY !! k0) as [cfg|]; [|by apply IH].
  apply IH. intros k' p' H.
  apply lookup_insert_Some in H as [[_ <-]|[_ H]]; [done|eauto].
Qed.

Lemma compute_spread_any l : length l <> 4%nat ->
  exists x, compute_badge_positions l = (foldl (place_spread gap) (∅, x) l).1.
Proof.
  intros H. unfold compute_badge_positions. rewrite decide_False by done.
  by eexists.
Qed.

(** X3: [compute_badge_positions] gives a position to a key exactly when the
    key is listed and either the list has four entries or the key is in the
    registry: an unrecognised key is skipped in the spreading branch only. *)
Theorem positions_domain (l : list string) (k : string) :
  is_Some (compute_badge_positions l !! k) <->
  k ∈ l /\ (length l = 4%nat \/ known k).
Proof.
  destruct (decide (length l = 4%nat)) as [H4|H4].
  - unfold compute_badge_positions. rewrite decide_True by done.
    rewrite foldl_place_template_lookup. case_decide; [|rewrite lookup_empty].
    + split; [auto|by eexists].
    + split; [by intros [? ?]|tauto].
  - destruct (compute_spread_any l H4) as [x ->].
    rewrite foldl_place_spread_domain, lookup_empty.
    split; [intros [[? ?]|[? ?]]; [auto|done]|intros [? [?|?]]; [done|auto]].
Qed.

(** X4: a list of four entries takes the template branch whatever the entries
    are; each listed key gets its template position, or the band centre at
    the default vertical offset when the template table has none for it. *)
Theorem four_entries_positions (l : list string) (k : string) :
  length l = 4%nat -> k ∈ l ->
  compute_badge_positions l !! k =
  Some (default (BADGE_AREA_CENTER, BADGE_VERTICAL_DEFAULT) (BADGE_POSITIONS_4 !! k)).
Proof.
  intros H4 Hk. unfold compute_badge_positions. rewrite decide_True by done.
  rewrite foldl_place_template_lookup. by rewrite decide_True.
Qed.

Lemma four_entries_positions_witness :
  compute_badge_positions ["csm"; "bogus"; "ts_sci"; "csm"] !! "bogus" =
    Some (4895850, 57150) /\
  compute_badge_positions ["csm"; "bogus"; "ts_sci"; "csm"] !! "csm" =
    Some (4905375, 57150).
Proof.
  split.
  - rewrite (four_entries_positions ["csm"; "bogus"; "ts_sci"; "csm"] "bogus" eq_refl).
    + reflexivity.
    + apply (bool_decide_unpack _). vm_compute. exact I.
  - rewrite (four_entries_positions ["csm"; "bogus"; "ts_sci"; "csm"] "csm" eq_refl).
    + reflexivity.
    + apply (bool_decide_unpack _). vm_compute. exact I.
Defined.

(** X5: outside the four-entry branch every position has the default vertical
    offset. *)
Theorem spread_vertical_default (l : list string) (k : string) (p : Z * Z) :
  length l <> 4%nat -> compute_badge_positions l !! k = Some p ->
  p.2 = BADGE_VERTICAL_DEFAULT.
Proof.
  intros H4 Hp. destruct (compute_spread_any l H4) as [x Hx]. rewrite Hx in Hp.
  eapply foldl_place_spread_vertical; [|exact Hp].
  intros k' p' H. by rewrite lookup_empty in H.
Qed.

Lemma spread_vertical_default_witness :
  compute_badge_positions ["csm"; "bogus"] !! "csm" = Some (4364838, 57150) /\
  (4364838, 57150).2 = BADGE_VERTICAL_DEFAULT.
Proof.
  assert (H : compute_badge_positions ["csm"; "bogus"] !! "csm" = Some (4364838, 57150))
    by (vm_compute; reflexivity).
  split; [exact H|].
  apply (spread_vertical_default ["csm"; "bogus"] "csm" _ ltac:(simpl; lia) H).
Defined.

Lemma foldl_place_spread_skip l : forall m x k,
  k ∉ filter in_registry l ->
  (foldl (place_spread gap) (m, x) l).1 !! k = m !! k.
Proof.
  induction l as [|k0 l IH]; intros m x k Hk; [done|].
  cbn [foldl]. unfold place_spread at 2.
  destruct (BADGE_REGISTRY !! k0) as [cfg|] eqn:Hk0.
  - rewrite filter_cons_True in Hk by (by rewrite Hk0).
    apply not_elem_of_cons in Hk as [Hne Hk].
    rewrite IH by done. by rewrite lookup_insert_ne.
  - rewrite filter_cons_False in Hk by (rewrite Hk0; by intros [? ?]).
    by apply IH.
Qed.

Lemma foldl_place_spread_nth l : forall m x i k,
  NoDup (filter in_registry l) ->
  filter in_registry l !! i = Some k ->
  (foldl (place_spread gap) (m, x) l).1 !! k =
  Some (x + advance (take i (filter in_registry l)), BADGE_VERTICAL_DEFAULT).
Proof.
  induction l as [|k0 l IH]; intros m x i k Hnd Hi; [done|].
  cbn [foldl]. unfold place_spread at 2.
  destruct (BADGE_REGISTRY !! k0) as [cfg|] eqn:Hk0.
  - rewrite filter_cons_True in Hnd, Hi |- * by (by rewrite Hk0).
    apply NoDup_cons in Hnd as [Hnin Hnd].
    assert (Hw : width k0 = cfg_cx cfg) by (unfold width; by rewrite Hk0).
    destruct i as [|i]; simpl in Hi.
    + injection Hi as <-. rewrite foldl_place_spread_skip by done.
      rewrite lookup_insert_eq. cbn [take advance]. do 2 f_equal. lia.
    + rewrite (IH _ _ i k) by done. cbn [take advance]. rewrite Hw.
      do 2 f_equal. lia.
  - rewrite filter_cons_False in Hnd, Hi |- * by (rewrite Hk0; by intros [? ?]).
    by apply IH.
Qed.

Lemma registry_width_filter l :
  registry_width (filter in_registry l) = registry_width l.
Proof.
  induction l as [|k l IH]; [done|]. cbn [registry_width].
  destruct (BADGE_REGISTRY !! k) as [cfg|] eqn:Hk.
  - rewrite filter_cons_True by (by rewrite Hk). cbn [registry_width].
    by rewrite Hk, IH.
  - rewrite filter_cons_False by (rewrite Hk; by intros [? ?]). done.
Qed.

Lemma filter_in_registry_known l : Forall known (filter in_registry l).
Proof. apply Forall_forall. intros k Hk. by apply list_elem_of_filter in Hk as [Hk _]. Qed.

(** X6: outside the four-entry branch, with no recognised key repeated, the
    i-th recognised key is placed at the start offset plus the widths and
    gaps of the recognised keys before it; as the start offset counts one gap
    per entry of the whole list, the row of badges is off centre to the left
    by one gap for each unrecognised entry (up to the remainder of the
    halving). *)
Theorem spread_with_unknown_keys (l : list string) :
  let fl := filter in_registry l in
  length l <> 4%nat -> NoDup fl -> (1 <= length fl)%nat ->
  (forall i k, fl !! i = Some k ->
     compute_badge_positions l !! k =
     Some (start_x l + advance (take i fl), BADGE_VERTICAL_DEFAULT)) /\
  skew_of l =
    total_span l `mod` 2 - gap * (Z.of_nat (length l) - Z.of_nat (length fl)).
Proof.
  intros fl H4 Hnd Hlen.
  assert (Hl1 : (1 <= length l)%nat).
  { pose proof (length_filter in_registry l) as Hf. unfold fl in Hlen. lia. }
  assert (Hpos : forall i k, fl !! i = Some k ->
     compute_badge_positions l !! k =
     Some (start_x l + advance (take i fl), BADGE_VERTICAL_DEFAULT)).
  { intros i k Hi. rewrite compute_spread by done. by apply foldl_place_spread_nth. }
  split; [exact Hpos|].
  unfold skew_of. fold fl. rewrite head_lookup, last_lookup.
  destruct (lookup_lt_is_Some_2 fl 0%nat) as [kf Hf]; [lia|].
  destruct (lookup_lt_is_Some_2 fl (pred (length fl))) as [kl Hl]; [lia|].
  rewrite Hf, Hl. unfold pos_h. rewrite !lookup_total_alt.
  rewrite (Hpos _ _ Hf), (Hpos _ _ Hl). cbn [from_option fst].
  pose proof (advance_take_S fl _ kl Hl) as HS.
  replace (S (pred (length fl))) with (length fl) in HS by lia.
  rewrite firstn_all, advance_width in HS by apply filter_in_registry_known.
  unfold fl in HS at 1. rewrite registry_width_filter in HS. fold fl in HS.
  rewrite take_0. cbn [advance].
  pose proof (Z.div_mod (total_span l) 2 ltac:(lia)) as Hdm.
  unfold start_x. unfold total_span, gap, id in *. cbn [fst]. lia.
Qed.

Lemma spread_with_unknown_keys_witness :
  compute_badge_positions ["csm"; "bogus"; "ts_sci"] !! "ts_sci" = Some (5014913, 57150) /\
  skew_of ["csm"; "bogus"; "ts_sci"] = -99999.
Proof.
  assert (Hnd : NoDup (filter in_registry ["csm"; "bogus"; "ts_sci"])).
  { apply (bool_decide_unpack _). vm_compute. exact I. }
  assert (H4 : length ["csm"; "bogus"; "ts_sci"] <> 4%nat) by (simpl; lia).
  assert (H1 : (1 <= length (filter in_registry ["csm"; "bogus"; "ts_sci"]))%nat).
  { vm_compute. lia. }
  destruct (spread_with_unknown_keys ["csm"; "bogus"; "ts_sci"] H4 Hnd H1) as [Hp Hs].
  split.
  - rewrite (Hp 1%nat "ts_sci" eq_refl). reflexivity.
  - rewrite Hs. reflexivity.
Defined.

(** ** Entries of the relationship manifest *)

Lemma badge_rels_filter l : forall n,
  badge_rels n (filter in_registry l) = badge_rels n l.
Proof.
  induction l as [|k l IH]; intros n; [done|]. cbn [badge_rels].
  destruct (BADGE_REGISTRY !! k) as [cfg|] eqn:Hk.
  - rewrite filter_cons_True by (by rewrite Hk). cbn [badge_rels].
    by rewrite Hk, IH.
  - rewrite filter_cons_False by (rewrite Hk; by intros [? ?]). apply IH.
Qed.

Lemma build_document_rels_unfold keys :
  build_document_rels keys =
  mkXmlDoc (xml_declaration "utf-8")
    (E (rel_tag "Relationships") []
       ((((map (fun '(rid, rtype, target) => Relationship rid rtype target) fixed_rels
           ++ badge_rels BADGE_RID_START keys)
          ++ map (fun '(rid, (hf_type, target)) =>
                    Relationship rid (hf_type_map hf_type) target) HEADER_FOOTER_RELS)
         ++ [Relationship "rId21" (rel_type "fontTable") "fontTable.xml"])
        ++ [Relationship "rId22" (rel_type "theme") "theme/theme1.xml"])).
Proof. unfold build_document_rels. by rewrite foldl_declare_badge. Qed.

(** X7: [build_document_rels] skips keys outside the registry: the manifest
    of a list is the manifest of its recognised keys. *)
Theorem manifest_ignores_unknown_keys (keys : list string) :
  build_document_rels keys = build_document_rels (filter in_registry keys).
Proof. by rewrite !build_document_rels_unfold, badge_rels_filter. Qed.

(** X8: the image entries of the manifest are one per recognised key in input
    order, repeats included, with identifiers counted up from
    [BADGE_RID_START] and target media/<file>; the manifest has 18 entries
    besides them. *)
Theorem manifest_image_entries (keys : list string) :
  image_rels (build_document_rels keys) = badge_rels BADGE_RID_START keys /\
  length (el_children (xml_root (build_document_rels keys))) =
    (18 + length (filter in_registry keys))%nat.
Proof.
  rewrite build_document_rels_unfold. unfold image_rels. cbn [xml_root el_children E].
  split.
  - rewrite !List.filter_app.
    destruct (badge_rels_ids keys BADGE_RID_START) as [_ ->].
    repeat match goal with
    | |- context [List.filter is_image_rel ?l] =>
        lazymatch l with
        | badge_rels _ _ => fail
        | _ => replace (List.filter is_image_rel l) with (@nil Element)
                 by (vm_compute; reflexivity)
        end
    end.
    by rewrite !app_nil_r.
  - rewrite !length_app, !length_map.
    destruct (badge_rels_ids keys BADGE_RID_START) as [Hids _].
    apply (f_equal length) in Hids. unfold rid_range in Hids.
    rewrite length_map, length_seq in Hids.
    assert (Hlen : length (badge_rels BADGE_RID_START keys) =
                   length (omap rel_id (badge_rels BADGE_RID_START keys))).
    { clear Hids. generalize BADGE_RID_START.
      induction keys as [|k keys IH]; intros n; [done|]. cbn [badge_rels].
      destruct (BADGE_REGISTRY !! k); [|apply IH].
      cbn [omap list_omap length]. cbn. f_equal. apply IH. }
    rewrite Hlen, Hids. cbn. lia.
Qed.

Lemma rid_range_elem n count i :
  (i < count)%nat -> rId (n + Z.of_nat i) ∈ rid_range n count.
Proof.
  intros Hi. unfold rid_range. apply list_elem_of_fmap. exists i. split; [done|].
  apply elem_of_seq. lia.
Qed.

(** X9: the identifiers declared by the manifest are pairwise distinct
    exactly when at most four recognised keys are listed (repeats counted): a
    fifth badge is given rId15, which the header and footer entries start
    from. *)
Theorem manifest_ids_distinct_iff (keys : list string) :
  NoDup (declared_ids (build_document_rels keys)) <->
  (length (filter in_registry keys) <= 4)%nat.
Proof.
  destruct (manifest_ids keys) as [-> _].
  set (n := length (filter in_registry keys)).
  split.
  - intros Hnd. destruct (decide (n <= 4)%nat) as [|Hn]; [done|]. exfalso.
    apply NoDup_app in Hnd as (_ & _ & Hnd).
    apply NoDup_app in Hnd as (_ & Hdis & _).
    apply (Hdis "rId15").
    + apply (rid_range_elem 11 n 4). lia.
    + apply (bool_decide_unpack _). vm_compute. exact I.
  - intros Hn.
    destruct n as [|[|[|[|[|n]]]]]; [..|lia];
      apply (bool_decide_unpack _); vm_compute; exact I.
Qed.

(** ** What a run changes *)

Lemma sample_success_run :
  generate_resume sample_process "/work/in.json" "/work/out.docx" (Some "/work/tpl.docx")
    (sample_world (sample_input (Some ["csm"; "ts_sci"]) (Some "US Army")) sample_template)
  = (Ok tt, sample_success.2).
Proof. vm_compute. reflexivity. Qed.



(** A run of [generate_resume] that returns, step by step. *)
Lemma generate_resume_success P input_path output_path template_path W W' :
  generate_resume P input_path output_path template_path W = (Ok tt, W') ->
  exists d tpl doc W2,
    load_json input_path W = (Ok d, W) /\
    default (TEMPLATE_PATH P) template_path <> output_path /\
    fs W !! default (TEMPLATE_PATH P) template_path = Some tpl /\
    build_document_xml P d = Ok doc /\
    _replace_in_zip P output_path
      (replaced_parts doc (build_document_rels (registry_badges d)))
      (registry_badges d)
      (mkWorld (<[output_path := tpl]> (fs W)) (dirs (parent_made P W output_path))
         (stdout W)) = (Ok tt, W2) /\
    W' = mkWorld (fs W2) (dirs W2) (stdout W2 ++ ["Generated: " +:+ output_path]).
Proof.
  unfold generate_resume. intros H.
  apply bind_ok in H as (d & W0 & Hload & H).
  pose proof (load_json_inv _ _ _ _ Hload) as ->.
  apply bind_ok in H as ([] & W1 & Hmk & H).
  assert (HW1 : parent_made P W output_path = W1) by (unfold parent_made; by rewrite Hmk).
  destruct (makedirs_inv _ _ _ _ _ Hmk) as (Hfs1 & Hout1 & _).
  apply bind_ok in H as ([] & W2 & Hcopy & H).
  apply copy2_cases in Hcopy
    as [(e0 & Habs & _)|[(e0 & g & Habs & _)|(tpl & _ & Hsrc & Hr & Hne & Hdir & HW2)]];
    [done|done|].
  apply bind_ok in H as (doc & W3 & Hdoc & H). injection Hdoc as Hdoc <-.
  apply bind_ok in H as ([] & W4 & Hrep & H). injection H as <-.
  assert (Htarget : copy_target W1 (default (TEMPLATE_PATH P) template_path) output_path
                    = output_path).
  { destruct (decide (copy_target W1 (default (TEMPLATE_PATH P) template_path) output_path
                      = output_path)) as [|Hd]; [done|].
    pose proof (copy_target_other _ _ _ Hd) as Hnone.
    apply replace_success in Hrep as (zin & _ & _ & _ & Hm & _).
    unfold members_at in Hm. rewrite HW2 in Hm. cbn [fs] in Hm.
    rewrite lookup_insert_ne, Hnone in Hm by done. done. }
  rewrite Htarget in *. rewrite Hfs1 in *. rewrite Hout1 in HW2. rewrite <- HW1 in HW2.
  rewrite HW2 in Hrep.
  exists d, tpl, doc, W4. done.
Qed.

(** X11: a run of [generate_resume] that returns was given a template path
    other than the output path; it leaves every file as it was except the
    output path, which holds the archive written to the temporary file, with
    that file's time stamp and mode 0o600; the last line printed is
    Generated: <output path>. *)
Theorem success_writes_only_output P input_path output_path template_path W W' :
  generate_resume P input_path output_path template_path W = (Ok tt, W') ->
  default (TEMPLATE_PATH P) template_path <> output_path /\
  (exists ms, fs W' = <[output_path := mkFile (now P) 384 (Archive ms)]> (fs W)) /\
  last (stdout W') = Some ("Generated: " +:+ output_path).
Proof.
  intros H. apply generate_resume_success in H
    as (d & tpl & doc & W2 & _ & Hne & _ & _ & Hrep & ->).
  apply replace_success in Hrep as (zin & copied & out & W3 & _ & _ & _ & Hfs & _).
  split; [done|]. split.
  - exists out. cbn [fs] in *. rewrite Hfs. apply insert_insert_eq.
  - cbn [stdout]. apply last_snoc.
Qed.

Lemma success_writes_only_output_witness :
  sample_success.1 = Ok tt /\
  (exists ms, fs sample_success.2 =
     <["/work/out.docx" := mkFile 1700000000 384 (Archive ms)]>
       (fs (sample_world (sample_input (Some ["csm"; "ts_sci"]) (Some "US Army"))
              sample_template))) /\
  last (stdout sample_success.2) = Some "Generated: /work/out.docx".
Proof.
  split; [vm_compute; reflexivity|].
  exact (proj2 (success_writes_only_output _ _ _ _ _ _ sample_success_run)).
Defined.

(** X12: when the output path is the template path and that file exists,
    [generate_resume] raises SameFileError once the input has been loaded,
    and changes nothing. *)
Theorem template_as_output_rejected P input_path path W f d :
  fs W !! input_path = Some f -> readable f = true -> body f = Json d ->
  is_Some (fs W !! path) ->
  generate_resume P input_path path (Some path) W = (Raise (SameFileError path), W).
Proof.
  intros Hf Hr Hb [g Hp]. unfold generate_resume.
  assert (Hload : load_json input_path W = (Ok d, W)).
  { unfold load_json. erewrite bind_run; [|unfold open_read; by rewrite Hf, Hr].
    by rewrite Hb. }
  rewrite (bind_run _ _ _ _ _ Hload).
  rewrite (bind_run _ _ _ _ _ (makedirs_parent P W path g Hp)).
  apply bind_stop. cbn [default]. unfold copy2. rewrite (is_dir_file W path g Hp).
  unfold copyfile, mbind, IO_bind. rewrite decide_True by done.
  unfold path_exists. by rewrite bool_decide_true by eauto.
Qed.

Lemma template_as_output_rejected_witness :
  let W := sample_world (sample_input None None) sample_template in
  generate_resume sample_process "/work/in.json" "/work/tpl.docx" (Some "/work/tpl.docx") W =
  (Raise (SameFileError "/work/tpl.docx"), W).
Proof.
  intros W.
  apply (template_as_output_rejected sample_process "/work/in.json" "/work/tpl.docx" W
           (mkFile 1700000000 420 (Json (sample_input None None))) (sample_input None None)).
  - vm_compute. reflexivity.
  - reflexivity.
  - reflexivity.
  - exists sample_template. vm_compute. reflexivity.
Defined.

(** ** Entries of the generated archive *)

Lemma copy_members_replaced zin replacements l : forall zout out,
  for_each (copy_member zin replacements) l zout = Ok out ->
  forall m data, m ∈ l -> replacements !! filename (info m) = Some data ->
    writestr (info m) data ∈ out.
Proof.
  induction l as [|item l IH]; intros zout out H m data Hm Hr; simpl in H.
  - by apply not_elem_of_nil in Hm.
  - destruct (copy_member zin replacements zout item) as [zout'|e] eqn:H1; [|done].
    simpl in H. apply elem_of_cons in Hm as [->|Hm]; [|eauto].
    apply copy_members_passthrough in H as [Hkeep _]. apply Hkeep.
    unfold copy_member in H1. rewrite Hr in H1. injection H1 as <-.
    apply elem_of_app; right. by apply list_elem_of_singleton.
Qed.

Lemma appended_names_elem P W keys n :
  n ∈ appended_names P W keys <->
  exists key cfg, key ∈ keys /\ BADGE_REGISTRY !! key = Some cfg /\
    ((is_dir W (path_join (BADGES_DIR P) (cfg_filename cfg)) = true /\
      n = ("word/media/" +:+ cfg_filename cfg) +:+ "/") \/
     (is_Some (fs W !! path_join (BADGES_DIR P) (cfg_filename cfg)) /\
      n = "word/media/" +:+ cfg_filename cfg)).
Proof.
  unfold appended_names. rewrite list_elem_of_omap. split.
  - intros (key & Hkey & H). destruct (BADGE_REGISTRY !! key) as [cfg|] eqn:Hk; [|done].
    destruct (is_dir W _) eqn:Hdir; [injection H as <-; eauto 10|].
    case_bool_decide as Hex; [|done]. injection H as <-. eauto 10.
  - intros (key & cfg & Hkey & Hk & [(Hdir & ->)|(Hex & ->)]);
      exists key; (split; [done|]); rewrite Hk.
    + by rewrite Hdir.
    + destruct Hex as [f Hf]. rewrite (is_dir_file W _ f Hf).
      rewrite bool_decide_true; [done|eauto].
Qed.

Lemma registry_archive_name key cfg :
  BADGE_REGISTRY !! key = Some cfg ->
  "word/media/" +:+ cfg_filename cfg = "word/media/" +:+ key +:+ ".png" /\
  "word/media/" +:+ cfg_filename cfg ∈ BADGE_ARCHIVE_NAMES /\
  ("word/media/" +:+ cfg_filename cfg) +:+ "/" ∈ map (fun n => n +:+ "/") BADGE_ARCHIVE_NAMES.
Proof.
  intros H. assert (Hk : known key) by (by exists cfg).
  apply known_cases in Hk. unfold KNOWN_KEYS in Hk. rewrite !elem_of_cons in Hk.
  destruct Hk as [->|[->|[->|[->|Hk]]]]; [..|by apply not_elem_of_nil in Hk];
    injection H as <-; (split; [reflexivity|]);
    split; apply (bool_decide_unpack _); vm_compute; exact I.
Qed.

(** Entry names of the archive a successful [generate_resume] leaves. *)
Lemma generate_resume_names P input_path output_path template_path W W' :
  generate_resume P input_path output_path template_path W = (Ok tt, W') ->
  exists d tpl doc zin out,
    load_json input_path W = (Ok d, W) /\
    fs W !! default (TEMPLATE_PATH P) template_path = Some tpl /\
    body tpl = Archive zin /\
    build_document_xml P d = Ok doc /\
    members_at W' output_path = Some out /\
    member_names out =
      List.filter (fun n => bool_decide (n ∉ template_badge_files)) (member_names zin) ++
      appended_names P (splice_world P W output_path tpl) (registry_badges d) /\
    (forall m data, m ∈ zin ->
       replaced_parts doc (build_document_rels (registry_badges d))
         !! filename (info m) = Some data ->
       writestr (info m) data ∈ out).
Proof.
  intros H. apply generate_resume_success in H
    as (d & tpl & doc & W2 & Hload & Hne & Htpl & Hdoc & Hrep & ->).
  pose proof Hrep as Hnames. apply replace_names in Hnames
    as (zin & out & Hzin & Hout & Hnames).
  apply replace_success in Hrep
    as (zin' & copied & out' & W3 & Hzin' & Hcopy & Hadd & Hfs & _).
  rewrite Hzin in Hzin'. injection Hzin' as <-.
  assert (out' = out) as ->.
  { unfold members_at in Hout. rewrite Hfs, lookup_insert_eq in Hout. cbn in Hout. congruence. }
  exists d, tpl, doc, zin, out. split; [done|]. split; [done|]. split.
  { unfold members_at in Hzin. cbn [fs] in Hzin. rewrite lookup_insert_eq in Hzin.
    destruct (body tpl); try done. congruence. }
  split; [done|]. split; [done|]. split.
  - rewrite Hnames. f_equal. apply List.filter_ext. intros n. apply kept_replaced_parts.
  - intros m data Hm Hr.
    eapply add_badges_passthrough; [exact Hadd|].
    eapply copy_members_replaced; eauto.
Qed.

Lemma not_appended_name P W keys n :
  n ∉ BADGE_ARCHIVE_NAMES ++ map (fun n => n +:+ "/") BADGE_ARCHIVE_NAMES ->
  n ∉ appended_names P W keys.
Proof.
  intros Hn Hin.
  apply appended_names_elem in Hin as (key & cfg & _ & Hk & [(_ & ->)|(_ & ->)]);
    apply Hn, elem_of_app; [right|left]; by apply (registry_archive_name key cfg).
Qed.

(** X13: the entry names of the archive a run leaves, in order: the names of
    the template without the four legacy image names, then word/media/<file>
    for every requested recognised key whose asset file exists. *)
Theorem output_entry_names P input_path output_path template_path W W' :
  generate_resume P input_path output_path template_path W = (Ok tt, W') ->
  exists d tpl zin out,
    load_json input_path W = (Ok d, W) /\
    fs W !! default (TEMPLATE_PATH P) template_path = Some tpl /\
    body tpl = Archive zin /\
    members_at W' output_path = Some out /\
    member_names out =
      List.filter (fun n => bool_decide (n ∉ template_badge_files)) (member_names zin) ++
      appended_names P (splice_world P W output_path tpl) (registry_badges d).
Proof.
  intros H. apply generate_resume_names in H
    as (d & tpl & doc & zin & out & H1 & H2 & H3 & _ & H4 & H5 & _).
  by exists d, tpl, zin, out.
Qed.

Lemma output_entry_names_witness :
  sample_success.1 = Ok tt /\
  exists d tpl zin out,
    load_json "/work/in.json"
      (sample_world (sample_input (Some ["csm"; "ts_sci"]) (Some "US Army")) sample_template)
      = (Ok d, sample_world (sample_input (Some ["csm"; "ts_sci"]) (Some "US Army"))
                 sample_template) /\
    fs (sample_world (sample_input (Some ["csm"; "ts_sci"]) (Some "US Army")) sample_template)
      !! "/work/tpl.docx" = Some tpl /\
    body tpl = Archive zin /\
    members_at sample_success.2 "/work/out.docx" = Some out /\
    member_names out =
      List.filter (fun n => bool_decide (n ∉ template_badge_files)) (member_names zin) ++
      appended_names sample_process
        (splice_world sample_process
           (sample_world (sample_input (Some ["csm"; "ts_sci"]) (Some "US Army"))
              sample_template)
           "/work/out.docx" tpl)
        (registry_badges d).
Proof.
  split; [vm_compute; reflexivity|].
  exact (output_entry_names _ _ _ _ _ _ sample_success_run).
Defined.

(** X14: no entry of the archive a run leaves is named word/media/image1.png
    to image4.png. *)
Theorem legacy_images_never_survive P input_path output_path template_path W W' out n :
  generate_resume P input_path output_path template_path W = (Ok tt, W') ->
  members_at W' output_path = Some out ->
  n ∈ template_badge_files -> n ∉ member_names out.
Proof.
  intros H Hout Hn. apply generate_resume_names in H
    as (d & tpl & doc & zin & out' & _ & _ & _ & _ & Hout' & Hnames & _).
  rewrite Hout in Hout'. injection Hout' as <-. rewrite Hnames.
  intros Hin. apply elem_of_app in Hin as [Hin|Hin].
  - apply list_elem_of_In, List.filter_In in Hin as [_ Hin].
    by apply bool_decide_eq_true in Hin.
  - revert Hin. apply not_appended_name.
    unfold template_badge_files in Hn. rewrite !elem_of_union, !elem_of_singleton in Hn.
    destruct Hn as [[[->| ->]| ->]| ->];
      apply (bool_decide_unpack _); vm_compute; exact I.
Qed.

Lemma legacy_images_never_survive_witness :
  members_at sample_success.2 "/work/out.docx" = Some sample_output /\
  "word/media/image1.png" ∉ member_names sample_output.
Proof.
  assert (H : members_at sample_success.2 "/work/out.docx" = Some sample_output)
    by (vm_compute; reflexivity).
  split; [exact H|].
  apply (legacy_images_never_survive _ _ _ _ _ _ _ _ sample_success_run H).
  apply (bool_decide_unpack _). vm_compute. exact I.
Defined.



Lemma badge_rels_elem l : forall n key cfg,
  key ∈ l -> BADGE_REGISTRY !! key = Some cfg ->
  exists rid, Relationship rid image_type ("media/" +:+ cfg_filename cfg) ∈ badge_rels n l.
Proof.
  induction l as [|k l IH]; intros n key cfg Hkey Hk; [by apply not_elem_of_nil in Hkey|].
  cbn [badge_rels]. apply elem_of_cons in Hkey as [<-|Hkey].
  - rewrite Hk. eexists. by left.
  - destruct (BADGE_REGISTRY !! k).
    + destruct (IH (n + 1) key cfg Hkey Hk) as [rid Hrid]. exists rid. by right.
    + by apply (IH n key cfg).
Qed.

Lemma image_rels_badge_rels keys :
  image_rels (build_document_rels keys) = badge_rels BADGE_RID_START keys.
Proof.
  rewrite build_document_rels_unfold. unfold image_rels. cbn [xml_root el_children E].
  rewrite !List.filter_app.
  destruct (badge_rels_ids keys BADGE_RID_START) as [_ ->].
  repeat match goal with
  | |- context [List.filter is_image_rel ?l] =>
      lazymatch l with
      | badge_rels _ _ => fail
      | _ => replace (List.filter is_image_rel l) with (@nil Element)
               by (vm_compute; reflexivity)
      end
  end.
  by rewrite !app_nil_r.
Qed.

Lemma registry_filename_inj key cfg key' cfg' :
  BADGE_REGISTRY !! key = Some cfg -> BADGE_REGISTRY !! key' = Some cfg' ->
  "word/media/" +:+ cfg_filename cfg = "word/media/" +:+ cfg_filename cfg' ->
  cfg = cfg'.
Proof.
  intros H H' Heq.
  assert (Hk : known key) by (by exists cfg). assert (Hk' : known key') by (by exists cfg').
  apply known_cases in Hk, Hk'. unfold KNOWN_KEYS in *. rewrite !elem_of_cons in Hk, Hk'.
  destruct Hk as [->|[->|[->|[->|Hk]]]]; [..|by apply not_elem_of_nil in Hk];
  destruct Hk' as [->|[->|[->|[->|Hk']]]]; try (by apply not_elem_of_nil in Hk');
    injection H as <-; injection H' as <-; (reflexivity || discriminate Heq).
Qed.

(** The entry of a directory is not named like an image. *)
Lemma registry_filename_not_dir key cfg key' cfg' :
  BADGE_REGISTRY !! key = Some cfg -> BADGE_REGISTRY !! key' = Some cfg' ->
  "word/media/" +:+ cfg_filename cfg <> ("word/media/" +:+ cfg_filename cfg') +:+ "/".
Proof.
  intros H H' Heq.
  assert (Hk : known key) by (by exists cfg). assert (Hk' : known key') by (by exists cfg').
  apply known_cases in Hk, Hk'. unfold KNOWN_KEYS in *. rewrite !elem_of_cons in Hk, Hk'.
  destruct Hk as [->|[->|[->|[->|Hk]]]]; [..|by apply not_elem_of_nil in Hk];
  destruct Hk' as [->|[->|[->|[->|Hk']]]]; try (by apply not_elem_of_nil in Hk');
    injection H as <-; injection H' as <-; discriminate Heq.
Qed.

(** X16: for a requested recognised badge whose asset file is missing (and
    whose archive name the template does not hold), the archive has no such
    entry while the manifest still declares an image relationship that
    targets it. *)
Theorem missing_asset_leaves_dangling_reference
    P input_path output_path template_path W W' d tpl zin out key cfg :
  generate_resume P input_path output_path template_path W = (Ok tt, W') ->
  load_json input_path W = (Ok d, W) ->
  fs W !! default (TEMPLATE_PATH P) template_path = Some tpl ->
  body tpl = Archive zin ->
  members_at W' output_path = Some out ->
  key ∈ default [] (badges d) -> BADGE_REGISTRY !! key = Some cfg ->
  (with_tmp P (<[output_path := tpl]> (fs W)))
    !! (path_join (BADGES_DIR P) (cfg_filename cfg)) = None ->
  ("word/media/" +:+ cfg_filename cfg) ∉ member_names zin ->
  (("word/media/" +:+ cfg_filename cfg) ∉ member_names out) /\
  (exists rid, Relationship rid image_type ("media/" +:+ cfg_filename cfg)
                ∈ image_rels (build_document_rels (registry_badges d))).
Proof.
  intros H Hload Htpl Hzin Hout Hkey Hk Hmiss Hnot.
  apply generate_resume_names in H
    as (d' & tpl' & doc & zin' & out' & Hload' & Htpl' & Hzin' & _ & Hout' & Hnames & _).
  assert (d' = d) as -> by congruence.
  assert (tpl' = tpl) as -> by congruence.
  assert (zin' = zin) as -> by congruence.
  assert (out' = out) as -> by congruence.
  split.
  - rewrite Hnames. intros Hin. apply elem_of_app in Hin as [Hin|Hin].
    + apply list_elem_of_In, List.filter_In in Hin as [Hin _].
      by apply list_elem_of_In in Hin.
    + apply appended_names_elem in Hin
        as (key' & cfg' & _ & Hk' & [(_ & Heq)|([f Hex] & Heq)]).
      * by apply (registry_filename_not_dir key cfg key' cfg') in Heq.
      * rewrite (registry_filename_inj key cfg key' cfg' Hk Hk' Heq) in Hmiss.
        unfold splice_world in Hex. cbn [fs] in Hex. congruence.
  - rewrite image_rels_badge_rels. apply badge_rels_elem with key; [|done].
    unfold registry_badges. apply list_elem_of_filter. split; [by exists cfg|done].
Qed.

Lemma missing_asset_leaves_dangling_reference_witness :
  sample_success.1 = Ok tt /\
  ("word/media/ts_sci.png" ∉ member_names sample_output) /\
  (exists rid, Relationship rid image_type "media/ts_sci.png"
    ∈ image_rels (build_document_rels
        (registry_badges (sample_input (Some ["csm"; "ts_sci"]) (Some "US Army"))))).
Proof.
  split; [vm_compute; reflexivity|].
  apply (missing_asset_leaves_dangling_reference
           sample_process "/work/in.json" "/work/out.docx" (Some "/work/tpl.docx")
           (sample_world (sample_input (Some ["csm"; "ts_sci"]) (Some "US Army")) sample_template)
           sample_success.2
           (sample_input (Some ["csm"; "ts_sci"]) (Some "US Army"))
           sample_template
           (default [] (members_at (mkWorld (<["t" := sample_template]> ∅) ∅ []) "t"))
           sample_output "ts_sci"
           ("ts_sci.png", 723900, 781050, "TS/SCI Clearance")).
  - exact sample_success_run.
  - vm_compute. reflexivity.
  - vm_compute. reflexivity.
  - vm_compute. reflexivity.
  - vm_compute. reflexivity.
  - apply (bool_decide_unpack _). vm_compute. exact I.
  - vm_compute. reflexivity.
  - vm_compute. reflexivity.
  - apply (bool_decide_unpack _). vm_compute. exact I.
Defined.

(** ** Texts and drawings of the content tree *)

Lemma collect_El {X} (g : Element -> list X) tag attrib text children :
  collect g (El tag attrib text children) =
  g (El tag attrib text children) ++ collect_all g children.
Proof.
  unfold collect, collect_all. cbn [descendants map concat]. f_equal.
  induction children as [|c cs IH]; [done|].
  cbn [map concat]. by rewrite map_app, concat_app, IH.
Qed.

Lemma collect_E {X} (g : Element -> list X) tag attrib children :
  collect g (E tag attrib children) =
  g (E tag attrib children) ++ collect_all g children.
Proof. apply collect_El. Qed.

Lemma collect_all_app {X} (g : Element -> list X) l1 l2 :
  collect_all g (l1 ++ l2) = collect_all g l1 ++ collect_all g l2.
Proof. unfold collect_all. by rewrite map_app, concat_app. Qed.

Lemma collect_all_cons {X} (g : Element -> list X) e l :
  collect_all g (e :: l) = collect g e ++ collect_all g l.
Proof. done. Qed.

Lemma texts_of_collect tag e : texts_of tag e = collect (text_if tag) e.
Proof.
  unfold texts_of, find_all, collect.
  induction (descendants e) as [|d ds IH]; [done|].
  cbn [List.filter map concat]. unfold text_if at 1.
  destruct (has_tag tag d); cbn [omap list_omap app]; rewrite IH; [|done].
  by destruct (el_text d).
Qed.

Lemma find_all_collect tag e : find_all tag e = collect (self_if tag) e.
Proof.
  unfold find_all, collect.
  induction (descendants e) as [|d ds IH]; [done|].
  cbn [List.filter map concat]. unfold self_if at 1.
  destruct (has_tag tag d); cbn [app]; by rewrite IH.
Qed.

Lemma build_badge_anchor_shape P rid key h v a :
  build_badge_anchor P rid key h v = Ok a ->
  collect (text_if (w "t")) a = [] /\ length (collect (self_if (w "drawing")) a) = 1%nat.
Proof.
  unfold build_badge_anchor. destruct (BADGE_REGISTRY !! key) as [cfg|]; [|done].
  cbn -[str drawing_id]. intros H. injection H as <-.
  generalize (str h) (str v) (str (cfg_cx cfg)) (str (cfg_cy cfg))
    (drawing_id P key) (cfg_descr cfg).
  intros s1 s2 s3 s4 s5 s6. split; vm_compute; reflexivity.
Qed.

Lemma badge_run_shape P positions rids runs key runs' :
  badge_run P positions rids runs key = Ok runs' ->
  collect_all (text_if (w "t")) runs' = collect_all (text_if (w "t")) runs /\
  length (collect_all (self_if (w "drawing")) runs') =
    (length (collect_all (self_if (w "drawing")) runs) +
     length (filter (drawn rids) [key]))%nat.
Proof.
  unfold badge_run.
  destruct (BADGE_REGISTRY !! key) as [cfg|] eqn:Hk.
  2:{ intros H. injection H as <-.
      rewrite filter_cons_False by (unfold drawn; rewrite Hk; by intros [[? ?] _]).
      cbn. split; [done|lia]. }
  destruct (rids !! key) as [rid|] eqn:Hr.
  2:{ intros H. injection H as <-.
      rewrite filter_cons_False by (unfold drawn; rewrite Hr; by intros [_ [? ?]]).
      cbn. split; [done|lia]. }
  rewrite filter_cons_True by (unfold drawn; rewrite Hk, Hr; split; eauto).
  destruct (default _ _) as [h v].
  destruct (build_badge_anchor P rid key h v) as [a|] eqn:Ha; [|done].
  apply build_badge_anchor_shape in Ha as [Ht Hd].
  cbn [mbind result_bind mret result_ret]. intros H. injection H as <-.
  rewrite !collect_all_app, !collect_all_cons. unfold E.
  rewrite !(collect_El _ (w "r")), !collect_all_cons.
  rewrite Ht. rewrite !length_app, Hd.
  repeat match goal with
  | |- context [collect ?g (El (w "rPr") ?x ?y ?z)] =>
      let r := eval vm_compute in (collect g (El (w "rPr") x y z)) in
      replace (collect g (El (w "rPr") x y z)) with r by (vm_compute; reflexivity)
  end.
  assert (Hr1 : forall x, self_if (w "drawing") (El (w "r") [] None x) = []).
  { intros x. unfold self_if, has_tag. cbn [el_tag].
    replace (String.eqb (w "r") (w "drawing")) with false by (vm_compute; reflexivity).
    done. }
  assert (Hr2 : forall x, text_if (w "t") (El (w "r") [] None x) = []).
  { intros x. unfold text_if, has_tag. cbn [el_tag].
    replace (String.eqb (w "r") (w "t")) with false by (vm_compute; reflexivity).
    done. }
  rewrite Hr1, Hr2. split.
  - cbn. by rewrite app_nil_r.
  - cbn. lia.
Qed.

Lemma for_each_badge_run_shape P positions rids l : forall runs runs',
  for_each (badge_run P positions rids) l runs = Ok runs' ->
  collect_all (text_if (w "t")) runs' = collect_all (text_if (w "t")) runs /\
  length (collect_all (self_if (w "drawing")) runs') =
    (length (collect_all (self_if (w "drawing")) runs) +
     length (filter (drawn rids) l))%nat.
Proof.
  induction l as [|key l IH]; intros runs runs' H; simpl in H.
  - injection H as <-. cbn. split; [done|lia].
  - destruct (badge_run P positions rids runs key) as [runs1|] eqn:H1; [|done].
    apply badge_run_shape in H1 as [Ht1 Hd1]. apply IH in H as [Ht Hd].
    split; [congruence|]. rewrite Hd, Hd1.
    change (key :: l) with ([key] ++ l). rewrite filter_app, length_app. lia.
Qed.

Lemma education_shape P dg un l rids edu :
  build_education_paragraph P dg un l rids = Ok edu ->
  collect (text_if (w "t")) edu = [dg; un] /\
  length (collect (self_if (w "drawing")) edu) = length (filter (drawn rids) l).
Proof.
  unfold build_education_paragraph.
  destruct (for_each _ l _) as [kids|] eqn:Hk; [|done].
  apply for_each_badge_run_shape in Hk as [Ht Hd].
  cbn [mbind result_bind mret result_ret]. intros H. injection H as <-.
  rewrite !(collect_E _ (w "p")), !collect_all_app, Ht, !length_app, Hd.
  split.
  - vm_compute. reflexivity.
  - match goal with
    | |- (length ?a + (?b + _ + length ?c) = _)%nat =>
        replace (length a) with 0%nat by (vm_compute; reflexivity);
        replace b with 0%nat by (vm_compute; reflexivity);
        replace (length c) with 0%nat by (vm_compute; reflexivity)
    end.
    lia.
Qed.

Lemma bullets_texts bs :
  collect_all (text_if (w "t")) (map build_bullet_paragraph bs) = bs /\
  collect_all (self_if (w "drawing")) (map build_bullet_paragraph bs) = [].
Proof.
  induction bs as [|b bs [IH1 IH2]]; [done|].
  cbn [map]. rewrite !collect_all_cons, IH1, IH2.
  split; [|vm_compute; reflexivity].
  change (b :: bs) with ([b] ++ bs). apply (f_equal2 app); [|done].
  vm_compute. reflexivity.
Qed.

Lemma job_paragraphs_shape j :
  collect_all (text_if (w "t")) (job_paragraphs shown_company j) = job_texts j /\
  collect_all (self_if (w "drawing")) (job_paragraphs shown_company j) = [].
Proof.
  unfold job_paragraphs, job_texts.
  destruct (bullets_texts (default [] (bullets j))) as [Hb1 Hb2].
  rewrite !collect_all_cons, !collect_all_app, Hb1, Hb2.
  generalize (has_company j). intros hc.
  destruct (shown_company j) as [c|]; cbn [from_option]; destruct hc;
    split; try (vm_compute; reflexivity);
    (apply (f_equal2 app); [vm_compute; reflexivity|]);
    try (apply (f_equal2 app); [vm_compute; reflexivity|]); reflexivity.
Qed.

Lemma jobs_shape js :
  collect_all (text_if (w "t")) (concat (map (job_paragraphs shown_company) js)) =
    concat (map job_texts js) /\
  collect_all (self_if (w "drawing")) (concat (map (job_paragraphs shown_company) js)) = [].
Proof.
  induction js as [|j js [IH1 IH2]]; [done|].
  cbn [map concat]. rewrite !collect_all_app, IH1, IH2.
  destruct (job_paragraphs_shape j) as [-> ->]. done.
Qed.

Lemma document_shape P d :
  valid d ->
  exists doc, build_document_xml P d = Ok doc /\
    texts_of (w "t") (xml_root doc) = document_texts d /\
    length (find_all (w "drawing") (xml_root doc)) =
      length (filter (drawn (foldl allocate_rid (∅, BADGE_RID_START)
                               (default [] (badges d))).1)
                     (default [] (badges d))).
Proof.
  intros Hv. destruct (build_document_xml_layout P d Hv) as (edu & He & Hd).
  eexists. split; [exact Hd|].
  destruct Hv as (_ & _ & _ & _ & (e & Hed & [dg Hdg] & [un Hun]) & (js & Hjs & _)).
  unfold education_of in He. rewrite Hed in He. cbn in He.
  rewrite Hdg, Hun in He. cbn in He.
  apply education_shape in He as [Hte Hde].
  rewrite texts_of_collect, find_all_collect.
  unfold document_of. cbn [xml_root].
  rewrite !(collect_E _ (w "document")), !collect_all_cons, !(collect_E _ (w "body")).
  set (pre := [build_contact_paragraph (req (name d)) (req (phone d)) (req (email d));
               build_section_heading "Professional Experience Summary";
               build_summary_paragraph (req (summary d));
               build_section_heading "Education & Certifications"]).
  set (mid := [build_empty_paragraph "22" true; build_empty_paragraph "22" false;
               build_empty_paragraph "22" true; build_empty_paragraph "22" true;
               build_section_heading "Professional Experience"]).
  set (post := [build_empty_paragraph "22" false; build_empty_paragraph "22" false;
                build_sect_pr]).
  assert (Hshape : body_layout shown_company edu d =
    pre ++ [edu] ++ mid ++ concat (map (job_paragraphs shown_company) (default [] (jobs d)))
      ++ post) by reflexivity.
  rewrite Hshape. clear Hshape.
  destruct (jobs_shape (default [] (jobs d))) as [Hj1 Hj2].
  rewrite !collect_all_app, !collect_all_cons, Hj1, Hj2, Hte.
  unfold document_texts. rewrite Hed. cbn [mbind option_bind]. rewrite Hdg, Hun.
  assert (Hpre : collect_all (text_if (w "t")) pre =
    [req (name d) +:+ " | " +:+ req (phone d) +:+ " | " +:+ req (email d);
     "Professional Experience Summary"; req (summary d);
     "Education & Certifications"]).
  { subst pre. generalize (req (name d)), (req (phone d)), (req (email d)),
      (req (summary d)). intros. vm_compute. reflexivity. }
  assert (Hmid : collect_all (text_if (w "t")) mid = ["Professional Experience"])
    by (vm_compute; reflexivity).
  assert (Hpost : collect_all (text_if (w "t")) post = [])
    by (vm_compute; reflexivity).
  rewrite Hpre, Hmid, Hpost.
  split.
  - cbn [text_if]. generalize (concat (map job_texts (default [] (jobs d)))).
    intros jt. cbn. rewrite !app_nil_r. reflexivity.
  - rewrite !length_app, Hde.
    repeat match goal with
    | |- context [length ?x] =>
        lazymatch x with
        | filter _ _ => fail
        | _ => let r := eval vm_compute in (length x) in
               replace (length x) with r by (vm_compute; reflexivity)
        end
    end.
    lia.
Qed.

Lemma foldl_allocate_rid_keeps l : forall m n k,
  is_Some (m !! k) -> is_Some ((foldl allocate_rid (m, n) l).1 !! k).
Proof.
  induction l as [|a l IH]; intros m n k Hk; [done|].
  cbn [foldl]. unfold allocate_rid at 2.
  destruct (BADGE_REGISTRY !! a); [|by apply IH].
  apply IH. destruct (decide (a = k)) as [->|Hne].
  - rewrite lookup_insert_eq. eauto.
  - by rewrite lookup_insert_ne.
Qed.

Lemma foldl_allocate_rid_covers l : forall m n k,
  k ∈ l -> is_Some (BADGE_REGISTRY !! k) ->
  is_Some ((foldl allocate_rid (m, n) l).1 !! k).
Proof.
  induction l as [|a l IH]; intros m n k Hin Hk; [by apply elem_of_nil in Hin|].
  cbn [foldl]. unfold allocate_rid at 2.
  apply elem_of_cons in Hin as [->|Hin].
  - destruct Hk as [cfg Hk]. rewrite Hk. apply foldl_allocate_rid_keeps.
    rewrite lookup_insert_eq. eauto.
  - destruct (BADGE_REGISTRY !! a); by apply IH.
Qed.

Lemma filter_ext_elem {A} (P Q : A -> Prop) `{!forall x, Decision (P x)}
    `{!forall x, Decision (Q x)} (l : list A) :
  (forall x, x ∈ l -> P x <-> Q x) -> filter P l = filter Q l.
Proof.
  induction l as [|a l IH]; intros Hl; [done|].
  rewrite !filter_cons.
  assert (Ha : P a <-> Q a) by (apply Hl; left).
  rewrite IH by (intros x Hx; apply Hl; by right).
  destruct (decide (P a)), (decide (Q a)); tauto.
Qed.

Lemma drawn_registry keys :
  filter (drawn (foldl allocate_rid (∅, BADGE_RID_START) keys).1) keys =
  filter in_registry keys.
Proof.
  apply filter_ext_elem. intros k Hk. unfold drawn. split; [tauto|].
  intros Hr. split; [done|]. by apply foldl_allocate_rid_covers.
Qed.

(** X17: the texts of the w:t elements of the built document, in document
    order, are: the contact line name | phone | email, the summary heading,
    the summary, the education heading, degree, university, the experience
    heading, then for each job the title followed by a dash, the dates, the
    company when present and not empty, and the bullets. Badges add no text. *)
Theorem document_texts_in_order P d :
  valid d ->
  exists doc, build_document_xml P d = Ok doc /\
    texts_of (w "t") (xml_root doc) = document_texts d.
Proof.
  intros Hv. destruct (document_shape P d Hv) as (doc & Hd & Ht & _). eauto.
Qed.

Lemma document_texts_in_order_witness :
  valid (sample_input (Some ["csm"]) (Some "US Army")) /\
  exists doc,
    build_document_xml sample_process (sample_input (Some ["csm"]) (Some "US Army")) = Ok doc /\
    texts_of (w "t") (xml_root doc) =
      ["Ada Smith | 555-0100 | ada@example.com"; "Professional Experience Summary";
       "Engineer with ten years of practice."; "Education & Certifications";
       "BS Computer Science"; "State University"; "Professional Experience";
       "Engineer - "; "2020 - 2024"; "US Army"; "Built things"; "Fixed things"].
Proof.
  split; [apply sample_valid|].
  destruct (document_texts_in_order sample_process _ (sample_valid (Some ["csm"]) (Some "US Army")))
    as (doc & Hd & Ht).
  exists doc. split; [exact Hd|]. rewrite Ht. reflexivity.
Defined.

(** X18: a built document has exactly one drawing per listed recognised badge
    key, repeats counted; unrecognised keys add none. *)
Theorem one_drawing_per_registry_badge P d doc :
  build_document_xml P d = Ok doc ->
  length (find_all (w "drawing") (xml_root doc)) = length (registry_badges d).
Proof.
  intros Hd.
  assert (Hv : valid d).
  { destruct (build_document_xml_outcome P d) as [[Hv _]|(_ & e & He & _)];
      [done|congruence]. }
  destruct (document_shape P d Hv) as (doc' & Hd' & _ & Hn).
  assert (doc' = doc) by congruence. subst doc'.
  rewrite Hn, drawn_registry. reflexivity.
Qed.

Lemma one_drawing_per_registry_badge_witness :
  exists doc,
    build_document_xml sample_process (sample_input (Some ["csm"; "bogus"; "csm"]) None) = Ok doc /\
    length (find_all (w "drawing") (xml_root doc)) = 2%nat.
Proof.
  destruct (build_document_xml sample_process (sample_input (Some ["csm"; "bogus"; "csm"]) None))
    as [doc|e] eqn:Hd; [|vm_compute in Hd; discriminate Hd].
  exists doc. split; [reflexivity|].
  rewrite (one_drawing_per_registry_badge _ _ _ Hd). reflexivity.
Defined.

(** ** Dependence on the process *)

Lemma build_badge_anchor_hash P P' rid key h v :
  str_hash P key = str_hash P' key ->
  build_badge_anchor P rid key h v = build_badge_anchor P' rid key h v.
Proof.
  intros H. unfold build_badge_anchor, drawing_id. by rewrite H.
Qed.

Lemma for_each_badge_run_hash P P' positions rids l : forall runs,
  (forall k, k ∈ l -> is_Some (BADGE_REGISTRY !! k) -> str_hash P k = str_hash P' k) ->
  for_each (badge_run P positions rids) l runs =
  for_each (badge_run P' positions rids) l runs.
Proof.
  induction l as [|key l IH]; intros runs H; [done|].
  cbn [for_each].
  assert (H1 : badge_run P positions rids runs key = badge_run P' positions rids runs key).
  { unfold badge_run. destruct (BADGE_REGISTRY !! key) eqn:Hk; [|done].
    destruct (rids !! key); [|done]. destruct (default _ _) as [h v].
    rewrite (build_badge_anchor_hash P P') by (apply H; [left|rewrite Hk; eauto]).
    done. }
  rewrite H1. destruct (badge_run P' positions rids runs key); [|done].
  cbn. apply IH. intros k Hk. apply H. by right.
Qed.

(** X19: the document depends on the process only through the hash of the
    recognised badge keys listed: two processes that agree on these build the
    same result, whatever their install root, temporary names, clock and hash
    of other strings. *)
Theorem document_depends_on_badge_hashes_only P P' d :
  (forall k, k ∈ registry_badges d -> str_hash P k = str_hash P' k) ->
  build_document_xml P d = build_document_xml P' d.
Proof.
  intros H. unfold build_document_xml.
  repeat match goal with
  | |- context [@getitem string ?k ?f] =>
      destruct (@getitem string k f); cbn [mbind result_bind]; [|done]
  | |- context [@getitem Education ?k ?f] =>
      destruct (@getitem Education k f); cbn [mbind result_bind]; [|done]
  end.
  unfold build_education_paragraph.
  rewrite (for_each_badge_run_hash P P'); [done|].
  intros k Hk Hr. apply H. unfold registry_badges. apply list_elem_of_filter. done.
Qed.

Lemma document_depends_on_badge_hashes_only_witness :
  str_hash sample_process "bogus" <> str_hash relocated_process "bogus" /\
  build_document_xml sample_process (sample_input (Some ["csm"; "bogus"]) None) =
  build_document_xml relocated_process (sample_input (Some ["csm"; "bogus"]) None).
Proof.
  split; [vm_compute; discriminate|].
  apply document_depends_on_badge_hashes_only. intros k Hk.
  replace (registry_badges (sample_input (Some ["csm"; "bogus"]) None)) with ["csm"] in Hk
    by (vm_compute; reflexivity).
  apply list_elem_of_singleton in Hk as ->. reflexivity.
Defined.

(** ** When the identifiers match *)

(** Identifier lists of a built document. *)
Lemma document_id_lists P d doc :
  build_document_xml P d = Ok doc ->
  embed_ids doc =
    omap ((foldl allocate_rid (∅, BADGE_RID_START) (default [] (badges d))).1 !!.)
         (registry_badges d) /\
  reference_ids doc = ["rId15"; "rId16"; "rId17"; "rId18"; "rId19"; "rId20"].
Proof.
  intros Hd.
  assert (Hv : valid d).
  { destruct (build_document_xml_outcome P d) as [[Hv _]|(_ & e & He & _)];
      [done|congruence]. }
  destruct (build_document_xml_layout P d Hv) as (edu & He & Hd').
  rewrite Hd in Hd'. injection Hd' as ->.
  destruct (document_ids shown_company edu d) as [-> ->].
  unfold education_of in He.
  destruct (education d) as [e|]; [|done]. cbn in He.
  destruct (degree e) as [dg|]; [|done]. cbn in He.
  destruct (university e) as [un|]; [|done]. cbn in He.
  apply education_ids in He as [-> ->]. done.
Qed.

Lemma count_string_elem x l : count_string x l = 1%nat -> x ∈ l.
Proof.
  unfold count_string. intros H.
  destruct (List.filter (String.eqb x) l) as [|y l'] eqn:Hf; [done|].
  assert (Hy : In y (List.filter (String.eqb x) l)) by (rewrite Hf; by left).
  apply List.filter_In in Hy as [Hy Heq]. apply String.eqb_eq in Heq as ->.
  by apply list_elem_of_In.
Qed.

Lemma omap_total {A B} (g : A -> option B) (b : B) (l : list A) :
  (forall x, x ∈ l -> is_Some (g x)) ->
  omap g l = map (fun x => default b (g x)) l.
Proof.
  induction l as [|a l IH]; intros H; [done|].
  cbn [omap list_omap map]. destruct (H a) as [y Hy]; [left|].
  rewrite Hy. cbn. f_equal. apply IH. intros x Hx. apply H. by right.
Qed.

(** X20: for a built document, the identifiers the content tree refers to and
    those the manifest declares match in both directions exactly when no
    recognised badge key is listed twice. *)
Theorem identifiers_match_iff_distinct P d doc :
  build_document_xml P d = Ok doc ->
  rels_consistent doc (build_document_rels (registry_badges d)) = true <->
  NoDup (registry_badges d).
Proof.
  intros Hd. split.
  2:{ intros Hnd.
      assert (Hv : valid d).
      { destruct (build_document_xml_outcome P d) as [[Hv _]|(_ & e & He & _)];
          [done|congruence]. }
      destruct (distinct_badges_consistent P d Hv Hnd) as (doc' & Hd' & Hc).
      congruence. }
  intros Hc. destruct (document_id_lists P d doc Hd) as [Hemb Href].
  destruct (manifest_ids (registry_badges d)) as [Hdecl Himg].
  assert (Hlen : length (filter in_registry (registry_badges d)) = length (registry_badges d)).
  { f_equal. unfold registry_badges. apply list_filter_filter_l. auto. }
  rewrite Hlen in Hdecl, Himg.
  set (n := length (registry_badges d)) in *.
  unfold rels_consistent in Hc. apply andb_true_iff in Hc as [Hc1 Hc2].
  rewrite forallb_forall in Hc1, Hc2.
  assert (Hn : (n <= 4)%nat).
  { destruct (decide (n <= 4)%nat) as [|Hn]; [done|]. exfalso.
    specialize (Hc1 "rId15"). rewrite Href, Hdecl in Hc1.
    assert (Hin : In "rId15" (embed_ids doc ++
              ["rId15"; "rId16"; "rId17"; "rId18"; "rId19"; "rId20"])).
    { apply in_or_app. right. by left. }
    apply Hc1, Nat.eqb_eq in Hin. unfold count_string in Hin.
    rewrite !List.filter_app, !length_app in Hin.
    assert (H15 : "rId15" ∈ rid_range 11 n) by (apply (rid_range_elem 11 n 4); lia).
    apply list_elem_of_In in H15.
    assert (H15' : In "rId15" (List.filter (String.eqb "rId15") (rid_range 11 n))).
    { apply List.filter_In. split; [done|]. apply String.eqb_refl. }
    destruct (List.filter (String.eqb "rId15") (rid_range 11 n)); [done|].
    cbn in Hin. lia. }
  assert (Hnd : NoDup (rid_range 11 n)).
  { destruct n as [|[|[|[|[|n]]]]]; [..|lia];
      apply (bool_decide_unpack _); vm_compute; exact I. }
  set (rids := (foldl allocate_rid (∅, BADGE_RID_START) (default [] (badges d))).1) in *.
  assert (Htot : forall k, k ∈ registry_badges d -> is_Some (rids !! k)).
  { intros k Hk. unfold registry_badges in Hk. apply list_elem_of_filter in Hk as [Hk Hin].
    by apply foldl_allocate_rid_covers. }
  rewrite (omap_total _ EmptyString _ Htot) in Hemb.
  assert (Hsub : rid_range 11 n ⊆+ embed_ids doc).
  { apply NoDup_submseteq; [done|]. intros id Hid.
    apply count_string_elem, Nat.eqb_eq, Hc2. rewrite Himg. by apply list_elem_of_In. }
  assert (Hperm : rid_range 11 n ≡ₚ embed_ids doc).
  { apply submseteq_length_Permutation; [done|].
    rewrite Hemb, length_map. unfold rid_range. rewrite length_map, length_seq. done. }
  rewrite Hperm, Hemb in Hnd. by apply NoDup_fmap_1 in Hnd.
Qed.

Lemma identifiers_match_iff_distinct_witness :
  exists doc,
    build_document_xml sample_process (sample_input (Some ["csm"; "ts_sci"]) None) = Ok doc /\
    rels_consistent doc
      (build_document_rels (registry_badges (sample_input (Some ["csm"; "ts_sci"]) None))) = true.
Proof.
  destruct (build_document_xml sample_process (sample_input (Some ["csm"; "ts_sci"]) None))
    as [doc|e] eqn:Hd; [|vm_compute in Hd; discriminate Hd].
  exists doc. split; [reflexivity|].
  apply (identifiers_match_iff_distinct _ _ _ Hd).
  apply (bool_decide_unpack _). vm_compute. exact I.
Defined.

(** ** Members copied as they are *)



(** ** Messages of a successful run *)

Lemma zip_write_inv P src arc W r W' : zip_write P src arc W = (r, W') -> W' = W.
Proof.
  unfold zip_write. destruct (is_dir W src); intros H.
  - by injection H as _ <-.
  - apply bind_cases in H as [(e & H & _)|(f & W1 & Hf & H)].
    + by apply open_read_inv in H as [-> _].
    + apply open_read_inv in Hf as [-> _]. by injection H as _ <-.
Qed.

Lemma missing_warnings_ext P W1 W2 keys :
  fs W1 = fs W2 -> dirs W1 = dirs W2 ->
  missing_warnings P W1 keys = missing_warnings P W2 keys.
Proof.
  intros Hf Hd. unfold missing_warnings, omap.
  induction keys as [|key keys IH]; [done|]. cbn [list_omap]. rewrite IH.
  destruct (BADGE_REGISTRY !! key) as [cfg|]; [|done].
  by rewrite (is_dir_ext W1 W2 _ Hf Hd), Hf.
Qed.

Lemma add_badge_stdout P zout key W out W' :
  add_badge P zout key W = (Ok out, W') ->
  stdout W' = stdout W ++ missing_warnings P W [key].
Proof.
  unfold add_badge, missing_warnings. cbn [omap list_omap].
  destruct (BADGE_REGISTRY !! key) as [cfg|].
  2:{ intros H. injection H as _ <-. by rewrite app_nil_r. }
  intros H. apply bind_ok in H as (found & W1 & Hex & H).
  injection Hex as <- <-. cbv zeta.
  destruct (bool_decide _ || is_dir W _).
  - apply bind_ok in H as (m & W2 & Hw & H). injection H as _ <-.
    apply zip_write_inv in Hw as ->. by rewrite app_nil_r.
  - apply bind_ok in H as (u & W2 & Hp & H). injection H as _ <-.
    by injection Hp as _ <-.
Qed.

Lemma missing_warnings_cons P W key keys :
  missing_warnings P W (key :: keys) =
  missing_warnings P W [key] ++ missing_warnings P W keys.
Proof.
  unfold missing_warnings. cbn [omap list_omap].
  destruct (BADGE_REGISTRY !! key) as [cfg|]; [|done]. cbv zeta.
  by destruct (bool_decide _ || is_dir W _).
Qed.

Lemma add_badges_stdout P keys : forall zout W out W',
  for_each_io (add_badge P) keys zout W = (Ok out, W') ->
  stdout W' = stdout W ++ missing_warnings P W keys.
Proof.
  induction keys as [|key keys IH]; intros zout W out W' H; simpl in H.
  - injection H as _ <-. by rewrite app_nil_r.
  - apply bind_ok in H as (zout' & W1 & H1 & H).
    destruct (fs_stable_add_badge P zout key _ _ _ H1) as [Hfs Hdirs].
    apply add_badge_stdout in H1. apply IH in H.
    rewrite H, H1, (missing_warnings_ext P W1 W keys Hfs Hdirs), <- app_assoc.
    f_equal. symmetry. apply missing_warnings_cons.
Qed.

Lemma replace_stdout P zip_path replacements badge_keys W W' :
  _replace_in_zip P zip_path replacements badge_keys W = (Ok tt, W') ->
  stdout W' = stdout W ++
    missing_warnings P (mkWorld (with_tmp P (fs W)) (dirs W) (stdout W)) badge_keys.
Proof.
  intros H. apply replace_success in H
    as (zin & copied & out & W2 & _ & _ & Hadd & _ & _ & ->).
  by apply add_badges_stdout in Hadd.
Qed.

(** X22: a run of [generate_resume] that returns has printed, in order, one
    warning per requested recognised badge whose asset path holds neither a
    file nor a directory, then Generated: <output path>, and nothing else. *)
Theorem success_prints_warnings_then_generated
    P input_path output_path template_path W W' :
  generate_resume P input_path output_path template_path W = (Ok tt, W') ->
  exists d tpl,
    load_json input_path W = (Ok d, W) /\
    fs W !! default (TEMPLATE_PATH P) template_path = Some tpl /\
    stdout W' = stdout W
      ++ missing_warnings P (splice_world P W output_path tpl) (registry_badges d)
      ++ ["Generated: " +:+ output_path].
Proof.
  intros H. apply generate_resume_success in H
    as (d & tpl & doc & W2 & Hload & _ & Htpl & _ & Hrep & ->).
  apply replace_stdout in Hrep. cbn [fs dirs stdout] in *.
  exists d, tpl. split; [done|]. split; [done|].
  by rewrite Hrep, <- app_assoc.
Qed.

Lemma success_prints_warnings_then_generated_witness :
  sample_success.1 = Ok tt /\
  stdout sample_success.2 =
    ["Warning: Badge image not found: /opt/resume_builder/assets/badges/ts_sci.png";
     "Generated: /work/out.docx"].
Proof.
  split; [vm_compute; reflexivity|].
  destruct (success_prints_warnings_then_generated _ _ _ _ _ _ sample_success_run)
    as (d & tpl & Hload & Htpl & ->).
  assert (d = sample_input (Some ["csm"; "ts_sci"]) (Some "US Army")) as ->.
  { vm_compute in Hload. by injection Hload as <-. }
  assert (tpl = sample_template) as ->.
  { vm_compute in Htpl. by injection Htpl as <-. }
  vm_compute. reflexivity.
Defined.
